(** * Seat reservation core of the movie ticket booking system

    A shallow embedding of the backend code that touches the five relations
    [seats], [seat_locks], [bookings], [booking_seats] and [payments]:

    - the Socket.IO handlers ([setupSocketHandlers]): [select-seats],
      [confirm-booking], [disconnect] and the periodic clean-up;
    - the booking route ([router.post('/')]): booking creation;
    - the payments route ([router.post('/webhook')]): the gateway events;
    - the movies route ([router.get('/showtimes/:showtimeId/seats')]).

    Tables are lists of rows in storage order, queries are filters over them,
    and every handler is a function from the database (and the values it reads
    from its environment: the clock, generated ids, store failures) to the new
    database, the real-time events it emits and its response. *)

From Stdlib Require Import ZArith QArith List Ascii String Bool Lia.
From Stdlib Require Import Permutation Orders Sorting.Mergesort.
Import ListNotations.

Local Open Scope Z_scope.

(** ** Basic data *)

(** Identifiers are the strings the code passes around (UUIDs in practice). *)
Definition ident := string.

(** Instants are [Date.now()] values: milliseconds since the epoch.  The code
    stores [toISOString()] renderings, which keep exactly the millisecond, and
    the store compares them as timestamps. *)
Definition instant := Z.

(** [.in(column, values)] *)
Definition elem (x : ident) (xs : list ident) : bool :=
  existsb (String.eqb x) xs.

Module SeatLock.
Record t := mk
  { seat_id : ident;
    showtime_id : ident;
    user_id : ident;
    locked_until : instant }.
End SeatLock.

Module Booking.
Inductive status_t := pending | confirmed | paid | cancelled.

Record t := mk
  { id : ident;
    user_id : ident;
    showtime_id : ident;
    total_amount : Q;
    booking_date : instant;
    status : status_t }.

(** [.in('bookings.status', ['confirmed', 'paid'])] *)
Definition taken (s : status_t) : bool :=
  match s with
  | confirmed | paid => true
  | pending | cancelled => false
  end.

Definition set_status (s : status_t) (b : t) : t :=
  mk (id b) (user_id b) (showtime_id b) (total_amount b) (booking_date b) s.
End Booking.

Module BookingSeat.
Record t := mk
  { booking_id : ident;
    seat_id : ident;
    showtime_id : ident }.
End BookingSeat.

Module Payment.
Inductive status_t := pending | completed | failed.

Record t := mk
  { booking_id : ident;
    stripe_payment_intent_id : ident;
    amount : Q;
    payment_status : status_t;
    payment_date : option instant }.
End Payment.

Module Seat.
Inductive seat_type_t := regular | premium | vip.

Record t := mk
  { id : ident;
    theater_id : ident;
    row_number : Z;
    seat_number : Z;
    seat_type : seat_type_t;
    is_active : bool }.
End Seat.

Module Showtime.
(** Only the columns the core reads; [theater_id] stands for the joined
    [theaters.id]. *)
Record t := mk
  { id : ident;
    movie_id : ident;
    theater_id : ident }.
End Showtime.

(** ** The store *)

Module Store.

Record t := mk
  { seats : list Seat.t;
    showtimes : list Showtime.t;
    seat_locks : list SeatLock.t;
    bookings : list Booking.t;
    booking_seats : list BookingSeat.t;
    payments : list Payment.t }.

Definition with_seat_locks (ls : list SeatLock.t) (db : t) : t :=
  mk (seats db) (showtimes db) ls (bookings db) (booking_seats db) (payments db).

Definition with_bookings (bs : list Booking.t) (db : t) : t :=
  mk (seats db) (showtimes db) (seat_locks db) bs (booking_seats db) (payments db).

Definition with_booking_seats (bs : list BookingSeat.t) (db : t) : t :=
  mk (seats db) (showtimes db) (seat_locks db) (bookings db) bs (payments db).

Definition with_payments (ps : list Payment.t) (db : t) : t :=
  mk (seats db) (showtimes db) (seat_locks db) (bookings db) (booking_seats db) ps.

(** Modelled from the spec: the definition of the [seat_locks] table is not
    among the sources.  The spec says a lock row is "keyed uniquely on
    (seat, showtime)".  An [upsert] of a row whose (seat, showtime) pair is
    already present either replaces that row (the pair is the conflict
    target: [MergeDuplicates]) or is refused by the uniqueness constraint
    (the pair is unique beside a generated primary key: [RejectDuplicate]);
    in the second case the error comes back in the result object, which the
    socket handler discards. *)
Inductive upsert_resolution := MergeDuplicates | RejectDuplicate.

Definition same_slot (a b : SeatLock.t) : bool :=
  String.eqb (SeatLock.seat_id a) (SeatLock.seat_id b)
  && String.eqb (SeatLock.showtime_id a) (SeatLock.showtime_id b).

(** [supabase.from('seat_locks').upsert(row)] *)
Definition upsert_lock (res : upsert_resolution) (row : SeatLock.t)
    (tbl : list SeatLock.t) : list SeatLock.t :=
  if existsb (same_slot row) tbl then
    match res with
    | MergeDuplicates => map (fun r => if same_slot row r then row else r) tbl
    | RejectDuplicate => tbl
    end
  else tbl ++ [row].

(** [.delete().eq('seat_id', seatId).eq('user_id', userId)] *)
Definition delete_lock_of (seatId userId : ident) (tbl : list SeatLock.t)
    : list SeatLock.t :=
  filter (fun l => negb (String.eqb (SeatLock.seat_id l) seatId
                         && String.eqb (SeatLock.user_id l) userId)) tbl.

(** [.delete().in('seat_id', seatIds).eq('user_id', userId)] *)
Definition delete_locks_in (seatIds : list ident) (userId : ident)
    (tbl : list SeatLock.t) : list SeatLock.t :=
  filter (fun l => negb (elem (SeatLock.seat_id l) seatIds
                         && String.eqb (SeatLock.user_id l) userId)) tbl.

(** [.delete().eq('user_id', userId)] *)
Definition delete_locks_of_user (userId : ident) (tbl : list SeatLock.t)
    : list SeatLock.t :=
  filter (fun l => negb (String.eqb (SeatLock.user_id l) userId)) tbl.

(** [.lt('locked_until', now)] *)
Definition expired (now : instant) (l : SeatLock.t) : bool :=
  SeatLock.locked_until l <? now.

(** [.gt('locked_until', now)] *)
Definition live (now : instant) (l : SeatLock.t) : bool :=
  now <? SeatLock.locked_until l.

(** The inner join of [booking_seats] with [bookings], restricted to one
    showtime and to the statuses confirmed and paid: one result row per
    matching (booking seat, booking) pair, projected on [seat_id]. *)
Definition booked_seat_rows (db : t) (showtimeId : ident) : list ident :=
  flat_map
    (fun bs =>
       if String.eqb (BookingSeat.showtime_id bs) showtimeId then
         map (fun _ => BookingSeat.seat_id bs)
             (filter (fun b => String.eqb (Booking.id b) (BookingSeat.booking_id bs)
                               && Booking.taken (Booking.status b))
                     (bookings db))
       else [])
    (booking_seats db).

End Store.

(** ** Real-time events *)

Module Realtime.

Inductive payload :=
| seats_locked (seatIds : list ident) (lockedBy : ident) (lockedUntil : instant)
| seats_released (seatIds : list ident)
| seats_booked (seatIds : list ident) (bookingId : ident)
| seat_selection_error            (* emitted by the catch of select-seats *)
| booking_confirmation_error.     (* emitted by the catch of confirm-booking *)

(** Who receives an emission. *)
Inductive emission :=
| to_room_except_sender (room : string) (p : payload)   (* socket.to(room).emit *)
| to_room (room : string) (p : payload)                 (* io.to(room).emit *)
| to_sender (p : payload).                              (* socket.emit *)

(** [`showtime-${showtimeId}`] *)
Definition room_of (showtimeId : ident) : string :=
  String.append "showtime-" showtimeId.

End Realtime.

(** ** Socket handlers

    The store client resolves every call with a result object
    [{ data, error }] and does not throw; the socket handlers drop that
    object, so for well-typed event data their [catch] blocks are not entered
    and the handlers below have no failing path. *)

Module Sockets.
Import Store Realtime.

Inductive action_t := select | deselect | other_action.

Record select_seats_data := mk_select
  { showtimeId : ident;
    seatIds : list ident;
    action : action_t }.

Record confirm_booking_data := mk_confirm
  { cb_showtimeId : ident;
    cb_bookingId : ident;
    cb_seatIds : list ident }.

(** [10 * 60 * 1000] *)
Definition lock_ttl_ms : Z := 10 * 60 * 1000.

(** The period handed to [setInterval]. *)
Definition cleanup_interval_ms : Z := 60000.

Definition lock_row (showtime user : ident) (expiry : instant) (seat : ident)
    : SeatLock.t :=
  SeatLock.mk seat showtime user expiry.

(** [socket.on('select-seats', ...)]: [userId] is [socket.userId], [now] is
    the value of [Date.now()] read once before the loop. *)
Definition select_seats (res : upsert_resolution) (userId : ident)
    (now : instant) (data : select_seats_data) (db : Store.t)
    : Store.t * list emission :=
  match action data with
  | select =>
      let lockExpiry := now + lock_ttl_ms in
      let locks :=
        fold_left
          (fun tbl seatId =>
             upsert_lock res (lock_row (showtimeId data) userId lockExpiry seatId) tbl)
          (seatIds data) (seat_locks db) in
      (with_seat_locks locks db,
       [to_room_except_sender (room_of (showtimeId data))
          (seats_locked (seatIds data) userId lockExpiry)])
  | deselect =>
      let locks :=
        fold_left (fun tbl seatId => delete_lock_of seatId userId tbl)
                  (seatIds data) (seat_locks db) in
      (with_seat_locks locks db,
       [to_room_except_sender (room_of (showtimeId data))
          (seats_released (seatIds data))])
  | other_action => (db, [])
  end.

(** [socket.on('confirm-booking', ...)] *)
Definition confirm_booking (userId : ident) (data : confirm_booking_data)
    (db : Store.t) : Store.t * list emission :=
  let locks :=
    fold_left (fun tbl seatId => delete_lock_of seatId userId tbl)
              (cb_seatIds data) (seat_locks db) in
  (with_seat_locks locks db,
   [to_room (room_of (cb_showtimeId data))
      (seats_booked (cb_seatIds data) (cb_bookingId data))]).

(** [socket.on('disconnect', ...)] *)
Definition disconnect (userId : ident) (db : Store.t) : Store.t :=
  with_seat_locks (delete_locks_of_user userId (seat_locks db)) db.

(** The grouping object [locksByShowtime]: keys in order of first insertion
    (the order in which [Object.entries] lists keys that are not array
    indices, as showtime ids are not), each with the seat ids pushed so far. *)
Fixpoint group_push (k v : ident) (g : list (ident * list ident))
    : list (ident * list ident) :=
  match g with
  | [] => [(k, [v])]
  | (k', vs) :: g' =>
      if String.eqb k k' then (k', vs ++ [v]) :: g'
      else (k', vs) :: group_push k v g'
  end.

Definition group_by_showtime (rows : list SeatLock.t)
    : list (ident * list ident) :=
  fold_left (fun g l => group_push (SeatLock.showtime_id l) (SeatLock.seat_id l) g)
            rows [].

(** One run of the [setInterval] callback at clock reading [now]. *)
Definition cleanup_tick (now : instant) (db : Store.t)
    : Store.t * list emission :=
  let expiredLocks := filter (expired now) (seat_locks db) in
  match expiredLocks with
  | [] => (db, [])
  | _ :: _ =>
      let locksByShowtime := group_by_showtime expiredLocks in
      (with_seat_locks (filter (fun l => negb (expired now l)) (seat_locks db)) db,
       map (fun '(showtimeId, seatIds) =>
              to_room (room_of showtimeId) (seats_released seatIds))
           locksByShowtime)
  end.

(** The clock reading of the [k]-th run (counted from 0) of a timer armed at
    [boot]. *)
Definition tick_time (boot : instant) (k : nat) : instant :=
  boot + cleanup_interval_ms * (Z.of_nat k + 1).

(** The first [n] runs of the clean-up over a store nobody else touches:
    the store reached and the emissions of each run, oldest first. *)
Fixpoint run_ticks (boot : instant) (n : nat) (db : Store.t)
    : Store.t * list (list emission) :=
  match n with
  | O => (db, [])
  | S m =>
      let '(db1, log) := run_ticks boot m db in
      let '(db2, evs) := cleanup_tick (tick_time boot m) db1 in
      (db2, log ++ [evs])
  end.

End Sockets.

(** ** Booking route *)

Module Bookings.
Import Store.

Record body := mk_body
  { showtimeId : ident;
    seatIds : list ident;
    totalAmount : Q }.

(** What the handler reads from outside the request: the clock, the id the
    store generates for the new booking row, and, for each store call,
    whether the store reports a failure.  A failed call changes nothing (the
    booking-seat rows go in with one insert, all or none).  The compensating
    delete can fail like any other call ([rollbackError]); the handler awaits
    it and drops its result, so its failure changes what is left in the store
    and not what the handler does next. *)
Record env := mk_env
  { now : instant;
    generated_id : ident;
    showtimeError : bool;
    locksError : bool;
    bookedError : bool;
    bookingError : bool;
    bookingSeatsError : bool;
    fullBookingError : bool;
    rollbackError : bool }.

Inductive bad_request :=
| validation_failed        (* error.details[0].message *)
| seats_not_locked         (* 'Some seats are not locked by you or unavailable' *)
| seats_already_booked.    (* 'Some seats are already booked' *)

Inductive thrown :=
| locks_error | booked_error | booking_error | booking_seats_error
| full_booking_error.

Inductive response :=
| status400 (error : bad_request)
| status404                                             (* 'Showtime not found' *)
| status201 (booking : Booking.t) (seats : list BookingSeat.t)
| next_error (e : thrown).                              (* next(error) *)

Section Route.

(** The textual check behind [Joi.string().uuid()], a library function. *)
Variable is_uuid : string -> bool.

(** [createBookingSchema.validate(req.body)] *)
Definition createBookingSchema (b : body) : bool :=
  is_uuid (showtimeId b)
  && forallb is_uuid (seatIds b)
  && (1 <=? List.length (seatIds b))%nat
  && (List.length (seatIds b) <=? 10)%nat
  && (0 <? Qnum (totalAmount b)).

(** The locks the handler accepts as proof of a hold: rows of this
    showtime, owned by the user, on one of the requested seats. *)
Definition held_locks (db : Store.t) (userId : ident) (b : body)
    : list SeatLock.t :=
  filter (fun l => String.eqb (SeatLock.showtime_id l) (showtimeId b)
                   && String.eqb (SeatLock.user_id l) userId
                   && elem (SeatLock.seat_id l) (seatIds b))
         (seat_locks db).

(** Rows of [booking_seats] of this showtime on a requested seat whose
    booking is confirmed or paid. *)
Definition booked_among (db : Store.t) (b : body) : list ident :=
  filter (fun s => elem s (seatIds b)) (booked_seat_rows db (showtimeId b)).

(** [router.post('/', ...)] *)
Definition create_booking (userId : ident) (b : body) (e : env)
    (db : Store.t) : Store.t * response :=
  if negb (createBookingSchema b) then (db, status400 validation_failed)
  else
    match
      (if showtimeError e then None
       else find (fun s => String.eqb (Showtime.id s) (showtimeId b))
                 (showtimes db))
    with
    | None => (db, status404)
    | Some _ =>
      if locksError e then (db, next_error locks_error)
      else if negb (List.length (held_locks db userId b) =? List.length (seatIds b))%nat
      then (db, status400 seats_not_locked)
      else if bookedError e then (db, next_error booked_error)
      else if (0 <? List.length (booked_among db b))%nat
      then (db, status400 seats_already_booked)
      else if bookingError e
              || existsb (fun x => String.eqb (Booking.id x) (generated_id e))
                         (bookings db)
      then (db, next_error booking_error)
      else
        let booking :=
          Booking.mk (generated_id e) userId (showtimeId b) (totalAmount b)
                     (now e) Booking.pending in
        let db1 := with_bookings (bookings db ++ [booking]) db in
        let bookingSeatsData :=
          map (fun seatId =>
                 BookingSeat.mk (Booking.id booking) seatId (showtimeId b))
              (seatIds b) in
        if bookingSeatsError e then
          (* Rollback booking if seats insertion fails *)
          ((if rollbackError e then db1
            else
              with_bookings
                (filter (fun x => negb (String.eqb (Booking.id x)
                                                   (Booking.id booking)))
                        (bookings db1))
                db1),
           next_error booking_seats_error)
        else
          let db2 := with_booking_seats (booking_seats db1 ++ bookingSeatsData) db1 in
          if fullBookingError e then (db2, next_error full_booking_error)
          else
            match find (fun x => String.eqb (Booking.id x) (Booking.id booking))
                       (bookings db2) with
            | None => (db2, next_error full_booking_error)
            | Some fullBooking =>
                (db2,
                 status201 fullBooking
                   (filter (fun bs => String.eqb (BookingSeat.booking_id bs)
                                                 (Booking.id fullBooking))
                           (booking_seats db2)))
            end
    end.

End Route.

(** The canonical rendering of a UUID: 36 characters, hyphens at positions 8,
    13, 18 and 23, hexadecimal digits elsewhere. *)
Definition is_hex (c : Ascii.ascii) : bool :=
  let n := Ascii.nat_of_ascii c in
  ((48 <=? n) && (n <=? 57) || (97 <=? n) && (n <=? 102)
   || (65 <=? n) && (n <=? 70))%nat.

Fixpoint canonical_from (i : nat) (s : string) : bool :=
  match s with
  | EmptyString => (i =? 36)%nat
  | String c s' =>
      (if ((i =? 8) || (i =? 13) || (i =? 18) || (i =? 23))%nat
       then Ascii.eqb c "-"%char else is_hex c)
      && canonical_from (S i) s'
  end.

Definition canonical_uuid (s : string) : bool := canonical_from 0 s.

End Bookings.

(** ** Payments route: the gateway webhook *)

Module Payments.
Import Store Realtime.

Record payment_intent := mk_intent
  { id : ident;
    metadata_bookingId : ident;
    metadata_userId : ident }.

(** [event.type], after signature verification. *)
Inductive event :=
| payment_intent_succeeded (paymentIntent : payment_intent)
| payment_intent_payment_failed (paymentIntent : payment_intent)
| unhandled (type : string).

(** The store calls of the handler whose [error] it inspects. *)
Record failures := mk_failures
  { paymentUpdateError : bool;
    bookingUpdateError : bool;
    seatsError : bool }.

Definition no_failure : failures := mk_failures false false false.

Inductive response :=
| received        (* res.json({ received: true }) *)
| status500.      (* 'Webhook processing failed' *)

(** [.update(fields).eq('stripe_payment_intent_id', id)] *)
Definition update_payments (intentId : ident) (f : Payment.t -> Payment.t)
    (tbl : list Payment.t) : list Payment.t :=
  map (fun p => if String.eqb (Payment.stripe_payment_intent_id p) intentId
                then f p else p) tbl.

Definition mark_completed (now : instant) (p : Payment.t) : Payment.t :=
  Payment.mk (Payment.booking_id p) (Payment.stripe_payment_intent_id p)
             (Payment.amount p) Payment.completed (Some now).

Definition mark_failed (p : Payment.t) : Payment.t :=
  Payment.mk (Payment.booking_id p) (Payment.stripe_payment_intent_id p)
             (Payment.amount p) Payment.failed (Payment.payment_date p).

(** [.update({ status: 'paid' }).eq('id', bookingId)] *)
Definition mark_paid (bookingId : ident) (tbl : list Booking.t)
    : list Booking.t :=
  map (fun b => if String.eqb (Booking.id b) bookingId
                then Booking.set_status Booking.paid b else b) tbl.

(** [router.post('/webhook', ...)], from the [switch] on. *)
Definition webhook (now : instant) (f : failures) (ev : event) (db : Store.t)
    : Store.t * list emission * response :=
  match ev with
  | payment_intent_succeeded paymentIntent =>
      let bookingId := metadata_bookingId paymentIntent in
      let userId := metadata_userId paymentIntent in
      if paymentUpdateError f then (db, [], status500)
      else
        let db1 :=
          with_payments
            (update_payments (id paymentIntent) (mark_completed now) (payments db))
            db in
        if bookingUpdateError f then (db1, [], status500)
        else
          let db2 := with_bookings (mark_paid bookingId (bookings db1)) db1 in
          if seatsError f then (db2, [], status500)
          else
            let bookingSeats :=
              filter (fun bs => String.eqb (BookingSeat.booking_id bs) bookingId)
                     (booking_seats db2) in
            match bookingSeats with
            | [] => (db2, [], received)
            | first :: _ =>
                let showtimeId := BookingSeat.showtime_id first in
                let seatIds := map BookingSeat.seat_id bookingSeats in
                (with_seat_locks
                   (delete_locks_in seatIds userId (seat_locks db2)) db2,
                 [to_room (room_of showtimeId) (seats_booked seatIds bookingId)],
                 received)
            end
  | payment_intent_payment_failed paymentIntent =>
      (with_payments
         (update_payments (id paymentIntent) mark_failed (payments db)) db,
       [], received)
  | unhandled _ => (db, [], received)
  end.

End Payments.

(** ** Movies route: the seat map of a showtime *)

Module SeatOrder <: TotalLeBool.
Definition t := Seat.t.

(** [.order('row_number').order('seat_number')], both ascending. *)
Definition leb (a b : t) : bool :=
  (Seat.row_number a <? Seat.row_number b)
  || ((Seat.row_number a =? Seat.row_number b)
      && (Seat.seat_number a <=? Seat.seat_number b)).

Lemma leb_total : forall a b, leb a b = true \/ leb b a = true.
Proof.
  intros a b; unfold leb.
  destruct (Z.ltb_spec (Seat.row_number a) (Seat.row_number b)); [now left|].
  destruct (Z.ltb_spec (Seat.row_number b) (Seat.row_number a)); [now right|].
  assert (E : Seat.row_number a = Seat.row_number b) by lia.
  rewrite E, Z.eqb_refl; simpl.
  destruct (Z.leb_spec (Seat.seat_number a) (Seat.seat_number b)); [now left|].
  right; apply Z.leb_le; lia.
Qed.
End SeatOrder.

Module SeatSort := Sort SeatOrder.

Module Movies.
Import Store.

Inductive status_t := available | locked | booked.

(** One element of the [seats] array of the response: [{...seat, status,
    lockedBy, lockedUntil}]. *)
Record seat_view := mk_view
  { seat : Seat.t;
    status : status_t;
    lockedBy : option ident;
    lockedUntil : option instant }.

Record failures := mk_failures
  { showtimeError : bool;
    seatsError : bool;
    bookedError : bool;
    lockedError : bool }.

Definition no_failure : failures := mk_failures false false false false.

Inductive thrown := seats_error | booked_error | locked_error.

Inductive response :=
| status404                                        (* 'Showtime not found' *)
| ok (showtime : Showtime.t) (seats : list seat_view)
| next_error (e : thrown).

(** [s || null] on a string: the empty string is falsy. *)
Definition or_null (s : string) : option string :=
  if String.eqb s EmptyString then None else Some s.

Definition theater_seats (db : Store.t) (theaterId : ident) : list Seat.t :=
  SeatSort.sort
    (filter (fun s => String.eqb (Seat.theater_id s) theaterId) (seats db)).

Definition live_locks (db : Store.t) (showtimeId : ident) (now : instant)
    : list SeatLock.t :=
  filter (fun l => String.eqb (SeatLock.showtime_id l) showtimeId && live now l)
         (seat_locks db).

(** The callback of [seats.map]. *)
Definition seat_status (bookedSeats : list ident) (lockedSeats : list SeatLock.t)
    (s : Seat.t) : seat_view :=
  let isBooked := existsb (fun bs => String.eqb bs (Seat.id s)) bookedSeats in
  let lock :=
    find (fun ls => String.eqb (SeatLock.seat_id ls) (Seat.id s)) lockedSeats in
  mk_view s
    (if isBooked then booked
     else match lock with Some _ => locked | None => available end)
    (match lock with Some l => or_null (SeatLock.user_id l) | None => None end)
    (match lock with Some l => Some (SeatLock.locked_until l) | None => None end).

(** [router.get('/showtimes/:showtimeId/seats', ...)]; [now] is the reading
    of [new Date()] in the locks query. *)
Definition showtime_seats (now : instant) (f : failures) (showtimeId : ident)
    (db : Store.t) : response :=
  match
    (if showtimeError f then None
     else find (fun s => String.eqb (Showtime.id s) showtimeId) (showtimes db))
  with
  | None => status404
  | Some showtime =>
      if seatsError f then next_error seats_error
      else
        let seats := theater_seats db (Showtime.theater_id showtime) in
        if bookedError f then next_error booked_error
        else
          let bookedSeats := booked_seat_rows db showtimeId in
          if lockedError f then next_error locked_error
          else
            let lockedSeats := live_locks db showtimeId now in
            ok showtime (map (seat_status bookedSeats lockedSeats) seats)
  end.

End Movies.

(** ** Reference predicates and sample stores *)

Module Samples.
Import Store Realtime Sockets.
Local Open Scope string_scope.

(** A seat blocks a request of [userId] when another user holds a live lock
    on it for the showtime, or when it is sold for the showtime. *)
Definition blocking (db : Store.t) (now : instant) (userId st : ident)
    (seat : ident) : bool :=
  existsb (fun l => String.eqb (SeatLock.seat_id l) seat
                    && String.eqb (SeatLock.showtime_id l) st
                    && negb (String.eqb (SeatLock.user_id l) userId)
                    && live now l)
          (seat_locks db)
  || elem seat (booked_seat_rows db st).

(** The property a conflict-checking acquire would have: when a named seat
    blocks the request, the lock table is left as it was and nothing is
    announced as locked. *)
Definition refuses_when_blocked (res : upsert_resolution) (userId : ident)
    (now : instant) (st : ident) (seats : list ident) (db : Store.t) : Prop :=
  existsb (blocking db now userId st) seats = true ->
  let r := select_seats res userId now (mk_select st seats select) db in
  seat_locks (fst r) = seat_locks db
  /\ forall e ids by_ until_, In e (snd r) ->
       e <> to_room_except_sender (room_of st) (seats_locked ids by_ until_).

(** A store in which user U holds seat A1 of showtime S until 10:10:00
    (times in ms after 10:00:00), and a paid booking of user W covers seat
    A3. *)
Definition contended_store : Store.t :=
  Store.mk [] []
    [SeatLock.mk "A1" "S" "U" 600000]
    [Booking.mk "B0" "W" "S" (24 # 1) 0 Booking.paid]
    [BookingSeat.mk "B0" "A3" "S"]
    [].

End Samples.

(** Reading a grouping object at a key, and the seats of the rows of one
    showtime, in table order: the two sides of the grouping lemma. *)
Module Grouping.

Fixpoint find_group (k : ident) (g : list (ident * list ident))
    : option (list ident) :=
  match g with
  | [] => None
  | (k', vs) :: g' => if String.eqb k k' then Some vs else find_group k g'
  end.

Definition seats_of (k : ident) (rows : list SeatLock.t) : list ident :=
  map SeatLock.seat_id
      (filter (fun l => String.eqb (SeatLock.showtime_id l) k) rows).

(** Appending later seats to what a key already holds. *)
Definition extend (o : option (list ident)) (ss : list ident)
    : option (list ident) :=
  match o, ss with
  | Some vs, _ => Some (vs ++ ss)
  | None, [] => None
  | None, _ :: _ => Some ss
  end.

End Grouping.

(** What the booking route must never leave behind: a pending booking that no
    booking-seat row refers to. *)
Module Invariants.

Definition has_seats (db : Store.t) (b : Booking.t) : bool :=
  existsb (fun bs => String.eqb (BookingSeat.booking_id bs) (Booking.id b))
          (Store.booking_seats db).

Definition no_orphan_pending (db : Store.t) : Prop :=
  forall b, In b (Store.bookings db) -> Booking.status b = Booking.pending ->
            has_seats db b = true.

(** At most one lock row per (seat, showtime): the uniqueness the spec gives
    the lock table. *)
Definition one_row_per_slot (tbl : list SeatLock.t) : Prop :=
  NoDup (map (fun l => (SeatLock.seat_id l, SeatLock.showtime_id l)) tbl).

End Invariants.

(** Sample requests against the booking route, with identifiers in canonical
    UUID form. *)
Module BookingSamples.
Import Store Bookings.
Local Open Scope string_scope.

Definition showtime1 : ident := "aaaaaaaa-aaaa-4aaa-8aaa-aaaaaaaaaaaa".
Definition seat1 : ident := "bbbbbbbb-bbbb-4bbb-8bbb-bbbbbbbbbbbb".
Definition booking1 : ident := "cccccccc-cccc-4ccc-8ccc-cccccccccccc".
Definition user1 : ident := "dddddddd-dddd-4ddd-8ddd-dddddddddddd".

(** User 1 locked seat 1 of showtime 1 at 10:00:00; the lock runs out at
    10:10:00 (times in ms after 10:00:00). *)
Definition lock1 : SeatLock.t := SeatLock.mk seat1 showtime1 user1 600000.

Definition store1 : Store.t :=
  Store.mk [Seat.mk seat1 "T" 1 1 Seat.regular true]
           [Showtime.mk showtime1 "M" "T"]
           [lock1] [] [] [].

Definition request1 : body := mk_body showtime1 [seat1] (24 # 1).

(** No store failure at clock reading [t]. *)
Definition calm (t : instant) : env :=
  mk_env t booking1 false false false false false false false.

(** The booking-seat insert fails at clock reading [t]. *)
Definition seat_insert_fails (t : instant) : env :=
  mk_env t booking1 false false false false true false false.

(** The booking-seat insert fails at clock reading [t], and so does the
    delete that follows it. *)
Definition rollback_fails (t : instant) : env :=
  mk_env t booking1 false false false false true false true.

End BookingSamples.

(** The reading of "a second confirmation is a no-op", and a sample store for
    the gateway webhook. *)
Module PaymentSamples.
Import Store Realtime Payments.
Local Open Scope string_scope.

Definition second_confirmation_is_noop (now1 now2 : instant)
    (paymentIntent : payment_intent) (db : Store.t) : Prop :=
  let db1 :=
    fst (fst (webhook now1 no_failure (payment_intent_succeeded paymentIntent) db)) in
  webhook now2 no_failure (payment_intent_succeeded paymentIntent) db1
  = (db1, [], received).

(** User U holds A1 and A2 of showtime S, has the pending booking B on them
    and a pending payment for it under the intent pi_1. *)
Definition intent1 : payment_intent := mk_intent "pi_1" "B" "U".

Definition store1 : Store.t :=
  Store.mk [] []
    [SeatLock.mk "A1" "S" "U" 600000; SeatLock.mk "A2" "S" "U" 600000]
    [Booking.mk "B" "U" "S" (24 # 1) 30000 Booking.pending]
    [BookingSeat.mk "B" "A1" "S"; BookingSeat.mk "B" "A2" "S"]
    [Payment.mk "B" "pi_1" (24 # 1) Payment.pending None].

(** The same, with the showtime S on record. *)
Definition store2 : Store.t :=
  Store.mk [] [Showtime.mk "S" "M" "T"]
    [SeatLock.mk "A1" "S" "U" 600000; SeatLock.mk "A2" "S" "U" 600000]
    [Booking.mk "B" "U" "S" (24 # 1) 30000 Booking.pending]
    [BookingSeat.mk "B" "A1" "S"; BookingSeat.mk "B" "A2" "S"]
    [Payment.mk "B" "pi_1" (24 # 1) Payment.pending None].

(** The same again, with a second payment opened for B under the intent pi_0
    before the first was paid. *)
Definition intent0 : payment_intent := mk_intent "pi_0" "B" "U".

Definition two_intents : Store.t :=
  Store.mk [] [Showtime.mk "S" "M" "T"]
    [SeatLock.mk "A1" "S" "U" 600000; SeatLock.mk "A2" "S" "U" 600000]
    [Booking.mk "B" "U" "S" (24 # 1) 30000 Booking.pending]
    [BookingSeat.mk "B" "A1" "S"; BookingSeat.mk "B" "A2" "S"]
    [Payment.mk "B" "pi_0" (24 # 1) Payment.pending None;
     Payment.mk "B" "pi_1" (24 # 1) Payment.pending None].

(** That store once U's payment has been processed at 10:02:00, and once V
    has then selected A1 at 10:02:05. *)
Definition after_payment : Store.t :=
  fst (fst (webhook 120000 no_failure (payment_intent_succeeded intent1) store2)).

Definition relocked : Store.t :=
  fst (Sockets.select_seats MergeDuplicates "V" 125000
         (Sockets.mk_select "S" ["A1"] Sockets.select) after_payment).

End PaymentSamples.

(** The two conditions the seat map reports on. *)
Module Occupancy.
Import Store.

(** Sold: a booking-seat row of the seat for the showtime whose booking is
    confirmed or paid. *)
Definition sold (db : Store.t) (showtimeId seatId : ident) : Prop :=
  exists bs b,
    In bs (booking_seats db) /\ In b (bookings db)
    /\ BookingSeat.seat_id bs = seatId
    /\ BookingSeat.showtime_id bs = showtimeId
    /\ Booking.id b = BookingSeat.booking_id bs
    /\ (Booking.status b = Booking.confirmed \/ Booking.status b = Booking.paid).

(** Held: a lock row of the seat for the showtime that has not run out. *)
Definition held (db : Store.t) (now : instant) (showtimeId seatId : ident)
    (l : SeatLock.t) : Prop :=
  In l (seat_locks db)
  /\ SeatLock.seat_id l = seatId
  /\ SeatLock.showtime_id l = showtimeId
  /\ now < SeatLock.locked_until l.

End Occupancy.

(** A theater T of four seats showing S, five minutes after 10:00:00: A1 is
    sold (paid booking B1; the cancelled B2 on A4 does not count), A2 is held
    by U until 10:10:00, V's lock on A3 ran out at 10:04:00 and still awaits
    the clean-up, and there is a seat of another theater. *)
Module SeatMapSamples.
Local Open Scope string_scope.

Definition showtimeS : Showtime.t := Showtime.mk "S" "M" "T".

Definition seatA (n : Z) (name : ident) : Seat.t :=
  Seat.mk name "T" 1 n Seat.regular true.

Definition store1 : Store.t :=
  Store.mk
    [seatA 4 "A4"; seatA 2 "A2"; Seat.mk "X1" "T2" 1 1 Seat.vip true;
     seatA 1 "A1"; seatA 3 "A3"]
    [showtimeS]
    [SeatLock.mk "A2" "S" "U" 600000; SeatLock.mk "A3" "S" "V" 240000]
    [Booking.mk "B1" "W" "S" (12 # 1) 0 Booking.paid;
     Booking.mk "B2" "W" "S" (12 # 1) 0 Booking.cancelled]
    [BookingSeat.mk "B1" "A1" "S"; BookingSeat.mk "B2" "A4" "S"]
    [].

End SeatMapSamples.

(** The seat ids a viewer is told to free by one emission. *)
Module Announced.
Import Realtime.

Definition released_seats (e : emission) : list ident :=
  match e with
  | to_room _ (seats_released ids) => ids
  | to_room_except_sender _ (seats_released ids) => ids
  | _ => []
  end.

End Announced.

(** The order of the seat map: by row, then by number within the row. *)
Module SeatMapOrder.

Definition seat_before (a b : Seat.t) : Prop :=
  Seat.row_number a < Seat.row_number b
  \/ (Seat.row_number a = Seat.row_number b
      /\ Seat.seat_number a <= Seat.seat_number b).

End SeatMapOrder.

(** ** The catalog and the read routes

    The catalog tables in full: movies, theaters and the complete rows of the
    showtimes table (the store above keeps of a showtime only the columns the
    reservation paths read).  Dates are day numbers since the epoch and times
    of day are seconds since midnight, ordered as the store orders the
    columns. *)

Module Movie.
Record t := mk
  { id : ident;
    title : string;
    description : string;
    poster_url : string;
    duration : Z;
    genre : string;
    rating : string;
    release_date : Z;
    is_active : bool;
    created_at : instant }.
End Movie.

Module Theater.
Record t := mk
  { id : ident;
    name : string;
    location : string;
    address : string;
    total_seats : Z }.
End Theater.

Module ShowtimeRow.
Record t := mk
  { id : ident;
    movie_id : ident;
    theater_id : ident;
    show_date : Z;
    show_time : Z;
    price : Q }.
End ShowtimeRow.

Module Catalog.

Record t := mk
  { movies : list Movie.t;
    theaters : list Theater.t;
    showtimes : list ShowtimeRow.t }.

(** [.single()]: the row when the query yields exactly one, an error
    otherwise. *)
Definition single {A} (rows : list A) : option A :=
  match rows with
  | [x] => Some x
  | _ => None
  end.

(** The date part of [new Date().toISOString()]: the UTC day of an
    instant. *)
Definition utc_day (now : instant) : Z := now / 86400000.

End Catalog.

(** [.order('created_at', { ascending: false })] *)
Definition movie_leb (a b : Movie.t) : bool := Movie.created_at b <=? Movie.created_at a.

Lemma movie_leb_total : forall a b, movie_leb a b = true \/ movie_leb b a = true.
Proof.
  intros a b; unfold movie_leb.
  destruct (Z.leb_spec (Movie.created_at b) (Movie.created_at a)); [now left|].
  right; apply Z.leb_le; lia.
Qed.

Module MovieOrder <: TotalLeBool.
Definition t := Movie.t.
Definition leb := movie_leb.
Definition leb_total := movie_leb_total.
End MovieOrder.

Module MovieSort := Sort MovieOrder.

(** [.order('show_date').order('show_time')], both ascending. *)
Definition showtime_leb (a b : ShowtimeRow.t) : bool :=
  (ShowtimeRow.show_date a <? ShowtimeRow.show_date b)
  || ((ShowtimeRow.show_date a =? ShowtimeRow.show_date b)
      && (ShowtimeRow.show_time a <=? ShowtimeRow.show_time b)).

Lemma showtime_leb_total : forall a b, showtime_leb a b = true \/ showtime_leb b a = true.
Proof.
  intros a b; unfold showtime_leb.
  destruct (Z.ltb_spec (ShowtimeRow.show_date a) (ShowtimeRow.show_date b));
    [now left|].
  destruct (Z.ltb_spec (ShowtimeRow.show_date b) (ShowtimeRow.show_date a));
    [now right|].
  assert (E : ShowtimeRow.show_date a = ShowtimeRow.show_date b) by lia.
  rewrite E, Z.eqb_refl; simpl.
  destruct (Z.leb_spec (ShowtimeRow.show_time a) (ShowtimeRow.show_time b));
    [now left|].
  right; apply Z.leb_le; lia.
Qed.

Module ShowtimeOrder <: TotalLeBool.
Definition t := ShowtimeRow.t.
Definition leb := showtime_leb.
Definition leb_total := showtime_leb_total.
End ShowtimeOrder.

Module ShowtimeSort := Sort ShowtimeOrder.

(** [.order('booking_date', { ascending: false })] *)
Definition booking_leb (a b : Booking.t) : bool := Booking.booking_date b <=? Booking.booking_date a.

Lemma booking_leb_total : forall a b, booking_leb a b = true \/ booking_leb b a = true.
Proof.
  intros a b; unfold booking_leb.
  destruct (Z.leb_spec (Booking.booking_date b) (Booking.booking_date a));
    [now left|].
  right; apply Z.leb_le; lia.
Qed.

Module BookingOrder <: TotalLeBool.
Definition t := Booking.t.
Definition leb := booking_leb.
Definition leb_total := booking_leb_total.
End BookingOrder.

Module BookingSort := Sort BookingOrder.

(** The movies route, catalog part: [router.get('/')] and
    [router.get('/:id')]. *)
Module MovieReads.
Import Catalog.

Inductive thrown := movies_error | showtimes_error.

(** One element of the [showtimes] array of the detail response: the row and
    the embedded theater. *)
Record showing := mk_showing
  { row : ShowtimeRow.t;
    theater : option Theater.t }.

Inductive list_response :=
| movies_ok (movies : list Movie.t)
| list_next_error (e : thrown).

Inductive detail_response :=
| status404                                   (* 'Movie not found' *)
| detail_ok (movie : Movie.t) (showtimes : list showing)
| detail_next_error (e : thrown).

(** [router.get('/', ...)] *)
Definition index (error : bool) (cat : Catalog.t) : list_response :=
  if error then list_next_error movies_error
  else movies_ok (MovieSort.sort (filter Movie.is_active (movies cat))).

Definition upcoming (now : instant) (movieId : ident) (cat : Catalog.t)
    : list ShowtimeRow.t :=
  ShowtimeSort.sort
    (filter (fun st => String.eqb (ShowtimeRow.movie_id st) movieId
                       && (utc_day now <=? ShowtimeRow.show_date st))
            (showtimes cat)).

Definition with_theater (cat : Catalog.t) (st : ShowtimeRow.t) : showing :=
  mk_showing st
    (find (fun th => String.eqb (Theater.id th) (ShowtimeRow.theater_id st))
          (theaters cat)).

(** [router.get('/:id', ...)]; [now] is the reading of [new Date()]. *)
Definition detail (now : instant) (movieError showtimesError : bool)
    (movieId : ident) (cat : Catalog.t) : detail_response :=
  match
    (if movieError then None
     else single (filter (fun m => String.eqb (Movie.id m) movieId
                                   && Movie.is_active m)
                         (movies cat)))
  with
  | None => status404
  | Some movie =>
      if showtimesError then detail_next_error showtimes_error
      else detail_ok movie (map (with_theater cat) (upcoming now movieId cat))
  end.

End MovieReads.

(** The booking route, read part: [router.get('/')] and
    [router.get('/:id')]. *)
Module BookingReads.
Import Store Catalog.

(** The embedded [showtimes (...)] object: the showtime row with its movie
    and theater; the response lists some of their columns. *)
Record showtime_card := mk_card
  { row : ShowtimeRow.t;
    movie : option Movie.t;
    theater : option Theater.t }.

(** A booking with its embedded resources; [payments] is embedded by the
    single-booking read only. *)
Record booking_view := mk_view
  { booking : Booking.t;
    showtimes : option showtime_card;
    booking_seats : list (option Seat.t);
    payments : list Payment.t }.

Definition card_of (cat : Catalog.t) (showtimeId : ident) : option showtime_card :=
  match find (fun st => String.eqb (ShowtimeRow.id st) showtimeId)
             (Catalog.showtimes cat) with
  | None => None
  | Some st =>
      Some (mk_card st
              (find (fun m => String.eqb (Movie.id m) (ShowtimeRow.movie_id st))
                    (movies cat))
              (find (fun th => String.eqb (Theater.id th) (ShowtimeRow.theater_id st))
                    (theaters cat)))
  end.

(** [booking_seats ( seats (...) )]: one element per booking-seat row of the
    booking, holding the seat it points to. *)
Definition seats_of_booking (db : Store.t) (bookingId : ident)
    : list (option Seat.t) :=
  map (fun bs => find (fun s => String.eqb (Seat.id s) (BookingSeat.seat_id bs))
                      (seats db))
      (filter (fun bs => String.eqb (BookingSeat.booking_id bs) bookingId)
              (Store.booking_seats db)).

Definition payments_of_booking (db : Store.t) (bookingId : ident)
    : list Payment.t :=
  filter (fun p => String.eqb (Payment.booking_id p) bookingId) (Store.payments db).

Definition listed (db : Store.t) (cat : Catalog.t) (b : Booking.t) : booking_view :=
  mk_view b (card_of cat (Booking.showtime_id b))
          (seats_of_booking db (Booking.id b)) [].

Definition detailed (db : Store.t) (cat : Catalog.t) (b : Booking.t) : booking_view :=
  mk_view b (card_of cat (Booking.showtime_id b))
          (seats_of_booking db (Booking.id b))
          (payments_of_booking db (Booking.id b)).

Inductive list_response :=
| bookings_ok (bookings : list booking_view)
| list_next_error.

Inductive detail_response :=
| status404                                   (* 'Booking not found' *)
| booking_ok (booking : booking_view).

(** [router.get('/', ...)] *)
Definition index (error : bool) (userId : ident) (db : Store.t)
    (cat : Catalog.t) : list_response :=
  if error then list_next_error
  else
    bookings_ok
      (map (listed db cat)
           (BookingSort.sort
              (filter (fun b => String.eqb (Booking.user_id b) userId)
                      (bookings db)))).

(** [router.get('/:id', ...)] *)
Definition by_id (error : bool) (userId bookingId : ident) (db : Store.t)
    (cat : Catalog.t) : detail_response :=
  match
    (if error then None
     else single (filter (fun b => String.eqb (Booking.id b) bookingId
                                   && String.eqb (Booking.user_id b) userId)
                         (bookings db)))
  with
  | None => status404
  | Some b => booking_ok (detailed db cat b)
  end.

End BookingReads.

(** The payments route, first half: [router.post('/create-intent')]. *)
Module Intents.
Import Store Catalog.

(** What the gateway answers to [paymentIntents.create]. *)
Record gateway_reply := mk_reply
  { intent_id : ident;
    client_secret : string }.

(** What the handler reads from outside: whether the booking query fails, the
    gateway's answer ([None] when the call throws) and whether the payment
    insert fails. *)
Record env := mk_env
  { bookingError : bool;
    gateway : option gateway_reply;
    paymentError : bool }.

(** The argument of [stripe.paymentIntents.create]. *)
Record intent_request := mk_request
  { amount : Z;
    currency : string;
    metadata_bookingId : ident;
    metadata_userId : ident;
    description : string }.

Inductive thrown :=
| type_error       (* reading a column of a missing embedded row *)
| gateway_error
| payment_error.

Inductive response :=
| status400
| status404                     (* 'Booking not found or not pending' *)
| ok (clientSecret : string) (paymentIntentId : ident)
| next_error (e : thrown).

Definition is_pending (s : Booking.status_t) : bool :=
  match s with
  | Booking.pending => true
  | _ => false
  end.

(** The three strings the template of the description puts together; the
    embedded rows may be missing, and reading through a missing one throws. *)
Definition describe (cat : Catalog.t) (b : Booking.t) : option string :=
  match find (fun st => String.eqb (ShowtimeRow.id st) (Booking.showtime_id b))
             (showtimes cat) with
  | None => None
  | Some st =>
      match find (fun m => String.eqb (Movie.id m) (ShowtimeRow.movie_id st))
                 (movies cat),
            find (fun th => String.eqb (Theater.id th) (ShowtimeRow.theater_id st))
                 (theaters cat) with
      | Some m, Some th =>
          Some (String.append "Movie ticket booking - "
                  (String.append (Movie.title m)
                     (String.append " at " (Theater.name th))))
      | _, _ => None
      end
  end.

Section Route.

(** The textual check behind [Joi.string().uuid()], a library function. *)
Variable is_uuid : string -> bool.

(** [Math.round(x * 100)], a multiplication and a rounding of double-precision
    numbers.  That arithmetic is not modelled: the handler is defined over
    whatever integer it gives for the stored amount. *)
Variable round_cents : Q -> Z.

(** [router.post('/create-intent', ...)]: the new store, the request that
    reached the gateway, if any, and the response. *)
Definition create_intent (userId bookingId : ident) (e : env) (db : Store.t)
    (cat : Catalog.t) : Store.t * option intent_request * response :=
  if negb (is_uuid bookingId) then (db, None, status400)
  else
    match
      (if bookingError e then None
       else single (filter (fun b => String.eqb (Booking.id b) bookingId
                                     && String.eqb (Booking.user_id b) userId
                                     && is_pending (Booking.status b))
                           (bookings db)))
    with
    | None => (db, None, status404)
    | Some booking =>
        match describe cat booking with
        | None => (db, None, next_error type_error)
        | Some text =>
            let request :=
              mk_request (round_cents (Booking.total_amount booking)) "usd"
                         (Booking.id booking) userId text in
            match gateway e with
            | None => (db, Some request, next_error gateway_error)
            | Some paymentIntent =>
                if paymentError e
                then (db, Some request, next_error payment_error)
                else
                  (with_payments
                     (payments db
                        ++ [Payment.mk (Booking.id booking)
                                       (intent_id paymentIntent)
                                       (Booking.total_amount booking)
                                       Payment.pending None])
                     db,
                   Some request,
                   ok (client_secret paymentIntent) (intent_id paymentIntent))
            end
        end
    end.

End Route.

(** The intent as the gateway will later describe it in its events. *)
Definition issued (request : intent_request) (reply : gateway_reply)
    : Payments.payment_intent :=
  Payments.mk_intent (intent_id reply) (metadata_bookingId request)
                     (metadata_userId request).

End Intents.

(** ** The booking page

    The state handling of the page that drives the socket and the booking
    route: the listeners for the three seat events, [updateSeatStatus],
    [handleSeatSelect] and the request built by [handleContinueToPayment]. *)

Module Client.

(** An optional property of a script object: missing, [null], or a value. *)
Inductive field (A : Type) :=
| undefined
| null
| value (a : A).

Arguments undefined {A}.
Arguments null {A}.
Arguments value {A} a.

(** A seat as the page holds it: the seat row with [status?], [lockedBy?] and
    [lockedUntil?]. *)
Record seat := mk_seat
  { row : Seat.t;
    status : option Movies.status_t;
    lockedBy : field ident;
    lockedUntil : field instant }.

Definition id (s : seat) : ident := Seat.id (row s).

(** A seat as it arrives in the seat-map response. *)
Definition of_view (v : Movies.seat_view) : seat :=
  mk_seat (Movies.seat v) (Some (Movies.status v))
          (match Movies.lockedBy v with Some u => value u | None => null end)
          (match Movies.lockedUntil v with Some t => value t | None => null end).

(** [updateSeatStatus(seatIds, status, lockedBy, lockedUntil)] *)
Definition updateSeatStatus (seatIds : list ident) (st : Movies.status_t)
    (by_ : field ident) (until_ : field instant) (seats : list seat) : list seat :=
  map (fun s => if elem (id s) seatIds
                then mk_seat (row s) (Some st) by_ until_
                else s)
      seats.

(** [a !== user?.id] for a string [a]. *)
Definition differs (a : ident) (user : option ident) : bool :=
  match user with
  | Some u => negb (String.eqb a u)
  | None => true
  end.

(** The three listeners registered on the socket; [user] is [user?.id]. *)
Definition on_event (user : option ident) (p : Realtime.payload)
    (seats : list seat) : list seat :=
  match p with
  | Realtime.seats_locked seatIds by_ until_ =>
      if differs by_ user
      then updateSeatStatus seatIds Movies.locked (value by_) (value until_) seats
      else seats
  | Realtime.seats_released seatIds =>
      updateSeatStatus seatIds Movies.available undefined undefined seats
  | Realtime.seats_booked seatIds _ =>
      updateSeatStatus seatIds Movies.booked undefined undefined seats
  | _ => seats
  end.

(** [seat.lockedBy !== user?.id] *)
Definition not_mine (s : seat) (user : option ident) : bool :=
  match lockedBy s, user with
  | undefined, None => false
  | value a, Some u => negb (String.eqb a u)
  | _, _ => true
  end.

Definition is_status (st : Movies.status_t) (s : seat) : bool :=
  match status s, st with
  | Some Movies.available, Movies.available => true
  | Some Movies.locked, Movies.locked => true
  | Some Movies.booked, Movies.booked => true
  | _, _ => false
  end.

(** What a click leaves behind: the selection, the alert shown, if any, and
    the select-seats message sent, if any. *)
Record click := mk_click
  { selected : list seat;
    alert : option string;
    sent : option Sockets.select_seats_data }.

(** [handleSeatSelect(seat)]; [channel] is the showtime id when both the
    socket and the showtime id are there. *)
Definition handleSeatSelect (user : option ident) (channel : option ident)
    (selectedSeats : list seat) (s : seat) : click :=
  if is_status Movies.booked s || (is_status Movies.locked s && not_mine s user)
  then mk_click selectedSeats None None
  else
    let isSelected := existsb (fun x => String.eqb (id x) (id s)) selectedSeats in
    let message action :=
      match channel with
      | Some showtimeId => Some (Sockets.mk_select showtimeId [id s] action)
      | None => None
      end in
    if isSelected
    then mk_click (filter (fun x => negb (String.eqb (id x) (id s))) selectedSeats)
                  None (message Sockets.deselect)
    else if (10 <=? List.length selectedSeats)%nat
    then mk_click selectedSeats (Some "Maximum 10 seats can be selected"%string) None
    else mk_click (selectedSeats ++ [s]) None (message Sockets.select).

(** The selection after a series of clicks. *)
Definition after_clicks (user : option ident) (channel : option ident)
    (clicks : list seat) : list seat :=
  fold_left (fun sel s => selected (handleSeatSelect user channel sel s)) clicks [].

(** A script number, as far as the sum of the page needs one: a finite
    value or not-a-number. *)
Inductive number :=
| NaN
| finite (x : Q).

(** [sum + showtime.price].  The page's [showtime] is the [showtime] of the
    seat-map response, the only value [setShowtime] is ever given; that
    object is built from the columns [id] and [theaters] and has no [price],
    so the property read gives [undefined], and a number plus [undefined] is
    not-a-number. *)
Definition plus_price (sum : number) (showtime : Showtime.t) : number := NaN.

(** [selectedSeats.reduce((sum, seat) => sum + showtime.price, 0)] *)
Definition total (showtime : Showtime.t) (selectedSeats : list seat) : number :=
  fold_left (fun sum _ => plus_price sum showtime) selectedSeats (finite 0).

(** The object [handleContinueToPayment] hands to [apiService.post]. *)
Record request := mk_request
  { showtimeId : ident;
    seatIds : list ident;
    totalAmount : number }.

(** [handleContinueToPayment], up to the post; [showtime] is the page's
    state, [null] until a seat-map response has arrived.  Nothing is posted
    for an empty selection (an alert), nor when reading [showtime.price]
    throws (the [catch] alerts). *)
Definition booking_request (showtimeId : ident) (showtime : option Showtime.t)
    (selectedSeats : list seat) : option request :=
  match selectedSeats, showtime with
  | [], _ => None
  | _ :: _, None => None
  | _ :: _, Some sh =>
      Some (mk_request showtimeId (map id selectedSeats) (total sh selectedSeats))
  end.

End Client.

(** The orders of the read routes, as relations. *)
Module ReadOrders.

Definition newer_movie (a b : Movie.t) : Prop :=
  Movie.created_at b <= Movie.created_at a.

Definition newer_booking (a b : Booking.t) : Prop :=
  Booking.booking_date b <= Booking.booking_date a.

Definition showtime_before (a b : ShowtimeRow.t) : Prop :=
  ShowtimeRow.show_date a < ShowtimeRow.show_date b
  \/ (ShowtimeRow.show_date a = ShowtimeRow.show_date b
      /\ ShowtimeRow.show_time a <= ShowtimeRow.show_time b).

End ReadOrders.

(** A small catalog: two movies, the older one withdrawn; one theater; three
    showtimes of the first movie on the days 99, 100 and 101. *)
Module CatalogSamples.
Local Open Scope string_scope.

Definition movie1 : Movie.t :=
  Movie.mk "M1" "First" "" "" 120 "Drama" "PG" 90 true 2000.

Definition movie2 : Movie.t :=
  Movie.mk "M2" "Second" "" "" 95 "Comedy" "PG" 80 false 1000.

Definition movie3 : Movie.t :=
  Movie.mk "M3" "Third" "" "" 101 "Drama" "PG" 95 true 3000.

Definition theater1 : Theater.t := Theater.mk "T" "Main" "Centre" "" 4.

Definition showing (name : ident) (day time : Z) : ShowtimeRow.t :=
  ShowtimeRow.mk name "M1" "T" day time (12 # 1).

Definition catalog1 : Catalog.t :=
  Catalog.mk [movie1; movie2; movie3] [theater1]
    [showing "S3" 101 36000; showing "S1" 99 72000; showing "S2" 100 3600;
     ShowtimeRow.mk "S4" "M3" "T" 100 72000 (12 # 1); showing "S" 100 72000].

(** A seat of the booking page, shown as available. *)
Definition free_seat (name : ident) (n : Z) : Client.seat :=
  Client.mk_seat (Seat.mk name "T" 1 n Seat.regular true) (Some Movies.available)
                 Client.null Client.null.

End CatalogSamples.

(** * Properties *)

(** ** Generic facts about filters and identifiers *)

Lemma filter_filter_and {A} (f g : A -> bool) (l : list A) :
  filter g (filter f l) = filter (fun x => f x && g x) l.
Proof.
  induction l as [|x l IH]; simpl; [reflexivity|].
  destruct (f x); simpl; [destruct (g x)|]; now rewrite IH.
Qed.

Lemma filter_all {A} (f : A -> bool) (l : list A) :
  (forall x, In x l -> f x = true) -> filter f l = l.
Proof.
  induction l as [|x l IH]; simpl; intros H; [reflexivity|].
  rewrite (H x (or_introl eq_refl)), IH; auto.
Qed.

Lemma elem_In (x : ident) (xs : list ident) : elem x xs = true <-> In x xs.
Proof.
  unfold elem; rewrite existsb_exists; split.
  - intros [y [Hy E]]; apply String.eqb_eq in E; now subst.
  - intros H; exists x; split; [assumption | apply String.eqb_refl].
Qed.

Lemma elem_cons (x a : ident) (xs : list ident) :
  elem x (a :: xs) = String.eqb x a || elem x xs.
Proof. reflexivity. Qed.

Lemma room_of_inj (s1 s2 : ident) :
  Realtime.room_of s1 = Realtime.room_of s2 -> s1 = s2.
Proof.
  unfold Realtime.room_of; simpl; intros H.
  now repeat (injection H as H).
Qed.

(** ** Lock table: release loops and upserts *)

Section LockTable.
Import Store Sockets.

(** The per-seat delete loop of the socket handlers removes, in one pass or
    in many, the same rows as a single delete with [.in]. *)
Lemma delete_loop (userId : ident) (seatIds : list ident) (tbl : list SeatLock.t) :
  fold_left (fun t seatId => delete_lock_of seatId userId t) seatIds tbl
  = delete_locks_in seatIds userId tbl.
Proof.
  revert tbl; induction seatIds as [|a rest IH]; intros tbl; simpl.
  - unfold delete_locks_in; symmetry; now apply filter_all.
  - rewrite IH; unfold delete_locks_in, delete_lock_of.
    rewrite filter_filter_and; apply filter_ext; intros l.
    rewrite elem_cons.
    destruct (String.eqb (SeatLock.seat_id l) a),
             (elem (SeatLock.seat_id l) rest),
             (String.eqb (SeatLock.user_id l) userId); reflexivity.
Qed.

Lemma In_delete_locks_in (seatIds : list ident) (userId : ident)
    (tbl : list SeatLock.t) (l : SeatLock.t) :
  In l (delete_locks_in seatIds userId tbl)
  <-> In l tbl /\ ~ (In (SeatLock.seat_id l) seatIds /\ SeatLock.user_id l = userId).
Proof.
  unfold delete_locks_in; rewrite filter_In, negb_true_iff, andb_false_iff.
  rewrite <- elem_In, <- String.eqb_eq.
  destruct (elem (SeatLock.seat_id l) seatIds),
           (String.eqb (SeatLock.user_id l) userId); intuition congruence.
Qed.

Variable res : upsert_resolution.
Variables (showtime user : ident) (expiry : instant).

Let row := lock_row showtime user expiry.
Let acquire (seatIds : list ident) (tbl : list SeatLock.t) :=
  fold_left (fun t seatId => upsert_lock res (row seatId) t) seatIds tbl.

Lemma same_slot_row (a b : ident) : same_slot (row a) (row b) = String.eqb a b.
Proof. unfold same_slot; simpl; now rewrite String.eqb_refl, andb_true_r. Qed.

Lemma upsert_rows (r l : SeatLock.t) (tbl : list SeatLock.t) :
  In l (upsert_lock res r tbl) -> In l tbl \/ l = r.
Proof.
  unfold upsert_lock; destruct (existsb (same_slot r) tbl).
  - destruct res; [|now left].
    rewrite in_map_iff; intros [x [E Hx]].
    destruct (same_slot r x); subst; auto.
  - rewrite in_app_iff; simpl; intuition.
Qed.

Lemma upsert_keeps_rows_of_batch (a s : ident) (tbl : list SeatLock.t) :
  In (row s) tbl -> In (row s) (upsert_lock res (row a) tbl).
Proof.
  intros H; unfold upsert_lock; destruct (existsb (same_slot (row a)) tbl).
  - destruct res; [|assumption].
    apply in_map_iff; exists (row s); split; [|assumption].
    rewrite same_slot_row; destruct (String.eqb_spec a s); now subst.
  - apply in_app_iff; now left.
Qed.

Lemma upsert_fresh (r : SeatLock.t) (tbl : list SeatLock.t) :
  existsb (same_slot r) tbl = false -> In r (upsert_lock res r tbl).
Proof.
  intros H; unfold upsert_lock; rewrite H; apply in_app_iff; right; now left.
Qed.

Lemma upsert_merge_present (r : SeatLock.t) (tbl : list SeatLock.t) :
  In r (upsert_lock MergeDuplicates r tbl).
Proof.
  unfold upsert_lock; destruct (existsb (same_slot r) tbl) eqn:E.
  - apply existsb_exists in E; destruct E as [x [Hx E]].
    apply in_map_iff; exists x; now rewrite E.
  - apply in_app_iff; right; now left.
Qed.

Lemma upsert_reject_keeps (r l : SeatLock.t) (tbl : list SeatLock.t) :
  In l tbl -> In l (upsert_lock RejectDuplicate r tbl).
Proof.
  intros H; unfold upsert_lock; destruct (existsb (same_slot r) tbl);
    [assumption | apply in_app_iff; now left].
Qed.

Lemma upsert_slot_kept (r x : SeatLock.t) (tbl : list SeatLock.t) :
  existsb (same_slot x) tbl = true ->
  existsb (same_slot x) (upsert_lock res r tbl) = true.
Proof.
  intros H; unfold upsert_lock; destruct (existsb (same_slot r) tbl).
  - destruct res; [|assumption].
    apply existsb_exists in H; destruct H as [y [Hy E]].
    apply existsb_exists.
    destruct (same_slot r y) eqn:Ery.
    + exists r; split; [apply in_map_iff; exists y; now rewrite Ery|].
      unfold same_slot in *.
      apply andb_true_iff in E, Ery; destruct E as [E1 E2], Ery as [R1 R2].
      apply String.eqb_eq in E1, E2, R1, R2.
      rewrite E1, E2, <- R1, <- R2, !String.eqb_refl; reflexivity.
    + exists y; split; [apply in_map_iff; exists y; now rewrite Ery | assumption].
  - rewrite existsb_app, H; reflexivity.
Qed.

Lemma acquire_rows (seatIds : list ident) (tbl : list SeatLock.t) (l : SeatLock.t) :
  In l (acquire seatIds tbl) ->
  In l tbl \/ exists s, In s seatIds /\ l = row s.
Proof.
  revert tbl; induction seatIds as [|a rest IH]; intros tbl; simpl; [now left|].
  intros H; apply IH in H; destruct H as [H | [s [Hs E]]].
  - apply upsert_rows in H; destruct H; [now left | right; exists a; auto].
  - right; exists s; auto.
Qed.

Lemma acquire_keeps_rows_of_batch (seatIds : list ident) (tbl : list SeatLock.t)
    (s : ident) :
  In (row s) tbl -> In (row s) (acquire seatIds tbl).
Proof.
  revert tbl; induction seatIds as [|a rest IH]; intros tbl H; simpl; [assumption|].
  now apply IH, upsert_keeps_rows_of_batch.
Qed.

Lemma acquire_free_slot (seatIds : list ident) (tbl : list SeatLock.t) (s : ident) :
  In s seatIds -> existsb (same_slot (row s)) tbl = false ->
  In (row s) (acquire seatIds tbl).
Proof.
  revert tbl; induction seatIds as [|a rest IH]; intros tbl Hs Hfree; [destruct Hs|].
  simpl; destruct (String.eqb_spec a s) as [->|Hne].
  - now apply acquire_keeps_rows_of_batch, upsert_fresh.
  - destruct Hs as [E|Hs]; [contradiction|].
    apply IH; [assumption|].
    destruct (existsb (same_slot (row s)) (upsert_lock res (row a) tbl)) eqn:E;
      [|reflexivity].
    apply existsb_exists in E; destruct E as [x [Hx E]].
    apply upsert_rows in Hx; destruct Hx as [Hx | ->].
    + rewrite <- Hfree; symmetry; apply existsb_exists; eauto.
    + rewrite same_slot_row in E; apply String.eqb_eq in E; congruence.
Qed.

Lemma acquire_slot_kept (seatIds : list ident) (tbl : list SeatLock.t)
    (x : SeatLock.t) :
  existsb (same_slot x) tbl = true ->
  existsb (same_slot x) (acquire seatIds tbl) = true.
Proof.
  revert tbl; induction seatIds as [|a rest IH]; intros tbl H; simpl; [assumption|].
  now apply IH, upsert_slot_kept.
Qed.

End LockTable.

Lemma acquire_merge_all (showtime user : ident) (expiry : instant)
    (seatIds : list ident) (tbl : list SeatLock.t) (s : ident) :
  In s seatIds ->
  In (Sockets.lock_row showtime user expiry s)
     (fold_left (fun t seatId =>
                   Store.upsert_lock Store.MergeDuplicates
                     (Sockets.lock_row showtime user expiry seatId) t)
                seatIds tbl).
Proof.
  revert tbl; induction seatIds as [|a rest IH]; intros tbl Hs; [destruct Hs|].
  simpl; destruct Hs as [->|Hs]; [|now apply IH].
  apply (acquire_keeps_rows_of_batch Store.MergeDuplicates), upsert_merge_present.
Qed.

Lemma acquire_reject_keeps (showtime user : ident) (expiry : instant)
    (seatIds : list ident) (tbl : list SeatLock.t) (l : SeatLock.t) :
  In l tbl ->
  In l (fold_left (fun t seatId =>
                     Store.upsert_lock Store.RejectDuplicate
                       (Sockets.lock_row showtime user expiry seatId) t)
                  seatIds tbl).
Proof.
  revert tbl; induction seatIds as [|a rest IH]; intros tbl H; simpl; [assumption|].
  now apply IH, upsert_reject_keeps.
Qed.

(** ** The [select-seats] and [confirm-booking] handlers *)

Section SocketHandlers.
Import Store Realtime Sockets.

(** What a deselect does to the lock table, whatever the showtime named in
    the request: the rows of the caller on the named seats go, in every
    showtime; every other row stays. *)
Lemma deselect_locks (res : upsert_resolution) (userId : ident) (now : instant)
    (st : ident) (seats : list ident) (db : Store.t) (l : SeatLock.t) :
  In l (seat_locks (fst (select_seats res userId now (mk_select st seats deselect) db)))
  <-> In l (seat_locks db)
      /\ ~ (In (SeatLock.seat_id l) seats /\ SeatLock.user_id l = userId).
Proof. simpl; rewrite delete_loop; apply In_delete_locks_in. Qed.

(** Releasing twice is releasing once, and releasing what is not held
    changes nothing. *)
Lemma deselect_idempotent (res : upsert_resolution) (userId : ident)
    (now now' : instant) (st : ident) (seats : list ident) (db : Store.t) :
  let d := mk_select st seats deselect in
  let db1 := fst (select_seats res userId now d db) in
  fst (select_seats res userId now' d db1) = db1.
Proof.
  simpl; rewrite !delete_loop; unfold with_seat_locks; simpl; f_equal.
  unfold delete_locks_in; rewrite filter_filter_and.
  apply filter_ext; intros l; apply andb_diag.
Qed.

(** C8.  A select request at clock reading [now] writes only rows that
    expire at [now] plus 600000 ms (ten minutes): every row of the lock table
    after the request was there before or is a row of the caller, for this
    showtime, on a named seat, with that expiry; the same instant is
    announced to the room; and every named seat whose (seat, showtime) slot
    was free does receive such a row. *)
Theorem select_seats_expiry (res : upsert_resolution) (userId : ident)
    (now : instant) (st : ident) (seats : list ident) (db : Store.t) :
  let r := select_seats res userId now (mk_select st seats select) db in
  (forall l, In l (seat_locks (fst r)) ->
     In l (seat_locks db)
     \/ (In (SeatLock.seat_id l) seats
         /\ SeatLock.showtime_id l = st
         /\ SeatLock.user_id l = userId
         /\ SeatLock.locked_until l = now + 600000))
  /\ snd r = [to_room_except_sender (room_of st)
                (seats_locked seats userId (now + 600000))]
  /\ (forall s, In s seats ->
        existsb (same_slot (SeatLock.mk s st userId (now + 600000)))
                (seat_locks db) = false ->
        In (SeatLock.mk s st userId (now + 600000)) (seat_locks (fst r))).
Proof.
  simpl; repeat split.
  - intros l H; apply acquire_rows in H; destruct H as [H | [s [Hs ->]]];
      [now left | right; simpl; auto].
  - intros s Hs Hfree.
    apply (acquire_free_slot res st userId (now + lock_ttl_ms) seats _ s Hs Hfree).
Qed.

End SocketHandlers.


Section SelectSeatsGeneral.
Import Store Realtime Sockets.

(** C1, amended.  The select branch checks neither locks nor bookings and
    never refuses: in every store it announces all named seats to the rest
    of the room as locked by the caller until [now] plus ten minutes, leaves
    bookings, booking seats and payments alone, and leaves every named seat
    with a lock row for the showtime.  A named seat whose slot was free gets
    the caller's row; when the upsert merges on (seat, showtime) every named
    seat ends up with the caller's row, whoever held it; when the upsert is
    refused on a taken slot, the rows that were there all stay. *)
Theorem select_seats_unconditional (res : upsert_resolution) (userId : ident)
    (now : instant) (st : ident) (seats : list ident) (db : Store.t) :
  let r := select_seats res userId now (mk_select st seats select) db in
  let mine := fun s => SeatLock.mk s st userId (now + 600000) in
  snd r = [to_room_except_sender (room_of st)
             (seats_locked seats userId (now + 600000))]
  /\ (bookings (fst r) = bookings db
      /\ booking_seats (fst r) = booking_seats db
      /\ payments (fst r) = payments db)
  /\ (forall s, In s seats ->
        existsb (same_slot (mine s)) (seat_locks (fst r)) = true)
  /\ (forall s, In s seats ->
        existsb (same_slot (mine s)) (seat_locks db) = false ->
        In (mine s) (seat_locks (fst r)))
  /\ (res = MergeDuplicates ->
      forall s, In s seats -> In (mine s) (seat_locks (fst r)))
  /\ (res = RejectDuplicate ->
      forall l, In l (seat_locks db) -> In l (seat_locks (fst r))).
Proof.
  simpl.
  assert (Free : forall s, In s seats ->
            existsb (same_slot (SeatLock.mk s st userId (now + 600000)))
                    (seat_locks db) = false ->
            In (SeatLock.mk s st userId (now + 600000))
               (fold_left
                  (fun tbl seatId =>
                     upsert_lock res (lock_row st userId (now + lock_ttl_ms) seatId) tbl)
                  seats (seat_locks db))).
  { intros s Hs Hfree.
    exact (acquire_free_slot res st userId (now + lock_ttl_ms) seats _ s Hs Hfree). }
  repeat split.
  - intros s Hs.
    destruct (existsb (same_slot (SeatLock.mk s st userId (now + 600000)))
                      (seat_locks db)) eqn:E.
    + now apply acquire_slot_kept.
    + apply existsb_exists; eexists; split; [apply (Free s Hs E)|].
      unfold same_slot; simpl; now rewrite !String.eqb_refl.
  - exact Free.
  - intros -> s Hs.
    exact (acquire_merge_all st userId (now + lock_ttl_ms) seats _ s Hs).
  - intros -> l Hl.
    exact (acquire_reject_keeps st userId (now + lock_ttl_ms) seats _ l Hl).
Qed.

(** C10.  A confirm-booking event with any booking id and seat list deletes
    the caller's lock rows on the listed seats and emits
    seats-booked {seatIds, bookingId} to the whole room of the named showtime.
    The handler reads no booking, booking seat or payment: with those tables
    replaced by anything, the emission and the resulting locks are the same. *)
Theorem confirm_booking_unchecked (userId : ident) (data : confirm_booking_data)
    (db : Store.t) (bs : list Booking.t) (bss : list BookingSeat.t)
    (ps : list Payment.t) :
  let r := confirm_booking userId data db in
  let r' := confirm_booking userId data
              (with_payments ps (with_booking_seats bss (with_bookings bs db))) in
  snd r = [to_room (room_of (cb_showtimeId data))
             (seats_booked (cb_seatIds data) (cb_bookingId data))]
  /\ (forall l, In l (seat_locks (fst r))
        <-> In l (seat_locks db)
            /\ ~ (In (SeatLock.seat_id l) (cb_seatIds data)
                  /\ SeatLock.user_id l = userId))
  /\ (bookings (fst r) = bookings db
      /\ booking_seats (fst r) = booking_seats db
      /\ payments (fst r) = payments db)
  /\ snd r' = snd r
  /\ seat_locks (fst r') = seat_locks (fst r).
Proof.
  simpl; split; [reflexivity|]; split; [|repeat split; reflexivity].
  intros l; rewrite delete_loop; apply In_delete_locks_in.
Qed.

End SelectSeatsGeneral.

Section SelectSeatsSamples.
Import Store Realtime Sockets Samples.
Local Open Scope string_scope.

(** C1, as stated, fails: five seconds later user V selects A1, A2 and A3.
    A1 is blocked by U's live lock and A3 is sold, yet under either conflict
    resolution of the upsert the handler announces all three seats as locked
    by V and creates locks for V (on A2 and A3, and on A1 as well when the
    upsert merges). *)
Lemma select_seats_no_conflict_check :
  existsb (blocking contended_store 5000 "V" "S") ["A1"; "A2"; "A3"] = true
  /\ seat_locks
       (fst (select_seats MergeDuplicates "V" 5000
               (mk_select "S" ["A1"; "A2"; "A3"] select) contended_store))
     = [SeatLock.mk "A1" "S" "V" 605000; SeatLock.mk "A2" "S" "V" 605000;
        SeatLock.mk "A3" "S" "V" 605000]
  /\ seat_locks
       (fst (select_seats RejectDuplicate "V" 5000
               (mk_select "S" ["A1"; "A2"; "A3"] select) contended_store))
     = [SeatLock.mk "A1" "S" "U" 600000; SeatLock.mk "A2" "S" "V" 605000;
        SeatLock.mk "A3" "S" "V" 605000]
  /\ ~ refuses_when_blocked MergeDuplicates "V" 5000 "S"
         ["A1"; "A2"; "A3"] contended_store
  /\ ~ refuses_when_blocked RejectDuplicate "V" 5000 "S"
         ["A1"; "A2"; "A3"] contended_store.
Proof.
  repeat split; try reflexivity.
  - intros H; destruct (H eq_refl) as [E _]; vm_compute in E; discriminate E.
  - intros H; destruct (H eq_refl) as [E _]; vm_compute in E; discriminate E.
Qed.

(** In the same request: the merging upsert hands A1 over to V ... *)
Lemma select_seats_unconditional_sample :
  In (SeatLock.mk "A1" "S" "V" 605000)
     (seat_locks
        (fst (select_seats MergeDuplicates "V" 5000
                (mk_select "S" ["A1"; "A2"; "A3"] select) contended_store))).
Proof.
  destruct (select_seats_unconditional MergeDuplicates "V" 5000 "S"
              ["A1"; "A2"; "A3"] contended_store) as (_ & _ & _ & _ & Merge & _).
  apply (Merge eq_refl); simpl; auto.
Defined.

(** ... and the free seat A2 gets V's row, expiring ten minutes after the
    request. *)
Lemma select_seats_expiry_sample :
  In (SeatLock.mk "A2" "S" "V" 605000)
     (seat_locks
        (fst (select_seats RejectDuplicate "V" 5000
                (mk_select "S" ["A1"; "A2"; "A3"] select) contended_store))).
Proof.
  destruct (select_seats_expiry RejectDuplicate "V" 5000 "S"
              ["A1"; "A2"; "A3"] contended_store) as (_ & _ & Free).
  apply Free; [simpl; auto | reflexivity].
Defined.

End SelectSeatsSamples.

Section DeselectSample.
Import Store Realtime Sockets.
Local Open Scope string_scope.

(** C6: the code at the failing input.  User U holds seat A1 for the two
    showtimes S1 and S2.  Deselecting A1 in S1 empties the lock table, the row
    for S2 included, and only the room of S1 hears of a release. *)
Theorem deselect_crosses_showtimes :
  select_seats MergeDuplicates "U" 5000 (mk_select "S1" ["A1"] deselect)
    (Store.mk [] []
       [SeatLock.mk "A1" "S1" "U" 600000; SeatLock.mk "A1" "S2" "U" 600000]
       [] [] [])
  = (Store.mk [] [] [] [] [] [],
     [to_room_except_sender "showtime-S1" (seats_released ["A1"])]).
Proof. reflexivity. Qed.

End DeselectSample.

(** ** The periodic clean-up *)

Section Cleanup.
Import Store Realtime Sockets Grouping.

Lemma find_group_push (k' k v : ident) (g : list (ident * list ident)) :
  find_group k' (group_push k v g)
  = if String.eqb k' k
    then Some (match find_group k g with Some vs => vs ++ [v] | None => [v] end)
    else find_group k' g.
Proof.
  induction g as [|[k0 vs] g IH]; simpl; [reflexivity|].
  destruct (String.eqb_spec k k0) as [->|Hk]; simpl.
  - destruct (String.eqb_spec k' k0); reflexivity.
  - rewrite IH.
    destruct (String.eqb_spec k' k0) as [->|Hk']; [|reflexivity].
    destruct (String.eqb_spec k0 k); congruence.
Qed.

Lemma keys_group_push (k v k' : ident) (g : list (ident * list ident)) :
  In k' (map fst (group_push k v g)) <-> k' = k \/ In k' (map fst g).
Proof.
  induction g as [|[k0 vs] g IH]; simpl; [intuition|].
  destruct (String.eqb_spec k k0) as [->|Hk]; simpl; [intuition|].
  rewrite IH; intuition.
Qed.

Lemma NoDup_group_push (k v : ident) (g : list (ident * list ident)) :
  NoDup (map fst g) -> NoDup (map fst (group_push k v g)).
Proof.
  induction g as [|[k0 vs] g IH]; simpl; intros H.
  - constructor; [intros [] | constructor].
  - inversion H as [|? ? Hnotin Hrest]; subst.
    destruct (String.eqb_spec k k0) as [->|Hk]; simpl.
    + now constructor.
    + constructor; [|now apply IH].
      rewrite keys_group_push; intros [E|Hin]; [congruence | contradiction].
Qed.

Lemma find_group_In (k : ident) (vs : list ident) (g : list (ident * list ident)) :
  NoDup (map fst g) -> (In (k, vs) g <-> find_group k g = Some vs).
Proof.
  induction g as [|[k0 vs0] g IH]; simpl; intros H; [split; [intros []|discriminate]|].
  inversion H as [|? ? Hnotin Hrest]; subst.
  destruct (String.eqb_spec k k0) as [->|Hk].
  - split.
    + intros [E|Hin]; [congruence|].
      exfalso; apply Hnotin; apply in_map_iff; exists (k0, vs); auto.
    + intros E; left; congruence.
  - rewrite <- (IH Hrest); split; [intros [E|Hin]; [congruence|assumption] | auto].
Qed.

Lemma group_fold (rows : list SeatLock.t) (g : list (ident * list ident)) (k : ident) :
  let G := fold_left
             (fun g l => group_push (SeatLock.showtime_id l) (SeatLock.seat_id l) g)
             rows g in
  (NoDup (map fst g) -> NoDup (map fst G))
  /\ find_group k G = extend (find_group k g) (seats_of k rows).
Proof.
  revert g; induction rows as [|l rows IH]; intros g; simpl.
  - split; [auto|]. destruct (find_group k g); simpl; [now rewrite app_nil_r|reflexivity].
  - destruct (IH (group_push (SeatLock.showtime_id l) (SeatLock.seat_id l) g))
      as [IHn IHf].
    split; [intros H; now apply IHn, NoDup_group_push|].
    rewrite IHf, find_group_push; unfold seats_of; simpl.
    rewrite (String.eqb_sym (SeatLock.showtime_id l) k).
    destruct (String.eqb_spec k (SeatLock.showtime_id l)) as [->|Hk]; [|reflexivity].
    destruct (find_group (SeatLock.showtime_id l) g); simpl;
      [now rewrite <- app_assoc | reflexivity].
Qed.

(** The grouping object holds one key per showtime that has a row, and under
    it the seats of that showtime's rows, in table order. *)
Lemma group_by_showtime_spec (rows : list SeatLock.t) :
  NoDup (map fst (group_by_showtime rows))
  /\ forall k vs, In (k, vs) (group_by_showtime rows)
                  <-> vs = seats_of k rows /\ vs <> [].
Proof.
  assert (N : NoDup (map fst (group_by_showtime rows)))
    by (apply (group_fold rows [] EmptyString); constructor).
  split; [exact N|]; intros k vs.
  rewrite (find_group_In k vs _ N).
  unfold group_by_showtime; rewrite (proj2 (group_fold rows [] k)); simpl.
  destruct (seats_of k rows) eqn:E; simpl.
  - split; [discriminate | intros [-> H]; now elim H].
  - split; [intros [= <-]; split; [reflexivity|discriminate] | intros [-> _]; reflexivity].
Qed.

Lemma seats_of_filter (p : SeatLock.t -> bool) (k : ident) (rows : list SeatLock.t) :
  seats_of k (filter p rows)
  = map SeatLock.seat_id
        (filter (fun l => p l && String.eqb (SeatLock.showtime_id l) k) rows).
Proof. unfold seats_of; now rewrite filter_filter_and. Qed.

Lemma tick_time_mono (boot : instant) (j k : nat) :
  (j <= k)%nat -> tick_time boot j <= tick_time boot k.
Proof. unfold tick_time, cleanup_interval_ms; lia. Qed.

Lemma cleanup_tick_locks (now : instant) (db : Store.t) :
  seat_locks (fst (cleanup_tick now db))
  = filter (fun l => negb (expired now l)) (seat_locks db).
Proof.
  unfold cleanup_tick.
  destruct (filter (expired now) (seat_locks db)) eqn:E; [|reflexivity].
  simpl; symmetry; apply filter_all; intros x Hx.
  destruct (expired now x) eqn:Ex; [|reflexivity].
  assert (H : In x (filter (expired now) (seat_locks db)))
    by (apply filter_In; auto).
  rewrite E in H; destruct H.
Qed.

Lemma run_ticks_S (boot : instant) (n : nat) (db : Store.t) :
  run_ticks boot (S n) db
  = (fst (cleanup_tick (tick_time boot n) (fst (run_ticks boot n db))),
     snd (run_ticks boot n db)
       ++ [snd (cleanup_tick (tick_time boot n) (fst (run_ticks boot n db)))]).
Proof.
  simpl; destruct (run_ticks boot n db) as [db1 log]; simpl.
  destruct (cleanup_tick (tick_time boot n) db1); reflexivity.
Qed.

(** A lock survives the first [n] runs exactly when none of them found it
    expired. *)
Lemma run_ticks_locks (boot : instant) (n : nat) (db : Store.t) (l : SeatLock.t) :
  In l (seat_locks (fst (run_ticks boot n db)))
  <-> In l (seat_locks db)
      /\ forall j, (j < n)%nat -> tick_time boot j <= SeatLock.locked_until l.
Proof.
  induction n as [|n IH].
  - simpl; split; [intros H; split; [assumption | intros j Hj; lia] | tauto].
  - rewrite run_ticks_S; simpl fst.
    rewrite cleanup_tick_locks, filter_In, IH, negb_true_iff.
    unfold expired; rewrite Z.ltb_ge; split.
    + intros [[Hin Hlt] Hn]; split; [assumption|].
      intros j Hj; destruct (Nat.eq_dec j n) as [->|Hne]; [assumption | apply Hlt; lia].
    + intros [Hin Hall]; repeat split; auto.
Qed.

End Cleanup.

Section CleanupTick.
Import Store Realtime Sockets Grouping.

Lemma cleanup_tick_emissions (now : instant) (db : Store.t) :
  snd (cleanup_tick now db)
  = map (fun g => to_room (room_of (fst g)) (seats_released (snd g)))
        (group_by_showtime (filter (expired now) (seat_locks db))).
Proof.
  unfold cleanup_tick.
  destruct (filter (expired now) (seat_locks db)) eqn:E; [reflexivity|].
  simpl snd; apply map_ext; intros [st ids]; reflexivity.
Qed.

Lemma cleanup_tick_announces (now : instant) (db : Store.t) (l : SeatLock.t) :
  In l (seat_locks db) -> SeatLock.locked_until l < now ->
  exists ids,
    In (SeatLock.seat_id l) ids
    /\ In (to_room (room_of (SeatLock.showtime_id l)) (seats_released ids))
          (snd (cleanup_tick now db)).
Proof.
  intros Hin Hlt.
  set (rows := filter (expired now) (seat_locks db)).
  assert (Hl : In l rows)
    by (apply filter_In; split; [assumption | now apply Z.ltb_lt]).
  assert (Hs : In (SeatLock.seat_id l) (seats_of (SeatLock.showtime_id l) rows)).
  { unfold seats_of; apply in_map, filter_In; split;
      [assumption | apply String.eqb_refl]. }
  exists (seats_of (SeatLock.showtime_id l) rows); split; [assumption|].
  rewrite cleanup_tick_emissions; fold rows.
  apply (in_map (fun g => to_room (room_of (fst g)) (seats_released (snd g)))
                _ (SeatLock.showtime_id l, seats_of (SeatLock.showtime_id l) rows)).
  apply (proj2 (group_by_showtime_spec rows)); split; [reflexivity|].
  intros E; rewrite E in Hs; destruct Hs.
Qed.

(** C5.  The clean-up is armed with a period of 60000 ms.  One run at clock
    reading [now] removes from the lock table exactly the rows with
    [locked_until] before [now] and touches no other table; its emissions are
    one seats-released to the room of each showtime that had such a row,
    carrying the seats of those rows in table order, and nothing else.  In a
    store only the clean-up touches, a lock is still there before the first
    run whose clock reading is past its expiry, is gone after that run, and
    that run announces its seat to its showtime's room; and for a lock expiring
    at or after the arming of the timer that run comes within one period of
    the expiry. *)
Theorem cleanup_tick_spec (now : instant) (db : Store.t) :
  let r := cleanup_tick now db in
  cleanup_interval_ms = 60000
  /\ seat_locks (fst r)
     = filter (fun l => negb (SeatLock.locked_until l <? now)) (seat_locks db)
  /\ (seats (fst r) = seats db /\ showtimes (fst r) = showtimes db
      /\ bookings (fst r) = bookings db
      /\ booking_seats (fst r) = booking_seats db
      /\ payments (fst r) = payments db)
  /\ (exists groups,
        snd r = map (fun g => to_room (room_of (fst g)) (seats_released (snd g)))
                    groups
        /\ NoDup (map fst groups)
        /\ forall st ids,
             In (st, ids) groups
             <-> ids = map SeatLock.seat_id
                         (filter (fun l => (SeatLock.locked_until l <? now)
                                           && String.eqb (SeatLock.showtime_id l) st)
                                 (seat_locks db))
                 /\ ids <> [])
  /\ (forall boot k l,
        In l (seat_locks db) ->
        (forall j, (j < k)%nat -> tick_time boot j <= SeatLock.locked_until l) ->
        SeatLock.locked_until l < tick_time boot k ->
        In l (seat_locks (fst (run_ticks boot k db)))
        /\ ~ In l (seat_locks (fst (run_ticks boot (S k) db)))
        /\ exists ids,
             In (SeatLock.seat_id l) ids
             /\ In (to_room (room_of (SeatLock.showtime_id l)) (seats_released ids))
                   (last (snd (run_ticks boot (S k) db)) []))
  /\ (forall boot e, boot <= e ->
        exists k,
          (forall j, (j < k)%nat -> tick_time boot j <= e)
          /\ e < tick_time boot k <= e + 60000).
Proof.
  cbv zeta; split; [reflexivity|].
  split; [apply cleanup_tick_locks|].
  split.
  { unfold cleanup_tick; destruct (filter (expired now) (seat_locks db));
      repeat split; reflexivity. }
  split.
  { exists (group_by_showtime (filter (expired now) (seat_locks db))).
    split; [apply cleanup_tick_emissions|].
    destruct (group_by_showtime_spec (filter (expired now) (seat_locks db)))
      as [N G].
    split; [exact N|]; intros st ids.
    rewrite G, seats_of_filter; reflexivity. }
  split.
  - intros boot k l Hin Hbefore Hafter.
    assert (Hk : In l (seat_locks (fst (run_ticks boot k db))))
      by (apply run_ticks_locks; auto).
    split; [exact Hk|]; split.
    + rewrite run_ticks_locks; intros [_ H].
      specialize (H k (Nat.lt_succ_diag_r k)); lia.
    + rewrite run_ticks_S; simpl snd; rewrite last_last.
      now apply cleanup_tick_announces.
  - intros boot e Hle.
    exists (Z.to_nat ((e - boot) / 60000)).
    assert (Hq : 0 <= (e - boot) / 60000) by (apply Z.div_pos; lia).
    pose proof (Z.mul_div_le (e - boot) 60000 eq_refl) as Hlo.
    pose proof (Z.mul_succ_div_gt (e - boot) 60000 eq_refl) as Hhi.
    unfold tick_time, cleanup_interval_ms.
    split; [intros j Hj | rewrite Z2Nat.id by exact Hq; lia].
    apply Nat2Z.inj_lt in Hj; rewrite Z2Nat.id in Hj by exact Hq.
    nia.
Qed.

End CleanupTick.

Section CleanupScenario.
Import Store Realtime Sockets.
Local Open Scope string_scope.

(** The scenario of the spec, in ms after 09:00:00: W's lock on B1 expires at
    09:10:00; the timer was armed at 08:59:01, so its runs fall on the first
    second of each minute and the one of index 10 reads 09:10:01. *)
Lemma cleanup_tick_first_run_after_expiry :
  let l := SeatLock.mk "B1" "S" "W" 600000 in
  let db := Store.mk [] [] [l] [] [] [] in
  tick_time (-59000) 10 = 601000
  /\ In l (seat_locks (fst (run_ticks (-59000) 10 db)))
  /\ ~ In l (seat_locks (fst (run_ticks (-59000) 11 db)))
  /\ exists ids,
       In "B1" ids
       /\ In (to_room (room_of "S") (seats_released ids))
             (last (snd (run_ticks (-59000) 11 db)) []).
Proof.
  intros l db; split; [reflexivity|].
  destruct (cleanup_tick_spec 601000 db) as (_ & _ & _ & _ & Run & _).
  apply (Run (-59000) 10%nat l).
  - left; reflexivity.
  - intros j Hj; unfold tick_time, cleanup_interval_ms, l.
    cbn [SeatLock.locked_until]; lia.
  - reflexivity.
Defined.

End CleanupScenario.

(** ** Booking creation *)

Section BookingCreation.
Import Store Bookings Invariants.

Variable is_uuid : string -> bool.

Lemma with_bookings_undo (db : Store.t) (bs : list Booking.t) :
  with_bookings (bookings db) (with_bookings bs db) = db.
Proof. destruct db; reflexivity. Qed.

(** Deleting by id the row just inserted under a fresh id gives the table
    back. *)
Lemma delete_inserted (tbl : list Booking.t) (b : Booking.t) :
  existsb (fun x => String.eqb (Booking.id x) (Booking.id b)) tbl = false ->
  filter (fun x => negb (String.eqb (Booking.id x) (Booking.id b))) (tbl ++ [b])
  = tbl.
Proof.
  intros H; rewrite filter_app; simpl; rewrite String.eqb_refl; simpl.
  rewrite app_nil_r; apply filter_all; intros x Hx.
  destruct (String.eqb (Booking.id x) (Booking.id b)) eqn:E; [|reflexivity].
  assert (H' : existsb (fun y => String.eqb (Booking.id y) (Booking.id b)) tbl = true)
    by (apply existsb_exists; eauto).
  congruence.
Qed.

Lemma has_seats_more (db : Store.t) (bs : list Booking.t)
    (rows : list BookingSeat.t) (b : Booking.t) :
  has_seats db b = true ->
  has_seats (with_booking_seats (booking_seats db ++ rows) (with_bookings bs db)) b
  = true.
Proof.
  unfold has_seats; simpl; intros H; rewrite existsb_app, H; reflexivity.
Qed.

(** After both inserts every pending booking still has its seats: the old
    ones keep theirs and the new one has one row per requested seat, of which
    the schema demands at least one. *)
Lemma inserts_keep_invariant (db : Store.t) (userId : ident) (b : body) (e : env) :
  createBookingSchema is_uuid b = true ->
  no_orphan_pending db ->
  let booking := Booking.mk (generated_id e) userId (showtimeId b) (totalAmount b)
                            (now e) Booking.pending in
  no_orphan_pending
    (with_booking_seats
       (booking_seats db
          ++ map (fun seatId => BookingSeat.mk (generated_id e) seatId (showtimeId b))
                 (seatIds b))
       (with_bookings (bookings db ++ [booking]) db)).
Proof.
  intros V Inv booking x Hx Hp; simpl in Hx.
  apply in_app_iff in Hx; destruct Hx as [Hx | [<- | []]].
  - now apply has_seats_more, Inv.
  - unfold has_seats; simpl; rewrite existsb_app; apply orb_true_iff; right.
    unfold createBookingSchema in V.
    destruct (seatIds b) as [|s rest]; simpl.
    + rewrite !andb_true_iff in V; simpl in V; intuition discriminate.
    + now rewrite String.eqb_refl.
Qed.

(** C4.  Whenever the handler fails on the booking-seat insert, the booking
    row had gone in under a fresh id and no booking-seat row was written.
    What is left then depends on the compensating delete, whose result the
    handler drops: carried out, it removes exactly the inserted row and the
    store is the store the handler found; failed, the store keeps the pending
    booking, and no booking-seat row refers to it unless one named that id
    before.  The caller gets the error of the seat insert either way.  In
    every execution in which that delete does not fail, a store in which
    each pending booking has seats is left in that condition. *)
Theorem create_booking_rollback (userId : ident) (b : body) (e : env)
    (db : Store.t) :
  let r := create_booking is_uuid userId b e db in
  let inserted := Booking.mk (generated_id e) userId (showtimeId b) (totalAmount b)
                             (now e) Booking.pending in
  (snd r = next_error booking_seats_error ->
     bookingSeatsError e = true
     /\ ~ In (generated_id e) (map Booking.id (bookings db))
     /\ filter (fun x => negb (String.eqb (Booking.id x) (generated_id e)))
               (bookings db ++ [inserted]) = bookings db
     /\ (rollbackError e = false -> fst r = db)
     /\ (rollbackError e = true ->
         fst r = with_bookings (bookings db ++ [inserted]) db
         /\ (has_seats db inserted = false -> ~ no_orphan_pending (fst r))))
  /\ (rollbackError e = false -> no_orphan_pending db -> no_orphan_pending (fst r)).
Proof.
  cbv zeta; unfold create_booking.
  destruct (createBookingSchema is_uuid b) eqn:V; simpl;
    [|split; [discriminate | auto]].
  destruct (if showtimeError e then None
            else find (fun s => String.eqb (Showtime.id s) (showtimeId b))
                      (showtimes db));
    [|split; [discriminate | auto]].
  destruct (locksError e); [split; [discriminate | auto]|].
  destruct (negb (List.length (held_locks db userId b) =? List.length (seatIds b))%nat);
    [split; [discriminate | auto]|].
  destruct (bookedError e); [split; [discriminate | auto]|].
  destruct (0 <? List.length (booked_among db b))%nat;
    [split; [discriminate | auto]|].
  destruct (bookingError e); simpl; [split; [discriminate | auto]|].
  destruct (existsb (fun x => String.eqb (Booking.id x) (generated_id e))
                    (bookings db)) eqn:Fresh;
    [split; [discriminate | auto]|].
  pose proof (delete_inserted (bookings db)
                (Booking.mk (generated_id e) userId (showtimeId b) (totalAmount b)
                            (now e) Booking.pending) Fresh) as Undo.
  simpl in Undo.
  destruct (bookingSeatsError e) eqn:Fail.
  - destruct (rollbackError e) eqn:Rb; simpl.
    + split; [|discriminate].
      intros _; split; [reflexivity|]; split; [|split; [exact Undo|]].
      * rewrite in_map_iff; intros [x [E Hx]].
        assert (H : existsb (fun x => String.eqb (Booking.id x) (generated_id e))
                            (bookings db) = true)
          by (apply existsb_exists; exists x; split;
              [assumption | now apply String.eqb_eq]).
        congruence.
      * split; [discriminate|]; intros _; split; [reflexivity|].
        intros Bare Inv.
        assert (H : has_seats db
                      (Booking.mk (generated_id e) userId (showtimeId b)
                                  (totalAmount b) (now e) Booking.pending) = true).
        { apply (Inv (Booking.mk (generated_id e) userId (showtimeId b)
                                 (totalAmount b) (now e) Booking.pending));
            [|reflexivity].
          simpl; apply in_app_iff; right; now left. }
        congruence.
    + rewrite Undo, with_bookings_undo; split; [|auto].
      intros _; split; [reflexivity|]; split; [|split; [reflexivity|]].
      * rewrite in_map_iff; intros [x [E Hx]].
        assert (H : existsb (fun x => String.eqb (Booking.id x) (generated_id e))
                            (bookings db) = true)
          by (apply existsb_exists; exists x; split;
              [assumption | now apply String.eqb_eq]).
        congruence.
      * split; [reflexivity | discriminate].
  - pose proof (inserts_keep_invariant db userId b e V) as Keep.
    destruct (fullBookingError e); [split; [discriminate | intros _; exact Keep]|].
    match goal with |- context [find ?f ?l] => destruct (find f l) end;
      (split; [discriminate | intros _; exact Keep]).
Qed.

End BookingCreation.

Section BookingScenarios.
Import Store Bookings BookingSamples.

(** At 10:02:00 user 1 books the seat they hold; the booking-seat insert
    fails and then the compensating delete fails too.  The request fails with
    the error of the seat insert, and the store, in which every pending
    booking had seats, is left with the pending booking and no seat row for
    it. *)
Lemma create_booking_rollback_sample :
  snd (create_booking canonical_uuid user1 request1 (rollback_fails 120000) store1)
  = next_error booking_seats_error
  /\ Invariants.no_orphan_pending store1
  /\ fst (create_booking canonical_uuid user1 request1 (rollback_fails 120000)
                         store1)
     = with_bookings
         [Booking.mk booking1 user1 showtime1 (24 # 1) 120000 Booking.pending]
         store1
  /\ ~ Invariants.no_orphan_pending
         (fst (create_booking canonical_uuid user1 request1 (rollback_fails 120000)
                              store1)).
Proof.
  split; [reflexivity|]; split; [intros x []|].
  destruct (create_booking_rollback canonical_uuid user1 request1
              (rollback_fails 120000) store1) as [Undo _].
  destruct (Undo eq_refl) as (_ & _ & _ & _ & Left).
  destruct (Left eq_refl) as [E Orphan].
  split; [exact E | exact (Orphan eq_refl)].
Defined.

(** C2: the code at the failing input.  At 10:10:30 the lock of user 1 has
    run out (the seat map no longer counts it) but no clean-up run has removed
    the row yet.  The booking request of user 1 for that seat is accepted: a
    pending booking and its booking-seat row are created. *)
Theorem create_booking_accepts_expired_lock :
  live 630000 lock1 = false
  /\ create_booking canonical_uuid user1 request1 (calm 630000) store1
     = (with_booking_seats [BookingSeat.mk booking1 seat1 showtime1]
          (with_bookings
             [Booking.mk booking1 user1 showtime1 (24 # 1) 630000 Booking.pending]
             store1),
        status201
          (Booking.mk booking1 user1 showtime1 (24 # 1) 630000 Booking.pending)
          [BookingSeat.mk booking1 seat1 showtime1]).
Proof. split; reflexivity. Qed.

End BookingScenarios.

Section LockCheck.
Import Store Bookings Invariants.

Variable is_uuid : string -> bool.

Lemma held_seats_distinct (userId : ident) (b : body) (tbl : list SeatLock.t) :
  one_row_per_slot tbl ->
  NoDup (map SeatLock.seat_id
             (filter (fun l => String.eqb (SeatLock.showtime_id l) (showtimeId b)
                               && String.eqb (SeatLock.user_id l) userId
                               && elem (SeatLock.seat_id l) (seatIds b))
                     tbl)).
Proof.
  unfold one_row_per_slot; induction tbl as [|x tbl IH]; simpl; intros H;
    [constructor|].
  inversion H as [|? ? Hnotin Hrest]; subst.
  destruct (String.eqb_spec (SeatLock.showtime_id x) (showtimeId b)) as [Ex|];
    simpl; [|now apply IH].
  destruct (String.eqb (SeatLock.user_id x) userId
            && elem (SeatLock.seat_id x) (seatIds b)); [|now apply IH].
  simpl; constructor; [|now apply IH].
  rewrite in_map_iff; intros [y [Ey Hy]].
  apply filter_In in Hy; destruct Hy as [Hy Py].
  rewrite !andb_true_iff in Py; destruct Py as [[Py _] _].
  apply String.eqb_eq in Py.
  apply Hnotin, in_map_iff; exists y; split; [|assumption].
  now rewrite Ey, Py, Ex.
Qed.

(** Under the uniqueness of lock rows per (seat, showtime), the row count the
    handler compares with the number of requested seats matches only when
    every requested seat has a lock row of the user for the showtime. *)
Lemma held_locks_cover (userId : ident) (b : body) (db : Store.t) :
  one_row_per_slot (seat_locks db) ->
  List.length (held_locks db userId b) = List.length (seatIds b) ->
  forall s, In s (seatIds b) ->
    exists l, In l (seat_locks db)
              /\ SeatLock.seat_id l = s
              /\ SeatLock.showtime_id l = showtimeId b
              /\ SeatLock.user_id l = userId.
Proof.
  intros U L s Hs.
  assert (I : incl (seatIds b) (map SeatLock.seat_id (held_locks db userId b))).
  { apply NoDup_length_incl.
    - now apply held_seats_distinct.
    - rewrite length_map, L; apply Nat.le_refl.
    - intros x Hx; apply in_map_iff in Hx; destruct Hx as [l [<- Hl]].
      apply filter_In in Hl; destruct Hl as [_ P].
      apply andb_true_iff in P; destruct P as [_ P]; now apply elem_In. }
  apply I, in_map_iff in Hs; destruct Hs as [l [E Hl]].
  apply filter_In in Hl; destruct Hl as [Hl P].
  rewrite !andb_true_iff in P; destruct P as [[P1 P2] _].
  apply String.eqb_eq in P1, P2; eauto.
Qed.

(** The part of the lock check that the handler does perform: a request
    naming a seat with no lock row of the user for the showtime, expired or
    not, creates nothing, and past validation and the showtime lookup it is
    answered with 'Some seats are not locked by you or unavailable'. *)
Lemma create_booking_needs_lock_rows (userId : ident) (b : body) (e : env)
    (db : Store.t) (s : ident) :
  one_row_per_slot (seat_locks db) ->
  In s (seatIds b) ->
  (forall l, In l (seat_locks db) ->
     ~ (SeatLock.seat_id l = s /\ SeatLock.showtime_id l = showtimeId b
        /\ SeatLock.user_id l = userId)) ->
  let r := create_booking is_uuid userId b e db in
  fst r = db
  /\ (snd r = status400 validation_failed \/ snd r = status404
      \/ snd r = next_error locks_error \/ snd r = status400 seats_not_locked).
Proof.
  intros U Hs Hnone; cbv zeta; unfold create_booking.
  destruct (createBookingSchema is_uuid b); simpl; [|auto].
  destruct (if showtimeError e then None
            else find (fun x => String.eqb (Showtime.id x) (showtimeId b))
                      (showtimes db)); [|auto].
  destruct (locksError e); [auto 6|].
  destruct (Nat.eqb_spec (List.length (held_locks db userId b))
                         (List.length (seatIds b))) as [L|]; simpl; [|auto 6].
  destruct (held_locks_cover userId b db U L s Hs) as [l [Hl P]].
  elim (Hnone l Hl P).
Qed.

End LockCheck.

(** ** The gateway webhook *)

Section Webhook.
Import Store Realtime Payments.

Lemma mark_paid_idempotent (bookingId : ident) (tbl : list Booking.t) :
  mark_paid bookingId (mark_paid bookingId tbl) = mark_paid bookingId tbl.
Proof.
  unfold mark_paid; rewrite map_map; apply map_ext; intros b.
  destruct (String.eqb (Booking.id b) bookingId) eqn:E; simpl; now rewrite E.
Qed.

Lemma mark_paid_status (bookingId : ident) (tbl : list Booking.t) (b : Booking.t) :
  In b (mark_paid bookingId tbl) -> Booking.id b = bookingId ->
  Booking.status b = Booking.paid.
Proof.
  unfold mark_paid; rewrite in_map_iff; intros [x [E Hx]] Hid.
  destruct (String.eqb_spec (Booking.id x) bookingId); subst; [reflexivity|].
  contradiction.
Qed.

Lemma update_payments_again (intentId : ident) (now1 now2 : instant)
    (tbl : list Payment.t) :
  update_payments intentId (mark_completed now2)
    (update_payments intentId (mark_completed now1) tbl)
  = update_payments intentId (mark_completed now2) tbl.
Proof.
  unfold update_payments; rewrite map_map; apply map_ext; intros p.
  destruct (String.eqb (Payment.stripe_payment_intent_id p) intentId) eqn:E;
    simpl; now rewrite E.
Qed.

Lemma delete_locks_in_idempotent (seatIds : list ident) (userId : ident)
    (tbl : list SeatLock.t) :
  delete_locks_in seatIds userId (delete_locks_in seatIds userId tbl)
  = delete_locks_in seatIds userId tbl.
Proof.
  unfold delete_locks_in; rewrite filter_filter_and.
  apply filter_ext; intros l; apply andb_diag.
Qed.

(** C3, amended.  A second succeeded event for the same intent, with the store
    answering, does not fail and leaves bookings (the booking stays paid),
    booking seats and locks as the first one left them; but it is not a no-op:
    it emits again exactly what the first emitted (seats-booked for the
    booking's seats whenever the booking has any) and stamps the payment with
    the new date. *)
Theorem webhook_succeeded_twice (now1 now2 : instant)
    (paymentIntent : payment_intent) (db : Store.t) :
  let ev := payment_intent_succeeded paymentIntent in
  let r1 := webhook now1 no_failure ev db in
  let db1 := fst (fst r1) in
  let r2 := webhook now2 no_failure ev db1 in
  let db2 := fst (fst r2) in
  snd r2 = received
  /\ (bookings db2 = bookings db1
      /\ booking_seats db2 = booking_seats db1
      /\ seat_locks db2 = seat_locks db1)
  /\ (forall b, In b (bookings db2) ->
        Booking.id b = metadata_bookingId paymentIntent ->
        Booking.status b = Booking.paid)
  /\ snd (fst r2) = snd (fst r1)
  /\ (forall bs, In bs (booking_seats db) ->
        BookingSeat.booking_id bs = metadata_bookingId paymentIntent ->
        exists st ids,
          In (BookingSeat.seat_id bs) ids
          /\ snd (fst r2)
             = [to_room (room_of st)
                  (seats_booked ids (metadata_bookingId paymentIntent))])
  /\ payments db2
     = update_payments (id paymentIntent) (mark_completed now2) (payments db).
Proof.
  Local Opaque mark_paid update_payments delete_locks_in room_of.
  cbv zeta; unfold webhook; cbn [paymentUpdateError bookingUpdateError seatsError
                                 no_failure].
  cbn [with_payments with_bookings booking_seats bookings payments seat_locks].
  destruct (filter (fun bs => String.eqb (BookingSeat.booking_id bs)
                                         (metadata_bookingId paymentIntent))
                   (booking_seats db)) as [|first rest] eqn:F.
  - cbn; rewrite F; cbn.
    rewrite mark_paid_idempotent, update_payments_again.
    repeat split; try reflexivity.
    + intros b Hb E; exact (mark_paid_status _ _ _ Hb E).
    + intros bs Hbs E.
      assert (H : In bs []) by (rewrite <- F; apply filter_In; split;
                                [assumption | now apply String.eqb_eq]).
      destruct H.
  - cbn; rewrite F; cbn.
    rewrite mark_paid_idempotent, update_payments_again,
      delete_locks_in_idempotent.
    repeat split; try reflexivity.
    + intros b Hb E; exact (mark_paid_status _ _ _ Hb E).
    + intros bs Hbs E.
      exists (BookingSeat.showtime_id first),
             (BookingSeat.seat_id first :: map BookingSeat.seat_id rest).
      split; [|reflexivity].
      change (In (BookingSeat.seat_id bs)
                 (map BookingSeat.seat_id (first :: rest))).
      rewrite <- F; apply in_map, filter_In; split;
        [assumption | now apply String.eqb_eq].
Qed.

Local Transparent mark_paid update_payments delete_locks_in room_of.

(** C9.  A payment-failed event marks the payments of that intent failed,
    changing nothing else in them, and nothing else in the store: bookings (a
    pending booking stays pending), booking seats and seat locks are left as
    they were, and nothing is emitted. *)
Theorem webhook_payment_failed_frame (now : instant) (f : failures)
    (paymentIntent : payment_intent) (db : Store.t) :
  let r := webhook now f (payment_intent_payment_failed paymentIntent) db in
  let db' := fst (fst r) in
  snd r = received
  /\ snd (fst r) = []
  /\ (bookings db' = bookings db
      /\ booking_seats db' = booking_seats db
      /\ seat_locks db' = seat_locks db
      /\ seats db' = seats db
      /\ showtimes db' = showtimes db)
  /\ (forall b, In b (bookings db) -> Booking.status b = Booking.pending ->
        In b (bookings db'))
  /\ payments db'
     = map (fun p =>
              if String.eqb (Payment.stripe_payment_intent_id p) (id paymentIntent)
              then Payment.mk (Payment.booking_id p)
                              (Payment.stripe_payment_intent_id p)
                              (Payment.amount p) Payment.failed
                              (Payment.payment_date p)
              else p)
           (payments db)
  /\ (forall p, In p (payments db') ->
        Payment.stripe_payment_intent_id p = id paymentIntent ->
        Payment.payment_status p = Payment.failed).
Proof.
  cbv zeta; simpl; repeat split; try reflexivity; [auto|].
  intros p Hp E; unfold update_payments in Hp.
  apply in_map_iff in Hp; destruct Hp as [x [Ex Hx]].
  destruct (String.eqb_spec (Payment.stripe_payment_intent_id x) (id paymentIntent));
    subst; [reflexivity | contradiction].
Qed.

End Webhook.

Section WebhookScenario.
Import Store Realtime Payments PaymentSamples.
Local Open Scope string_scope.

(** C3, as stated, fails: the gateway confirms at 10:02:00 and delivers the
    same event again five seconds later.  The second delivery finds the
    booking paid, yet it emits seats-booked for A1 and A2 once more and
    rewrites the payment date, so it is not a no-op. *)
Lemma webhook_second_delivery_emits_again :
  let first := webhook 120000 no_failure (payment_intent_succeeded intent1) store1 in
  let db1 := fst (fst first) in
  let second := webhook 125000 no_failure (payment_intent_succeeded intent1) db1 in
  bookings db1 = [Booking.mk "B" "U" "S" (24 # 1) 30000 Booking.paid]
  /\ snd (fst first) = [to_room "showtime-S" (seats_booked ["A1"; "A2"] "B")]
  /\ snd (fst second) = [to_room "showtime-S" (seats_booked ["A1"; "A2"] "B")]
  /\ payments (fst (fst second))
     = [Payment.mk "B" "pi_1" (24 # 1) Payment.completed (Some 125000)]
  /\ ~ second_confirmation_is_noop 120000 125000 intent1 store1.
Proof.
  repeat split; try reflexivity.
  unfold second_confirmation_is_noop; intros H; vm_compute in H; discriminate H.
Qed.

(** The second delivery announces A2 again. *)
Lemma webhook_succeeded_twice_sample :
  exists st ids,
    In "A2" ids
    /\ snd (fst (webhook 125000 no_failure (payment_intent_succeeded intent1)
                   (fst (fst (webhook 120000 no_failure
                                (payment_intent_succeeded intent1) store1)))))
       = [to_room (room_of st) (seats_booked ids "B")].
Proof.
  destruct (webhook_succeeded_twice 120000 125000 intent1 store1)
    as (_ & _ & _ & _ & Again & _).
  apply (Again (BookingSeat.mk "B" "A2" "S")); [simpl; auto | reflexivity].
Defined.

(** A failed payment at 10:02:00 leaves the pending booking B in place. *)
Lemma webhook_payment_failed_sample :
  In (Booking.mk "B" "U" "S" (24 # 1) 30000 Booking.pending)
     (bookings (fst (fst (webhook 120000 no_failure
                            (payment_intent_payment_failed intent1) store1)))).
Proof.
  destruct (webhook_payment_failed_frame 120000 no_failure intent1 store1)
    as (_ & _ & _ & Stays & _).
  apply Stays; [simpl; auto | reflexivity].
Defined.

End WebhookScenario.

(** ** The seat map *)

Section SeatMap.
Import Store Movies Occupancy.

Lemma taken_spec (s : Booking.status_t) :
  Booking.taken s = true <-> s = Booking.confirmed \/ s = Booking.paid.
Proof. destruct s; simpl; intuition discriminate. Qed.

Lemma booked_seat_rows_In (db : Store.t) (showtimeId seatId : ident) :
  In seatId (booked_seat_rows db showtimeId) <-> sold db showtimeId seatId.
Proof.
  unfold booked_seat_rows, sold; rewrite in_flat_map; split.
  - intros [bs [Hbs H]].
    destruct (String.eqb_spec (BookingSeat.showtime_id bs) showtimeId) as [E|];
      [|destruct H].
    apply in_map_iff in H; destruct H as [b [Es Hb]].
    apply filter_In in Hb; destruct Hb as [Hb P].
    apply andb_true_iff in P; destruct P as [P1 P2].
    apply String.eqb_eq in P1; apply taken_spec in P2.
    exists bs, b; auto 7.
  - intros (bs & b & Hbs & Hb & Es & Et & Eb & St).
    exists bs; split; [assumption|].
    rewrite Et, String.eqb_refl; apply in_map_iff; exists b; split; [assumption|].
    apply filter_In; split; [assumption|].
    rewrite Eb, String.eqb_refl; simpl; now apply taken_spec.
Qed.

Lemma live_locks_In (db : Store.t) (now : instant) (showtimeId : ident)
    (l : SeatLock.t) :
  In l (live_locks db showtimeId now)
  <-> held db now showtimeId (SeatLock.seat_id l) l.
Proof.
  unfold live_locks, held, live.
  rewrite filter_In, andb_true_iff, String.eqb_eq, Z.ltb_lt; tauto.
Qed.

(** What [seats.map] computes for one seat. *)
Lemma seat_status_spec (db : Store.t) (now : instant) (showtimeId : ident)
    (s : Seat.t) :
  let v := seat_status (booked_seat_rows db showtimeId)
                       (live_locks db showtimeId now) s in
  let is_sold := sold db showtimeId (Seat.id s) in
  let is_held := exists l, held db now showtimeId (Seat.id s) l in
  seat v = s
  /\ (status v = booked <-> is_sold)
  /\ (status v = locked <-> ~ is_sold /\ is_held)
  /\ (status v = available <-> ~ is_sold /\ ~ is_held)
  /\ (is_held ->
      exists l, held db now showtimeId (Seat.id s) l
                /\ lockedBy v = or_null (SeatLock.user_id l)
                /\ (SeatLock.user_id l <> EmptyString ->
                    lockedBy v = Some (SeatLock.user_id l))
                /\ lockedUntil v = Some (SeatLock.locked_until l)).
Proof.
  cbv zeta; unfold seat_status; simpl.
  assert (B : existsb (fun bs => String.eqb bs (Seat.id s))
                      (booked_seat_rows db showtimeId) = true
              <-> sold db showtimeId (Seat.id s)).
  { rewrite <- booked_seat_rows_In, existsb_exists; split.
    - intros [x [Hx E]]; apply String.eqb_eq in E; now subst.
    - intros H; exists (Seat.id s); split; [assumption | apply String.eqb_refl]. }
  destruct (find (fun ls => String.eqb (SeatLock.seat_id ls) (Seat.id s))
                 (live_locks db showtimeId now)) as [l|] eqn:F.
  - apply find_some in F; destruct F as [Hl E]; apply String.eqb_eq in E.
    apply live_locks_In in Hl; rewrite E in Hl.
    assert (H : exists l, held db now showtimeId (Seat.id s) l) by eauto.
    split; [reflexivity|].
    destruct (existsb (fun bs => String.eqb bs (Seat.id s))
                      (booked_seat_rows db showtimeId)).
    + assert (S : sold db showtimeId (Seat.id s)) by now apply B.
      repeat split; try tauto; try discriminate.
      intros _; exists l; repeat split; try apply Hl.
      intros Hne; unfold or_null.
      destruct (SeatLock.user_id l); [now elim Hne | reflexivity].
    + assert (S : ~ sold db showtimeId (Seat.id s))
        by (intros S; apply B in S; discriminate).
      repeat split; try tauto; try discriminate.
      intros _; exists l; repeat split; try apply Hl.
      intros Hne; unfold or_null.
      destruct (SeatLock.user_id l); [now elim Hne | reflexivity].
  - assert (H : ~ exists l, held db now showtimeId (Seat.id s) l).
    { intros [l Hl].
      assert (Hin : In l (live_locks db showtimeId now)).
      { apply live_locks_In; destruct Hl as (H1 & H2 & H3 & H4).
        rewrite H2; repeat split; assumption. }
      pose proof (find_none _ _ F l Hin) as N; simpl in N.
      destruct Hl as (_ & E & _); rewrite E, String.eqb_refl in N; discriminate. }
    split; [reflexivity|].
    destruct (existsb (fun bs => String.eqb bs (Seat.id s))
                      (booked_seat_rows db showtimeId)).
    + assert (S : sold db showtimeId (Seat.id s)) by now apply B.
      repeat split; try tauto; try discriminate.
    + assert (S : ~ sold db showtimeId (Seat.id s))
        by (intros S; apply B in S; discriminate).
      repeat split; try tauto; try discriminate.
Qed.

End SeatMap.

Section SeatMapQuery.
Import Store Movies Occupancy.

(** C7.  For a showtime the store knows, and with the store answering, the
    query returns the seats of the showtime's theater (each exactly once,
    ordered by row and number), each with a status: booked exactly when a
    booking-seat row of the seat for the showtime belongs to a confirmed or
    paid booking; locked exactly when it is not booked and a lock row of the
    seat for the showtime expires after [now]; available exactly when
    neither.  A locked seat carries the expiry of such a lock row and its
    holder (a holder that is the empty string is rendered as null). *)
Theorem showtime_seats_status (now : instant) (showtimeId : ident)
    (db : Store.t) (showtime : Showtime.t) :
  find (fun s => String.eqb (Showtime.id s) showtimeId) (showtimes db)
  = Some showtime ->
  exists views,
    showtime_seats now no_failure showtimeId db = ok showtime views
    /\ Permutation
         (map seat views)
         (filter (fun s => String.eqb (Seat.theater_id s)
                                      (Showtime.theater_id showtime))
                 (seats db))
    /\ forall v, In v views ->
         let is_sold := sold db showtimeId (Seat.id (seat v)) in
         let is_held := exists l, held db now showtimeId (Seat.id (seat v)) l in
         (status v = booked <-> is_sold)
         /\ (status v = locked <-> ~ is_sold /\ is_held)
         /\ (status v = available <-> ~ is_sold /\ ~ is_held)
         /\ (status v = locked ->
             exists l, held db now showtimeId (Seat.id (seat v)) l
                       /\ lockedBy v = or_null (SeatLock.user_id l)
                       /\ (SeatLock.user_id l <> EmptyString ->
                           lockedBy v = Some (SeatLock.user_id l))
                       /\ lockedUntil v = Some (SeatLock.locked_until l)).
Proof.
  intros F; unfold showtime_seats; simpl; rewrite F.
  eexists; split; [reflexivity|]; split.
  - rewrite map_map.
    rewrite (map_ext _ (fun s => s)) by (intros s; reflexivity).
    rewrite map_id; unfold theater_seats.
    apply Permutation_sym, SeatSort.Permuted_sort.
  - intros v Hv; apply in_map_iff in Hv; destruct Hv as [s [<- _]].
    destruct (seat_status_spec db now showtimeId s) as (Es & Hb & Hl & Ha & Hh).
    rewrite Es; cbv zeta in *; repeat split; tauto.
Qed.

End SeatMapQuery.

Section SeatMapScenario.
Import Store Movies SeatMapSamples.
Local Open Scope string_scope.

(** The response on the sample store at 10:05:00. *)
Example showtime_seats_sample :
  showtime_seats 300000 no_failure "S" store1
  = ok showtimeS
       [mk_view (seatA 1 "A1") booked None None;
        mk_view (seatA 2 "A2") locked (Some "U") (Some 600000);
        mk_view (seatA 3 "A3") available None None;
        mk_view (seatA 4 "A4") available None None].
Proof. reflexivity. Qed.

Lemma showtime_seats_status_sample :
  exists views, showtime_seats 300000 no_failure "S" store1 = ok showtimeS views.
Proof.
  destruct (showtime_seats_status 300000 "S" store1 showtimeS eq_refl)
    as [views [E _]].
  exists views; exact E.
Defined.

End SeatMapScenario.

(** * Further properties of the handlers *)

(** ** Selecting, releasing and leaving *)

Section AcquireShape.
Import Store Sockets.

Variable res : upsert_resolution.
Variables (showtime user : ident) (expiry : instant).

Let row := lock_row showtime user expiry.
Let acquire (seatIds : list ident) (tbl : list SeatLock.t) :=
  fold_left (fun t seatId => upsert_lock res (row seatId) t) seatIds tbl.

Lemma same_slot_row_eq (a b : ident) : same_slot (row a) (row b) = String.eqb a b.
Proof. unfold same_slot; simpl; now rewrite String.eqb_refl, andb_true_r. Qed.

Lemma map_unmatched (r : SeatLock.t) (tbl : list SeatLock.t) :
  existsb (same_slot r) tbl = false ->
  map (fun x => if same_slot r x then r else x) tbl = tbl.
Proof.
  induction tbl as [|x tbl IH]; simpl; [reflexivity|].
  intros H; apply orb_false_iff in H; destruct H as [Hx Ht].
  now rewrite Hx, IH.
Qed.

Lemma map_same_batch (a : ident) (extra : list SeatLock.t) :
  (forall l, In l extra -> exists s, l = row s) ->
  map (fun x => if same_slot (row a) x then row a else x) extra = extra.
Proof.
  induction extra as [|x extra IH]; simpl; intros H; [reflexivity|].
  rewrite IH by auto.
  destruct (H x (or_introl eq_refl)) as [s ->].
  rewrite same_slot_row_eq; destruct (String.eqb_spec a s); now subst.
Qed.

(** On a table whose rows do not occupy the slots of the request, the loop
    only appends rows of the request. *)
Lemma acquire_appends (seatIds : list ident) (tbl extra : list SeatLock.t) :
  (forall s, In s seatIds -> existsb (same_slot (row s)) tbl = false) ->
  (forall l, In l extra -> exists s, l = row s) ->
  exists extra',
    acquire seatIds (tbl ++ extra) = tbl ++ extra'
    /\ forall l, In l extra' ->
         In l extra \/ exists s, In s seatIds /\ l = row s.
Proof.
  revert extra; induction seatIds as [|a rest IH]; intros extra Hfree Hextra.
  - exists extra; split; [reflexivity | now left].
  - simpl; unfold upsert_lock.
    assert (Ha : existsb (same_slot (row a)) tbl = false)
      by (apply Hfree; now left).
    assert (Hrest : forall s, In s rest -> existsb (same_slot (row s)) tbl = false)
      by (intros s Hs; apply Hfree; now right).
    destruct (existsb (same_slot (row a)) (tbl ++ extra)).
    + replace (match res with
               | MergeDuplicates =>
                   map (fun r => if same_slot (row a) r then row a else r)
                       (tbl ++ extra)
               | RejectDuplicate => tbl ++ extra
               end) with (tbl ++ extra).
      * destruct (IH extra Hrest Hextra) as [extra' [E P]].
        exists extra'; split; [exact E|].
        intros l Hl; destruct (P l Hl) as [H | [s [Hs ->]]];
          [now left | right; exists s; split; [now right | reflexivity]].
      * destruct res; [|reflexivity].
        now rewrite map_app, (map_unmatched _ _ Ha), (map_same_batch a extra Hextra).
    + rewrite <- app_assoc.
      destruct (IH (extra ++ [row a]) Hrest) as [extra' [E P]].
      { intros l Hl; apply in_app_iff in Hl; destruct Hl as [Hl | [<- | []]];
          [auto | now exists a]. }
      exists extra'; split; [exact E|].
      intros l Hl; destruct (P l Hl) as [H | [s [Hs ->]]].
      * apply in_app_iff in H; destruct H as [H | [<- | []]];
          [now left | right; exists a; split; [now left | reflexivity]].
      * right; exists s; split; [now right | reflexivity].
Qed.

(** With distinct seats on free slots the loop appends one row per seat, in
    request order. *)
Lemma acquire_fresh (seatIds : list ident) (tbl : list SeatLock.t) :
  NoDup seatIds ->
  (forall s, In s seatIds -> existsb (same_slot (row s)) tbl = false) ->
  acquire seatIds tbl = tbl ++ map row seatIds.
Proof.
  revert tbl; induction seatIds as [|a rest IH]; intros tbl N Hfree; simpl.
  - now rewrite app_nil_r.
  - inversion N as [|? ? Hnotin Hrest]; subst.
    assert (E : upsert_lock res (row a) tbl = tbl ++ [row a])
      by (unfold upsert_lock; now rewrite (Hfree a (or_introl eq_refl))).
    rewrite E, IH; [now rewrite <- app_assoc | assumption |].
    intros s Hs; rewrite existsb_app, (Hfree s (or_intror Hs)); simpl.
    rewrite same_slot_row_eq, orb_false_r.
    destruct (String.eqb_spec s a); [subst; contradiction | reflexivity].
Qed.

End AcquireShape.

Section ReleaseAndLeave.
Import Store Realtime Sockets Bookings Invariants.

Lemma with_seat_locks_undo (db : Store.t) (ls : list SeatLock.t) :
  with_seat_locks (seat_locks db) (with_seat_locks ls db) = db.
Proof. destruct db; reflexivity. Qed.

(** X1.  Selecting seats whose slots are free and then deselecting them gives
    the store back, provided the caller held no lock on those seats in any
    other showtime; the first request announces the seats as locked and the
    second announces them as released, both to the rest of the room. *)
Theorem select_deselect_round_trip (res : upsert_resolution) (userId : ident)
    (now now' : instant) (st : ident) (seats : list ident) (db : Store.t) :
  (forall s, In s seats ->
     existsb (same_slot (SeatLock.mk s st userId (now + 600000)))
             (seat_locks db) = false) ->
  (forall l, In l (seat_locks db) ->
     ~ (In (SeatLock.seat_id l) seats /\ SeatLock.user_id l = userId)) ->
  let r1 := select_seats res userId now (mk_select st seats select) db in
  let r2 := select_seats res userId now' (mk_select st seats deselect) (fst r1) in
  fst r2 = db
  /\ snd r1 = [to_room_except_sender (room_of st)
                 (seats_locked seats userId (now + 600000))]
  /\ snd r2 = [to_room_except_sender (room_of st) (seats_released seats)].
Proof.
  intros Hfree Hmine; cbv zeta; simpl; split; [|split; reflexivity].
  rewrite delete_loop.
  destruct (acquire_appends res st userId (now + lock_ttl_ms) seats
              (seat_locks db) [] Hfree) as [extra [E Hextra]];
    [intros l []|].
  rewrite app_nil_r in E; rewrite E.
  unfold delete_locks_in; rewrite filter_app.
  rewrite (filter_all _ (seat_locks db)).
  - replace (filter _ extra) with (@nil SeatLock.t);
      [rewrite app_nil_r; apply with_seat_locks_undo|].
    symmetry; clear E; induction extra as [|x extra IH]; [reflexivity|].
    destruct (Hextra x (or_introl eq_refl)) as [[] | [s [Hs ->]]].
    simpl; rewrite (proj2 (elem_In s seats) Hs), String.eqb_refl; simpl.
    apply IH; intros l Hl; apply Hextra; now right.
  - intros l Hl; apply negb_true_iff.
    destruct (elem (SeatLock.seat_id l) seats) eqn:Es; [|reflexivity].
    destruct (String.eqb_spec (SeatLock.user_id l) userId) as [Eu|]; [|reflexivity].
    exfalso; apply (Hmine l Hl); split; [now apply elem_In | assumption].
Qed.

(** X2.  After a disconnect the user has no lock row left while every row of
    every other user is still there, and a booking request of that user, for
    any seats, creates nothing: it is never answered 201. *)
Theorem disconnect_then_booking_refused (is_uuid : string -> bool)
    (userId : ident) (b : body) (e : env) (db : Store.t) :
  let db1 := disconnect userId db in
  let r := create_booking is_uuid userId b e db1 in
  (forall l, In l (seat_locks db1)
             <-> In l (seat_locks db) /\ SeatLock.user_id l <> userId)
  /\ fst r = db1
  /\ forall booking rows, snd r <> status201 booking rows.
Proof.
  cbv zeta; split.
  - intros l; simpl; unfold delete_locks_of_user.
    rewrite filter_In, negb_true_iff.
    destruct (String.eqb_spec (SeatLock.user_id l) userId); intuition congruence.
  - assert (H : held_locks (disconnect userId db) userId b = []).
    { unfold held_locks, disconnect, delete_locks_of_user; simpl.
      rewrite filter_filter_and.
      induction (seat_locks db) as [|x tbl IH]; simpl; [reflexivity|].
      destruct (String.eqb (SeatLock.user_id x) userId); simpl;
        rewrite ?andb_false_r; exact IH. }
    unfold create_booking; rewrite H.
    destruct (createBookingSchema is_uuid b) eqn:V; simpl;
      [|split; [reflexivity | discriminate]].
    destruct (if showtimeError e then None
              else find (fun s => String.eqb (Showtime.id s) (showtimeId b))
                        (showtimes db));
      [|split; [reflexivity | discriminate]].
    destruct (locksError e); [split; [reflexivity | discriminate]|].
    destruct (seatIds b) as [|s rest] eqn:Ids;
      [|split; [reflexivity | discriminate]].
    unfold createBookingSchema in V; rewrite Ids in V; simpl in V.
    now rewrite !andb_false_r in V.
Qed.

End ReleaseAndLeave.

Section ReleaseAndLeaveSamples.
Import Store Realtime Sockets Samples.
Local Open Scope string_scope.

(** V takes the free seats A2 and A4 at 10:00:05 and drops them again. *)
Lemma select_deselect_round_trip_sample :
  fst (select_seats RejectDuplicate "V" 9000 (mk_select "S" ["A2"; "A4"] deselect)
         (fst (select_seats RejectDuplicate "V" 5000
                 (mk_select "S" ["A2"; "A4"] select) contended_store)))
  = contended_store.
Proof.
  apply (select_deselect_round_trip RejectDuplicate "V" 5000 9000 "S"
           ["A2"; "A4"] contended_store).
  - intros s [<- | [<- | []]]; reflexivity.
  - intros l [<- | []] [_ E]; discriminate E.
Defined.

End ReleaseAndLeaveSamples.

(** ** One lock row per slot *)

Section SlotUniqueness.
Import Store Realtime Sockets Invariants.

Let slot (l : SeatLock.t) := (SeatLock.seat_id l, SeatLock.showtime_id l).

Lemma same_slot_spec (a b : SeatLock.t) : same_slot a b = true <-> slot a = slot b.
Proof.
  unfold same_slot, slot; rewrite andb_true_iff, !String.eqb_eq; split.
  - intros [-> ->]; reflexivity.
  - intros [= -> ->]; auto.
Qed.

Lemma filter_keeps_slots (p : SeatLock.t -> bool) (tbl : list SeatLock.t) :
  one_row_per_slot tbl -> one_row_per_slot (filter p tbl).
Proof.
  unfold one_row_per_slot; fold slot.
  induction tbl as [|x tbl IH]; simpl; intros H; [constructor|].
  inversion H as [|? ? Hnotin Hrest]; subst.
  destruct (p x); simpl; [|now apply IH].
  constructor; [|now apply IH].
  rewrite in_map_iff; intros [y [E Hy]]; apply filter_In in Hy.
  apply Hnotin, in_map_iff; exists y; tauto.
Qed.

Lemma upsert_keeps_slots (res : upsert_resolution) (r : SeatLock.t)
    (tbl : list SeatLock.t) :
  one_row_per_slot tbl -> one_row_per_slot (upsert_lock res r tbl).
Proof.
  unfold one_row_per_slot, upsert_lock; fold slot; intros H.
  destruct (existsb (same_slot r) tbl) eqn:E.
  - destruct res; [|assumption].
    rewrite map_map.
    rewrite (map_ext _ slot); [assumption|].
    intros x; destruct (same_slot r x) eqn:Ex; [|reflexivity].
    now apply same_slot_spec.
  - rewrite map_app; simpl.
    apply NoDup_app_remove_l with (l := []); simpl.
    apply Permutation.Permutation_NoDup with (l := slot r :: map slot tbl);
      [apply Permutation.Permutation_cons_append|].
    constructor; [|assumption].
    rewrite in_map_iff; intros [y [Ey Hy]].
    assert (T : existsb (same_slot r) tbl = true)
      by (apply existsb_exists; exists y; split;
          [assumption | now apply same_slot_spec]).
    congruence.
Qed.

Lemma acquire_keeps_slots (res : upsert_resolution) (st u : ident) (x : instant)
    (seatIds : list ident) (tbl : list SeatLock.t) :
  one_row_per_slot tbl ->
  one_row_per_slot
    (fold_left (fun t seatId => upsert_lock res (lock_row st u x seatId) t)
               seatIds tbl).
Proof.
  revert tbl; induction seatIds as [|a rest IH]; intros tbl H; simpl;
    [assumption | now apply IH, upsert_keeps_slots].
Qed.

(** X3.  The uniqueness of lock rows per (seat, showtime) is an invariant of
    the code: if the lock table has at most one row per slot, it still has
    after any select-seats or confirm-booking event, any disconnect, any
    clean-up run and any gateway event, whichever way the store resolves an
    upsert on a taken slot. *)
Theorem handlers_keep_one_row_per_slot (db : Store.t) :
  one_row_per_slot (seat_locks db) ->
  (forall res userId now data,
     one_row_per_slot (seat_locks (fst (select_seats res userId now data db))))
  /\ (forall userId data,
        one_row_per_slot (seat_locks (fst (confirm_booking userId data db))))
  /\ (forall userId, one_row_per_slot (seat_locks (disconnect userId db)))
  /\ (forall now, one_row_per_slot (seat_locks (fst (cleanup_tick now db))))
  /\ (forall now f ev,
        one_row_per_slot (seat_locks (fst (fst (Payments.webhook now f ev db))))).
Proof.
  intros H; repeat split.
  - intros res userId now [st seats []]; simpl;
      [now apply acquire_keeps_slots
      | rewrite delete_loop; now apply filter_keeps_slots
      | assumption].
  - intros userId data; simpl; rewrite delete_loop; now apply filter_keeps_slots.
  - intros userId; simpl; now apply filter_keeps_slots.
  - intros now; rewrite cleanup_tick_locks; now apply filter_keeps_slots.
  - intros now f [pi | pi | ty]; simpl; try assumption.
    destruct (Payments.paymentUpdateError f); [assumption|].
    destruct (Payments.bookingUpdateError f); [assumption|].
    destruct (Payments.seatsError f); [assumption|].
    destruct (filter _ (booking_seats db)); simpl;
      [assumption | now apply filter_keeps_slots].
Qed.

End SlotUniqueness.

Section SlotUniquenessSample.
Import Store Sockets Invariants Samples.
Local Open Scope string_scope.

Lemma handlers_keep_one_row_per_slot_sample :
  one_row_per_slot
    (seat_locks (fst (select_seats MergeDuplicates "V" 5000
                        (mk_select "S" ["A1"; "A2"; "A1"] select) contended_store))).
Proof.
  assert (H : one_row_per_slot (seat_locks contended_store))
    by (repeat constructor; intros []).
  destruct (handlers_keep_one_row_per_slot contended_store H) as [Sel _].
  apply Sel.
Defined.

End SlotUniquenessSample.

(** ** More on the clean-up *)

Section CleanupMore.
Import Store Realtime Sockets Grouping Announced.

Lemma concat_group_push (k v : ident) (g : list (ident * list ident)) :
  Permutation (List.concat (map snd (group_push k v g)))
              (v :: List.concat (map snd g)).
Proof.
  induction g as [|[k0 vs] g IH]; simpl; [reflexivity|].
  destruct (String.eqb k k0); simpl.
  - rewrite <- app_assoc; simpl.
    symmetry; apply Permutation_middle.
  - rewrite IH; symmetry; apply Permutation_middle.
Qed.

Lemma concat_group_fold (rows : list SeatLock.t) (g : list (ident * list ident)) :
  Permutation
    (List.concat (map snd
       (fold_left
          (fun g l => group_push (SeatLock.showtime_id l) (SeatLock.seat_id l) g)
          rows g)))
    (List.concat (map snd g) ++ map SeatLock.seat_id rows).
Proof.
  revert g; induction rows as [|l rows IH]; intros g; simpl.
  - now rewrite app_nil_r.
  - rewrite IH, concat_group_push; simpl.
    apply Permutation_middle.
Qed.

(** X4.  A clean-up run announces every lock it removes exactly once: the
    seat ids of all its seats-released emissions together are, up to order,
    the seat ids of the removed rows, one per row. *)
Theorem cleanup_tick_announces_each_once (now : instant) (db : Store.t) :
  Permutation
    (flat_map released_seats (snd (cleanup_tick now db)))
    (map SeatLock.seat_id
         (filter (fun l => SeatLock.locked_until l <? now) (seat_locks db))).
Proof.
  rewrite cleanup_tick_emissions, flat_map_concat_map, map_map; simpl.
  change (fun x : ident * list ident => snd x) with (@snd ident (list ident)).
  unfold group_by_showtime; rewrite concat_group_fold; reflexivity.
Qed.

(** X5.  After a run at clock reading [now] no row of the lock table expires
    before [now], and a further run at that or any earlier reading removes
    nothing and emits nothing. *)
Theorem cleanup_tick_settles (now t : instant) (db : Store.t) :
  t <= now ->
  let db1 := fst (cleanup_tick now db) in
  (forall l, In l (seat_locks db1) -> now <= SeatLock.locked_until l)
  /\ cleanup_tick t db1 = (db1, []).
Proof.
  intros Ht; cbv zeta.
  assert (Left : forall l, In l (seat_locks (fst (cleanup_tick now db))) ->
                           now <= SeatLock.locked_until l).
  { intros l; rewrite cleanup_tick_locks, filter_In, negb_true_iff.
    unfold expired; rewrite Z.ltb_ge; tauto. }
  split; [exact Left|].
  unfold cleanup_tick at 1.
  replace (filter (expired t) (seat_locks (fst (cleanup_tick now db))))
    with (@nil SeatLock.t); [reflexivity|].
  symmetry; induction (seat_locks (fst (cleanup_tick now db))) as [|x tbl IH];
    [reflexivity|].
  simpl; unfold expired at 1.
  destruct (Z.ltb_spec (SeatLock.locked_until x) t) as [Hx|_].
  - pose proof (Left x (or_introl eq_refl)); lia.
  - apply IH; intros l Hl; apply Left; now right.
Qed.

End CleanupMore.

Section CleanupMoreSample.
Import Store Sockets Samples.

(** A run at 10:20:00 over the contended store, then one at 10:15:00. *)
Lemma cleanup_tick_settles_sample :
  cleanup_tick 900000 (fst (cleanup_tick 1200000 contended_store))
  = (fst (cleanup_tick 1200000 contended_store), []).
Proof.
  apply (cleanup_tick_settles 1200000 900000 contended_store); lia.
Defined.

End CleanupMoreSample.

(** ** More on the seat map *)

Section SeatMapMore.
Import Store Realtime Sockets Movies Occupancy SeatMapOrder.

Lemma live_after_cleanup (t now : instant) (showtimeId : ident)
    (tbl : list SeatLock.t) :
  t <= now ->
  filter (fun l => String.eqb (SeatLock.showtime_id l) showtimeId && live now l)
         (filter (fun l => negb (expired t l)) tbl)
  = filter (fun l => String.eqb (SeatLock.showtime_id l) showtimeId && live now l)
           tbl.
Proof.
  intros Ht; rewrite filter_filter_and; apply filter_ext; intros l.
  unfold expired, live.
  destruct (Z.ltb_spec (SeatLock.locked_until l) t); simpl; [|reflexivity].
  destruct (Z.ltb_spec now (SeatLock.locked_until l)); [lia|].
  now rewrite andb_false_r.
Qed.

(** X6.  The clean-up never changes what the seat map shows: for a run at a
    clock reading [t] not after the reading [now] of the query, the response
    of the query is the same before and after the run.  Rows that have run
    out are already left out by the query. *)
Theorem seat_map_ignores_cleanup (t now : instant) (f : failures)
    (showtimeId : ident) (db : Store.t) :
  t <= now ->
  showtime_seats now f showtimeId (fst (cleanup_tick t db))
  = showtime_seats now f showtimeId db.
Proof.
  intros Ht; unfold cleanup_tick.
  destruct (filter (expired t) (seat_locks db)); [reflexivity|].
  unfold showtime_seats, live_locks; simpl.
  now rewrite live_after_cleanup.
Qed.

Lemma seat_leb_trans :
  RelationClasses.Transitive (fun a b => is_true (SeatOrder.leb a b)).
Proof.
  intros a b c; unfold is_true, SeatOrder.leb.
  rewrite !orb_true_iff, !andb_true_iff, !Z.ltb_lt, !Z.eqb_eq, !Z.leb_le; lia.
Qed.

Lemma seat_leb_before (a b : Seat.t) :
  SeatOrder.leb a b = true <-> seat_before a b.
Proof.
  unfold SeatOrder.leb, seat_before.
  rewrite orb_true_iff, andb_true_iff, Z.ltb_lt, Z.eqb_eq, Z.leb_le; tauto.
Qed.

(** X7.  The seats of a seat-map response come in ascending order of row
    number and, within a row, of seat number: every seat of the list is
    before every later one. *)
Theorem showtime_seats_sorted (now : instant) (f : failures)
    (showtimeId : ident) (db : Store.t) (showtime : Showtime.t)
    (views : list seat_view) :
  showtime_seats now f showtimeId db = ok showtime views ->
  Sorted.StronglySorted seat_before (map seat views).
Proof.
  unfold showtime_seats.
  destruct (if showtimeError f then None else find _ (showtimes db)) as [sh|];
    [|discriminate].
  destruct (seatsError f); [discriminate|].
  destruct (bookedError f); [discriminate|].
  destruct (lockedError f); [discriminate|].
  intros [= _ <-].
  rewrite map_map, (map_ext _ (fun s => s)) by reflexivity.
  rewrite map_id; unfold theater_seats.
  pose proof (SeatSort.StronglySorted_sort
                (filter (fun s => String.eqb (Seat.theater_id s) (Showtime.theater_id sh))
                        (seats db))
                seat_leb_trans) as S.
  induction S as [|a l _ IH Ha]; constructor; [exact IH|].
  apply Forall_forall; intros b Hb.
  apply seat_leb_before; exact (proj1 (Forall_forall _ _) Ha b Hb).
Qed.

End SeatMapMore.

Section SeatMapMoreSamples.
Import Store Sockets Movies SeatMapOrder SeatMapSamples.
Local Open Scope string_scope.

Lemma seat_map_ignores_cleanup_sample :
  showtime_seats 300000 no_failure "S" (fst (cleanup_tick 300000 store1))
  = showtime_seats 300000 no_failure "S" store1.
Proof. apply seat_map_ignores_cleanup; lia. Defined.

Lemma showtime_seats_sorted_sample :
  Sorted.StronglySorted seat_before
    [seatA 1 "A1"; seatA 2 "A2"; seatA 3 "A3"; seatA 4 "A4"].
Proof.
  apply (showtime_seats_sorted 300000 no_failure "S" store1 showtimeS
           [mk_view (seatA 1 "A1") booked None None;
            mk_view (seatA 2 "A2") locked (Some "U") (Some 600000);
            mk_view (seatA 3 "A3") available None None;
            mk_view (seatA 4 "A4") available None None]).
  reflexivity.
Defined.

End SeatMapMoreSamples.

(** ** From a selection to the seat map and to a booking *)

Section AfterSelect.
Import Store Realtime Sockets Movies Occupancy.

Lemma sold_with_seat_locks (db : Store.t) (ls : list SeatLock.t)
    (showtimeId seatId : ident) :
  sold (with_seat_locks ls db) showtimeId seatId <-> sold db showtimeId seatId.
Proof. unfold sold; simpl; reflexivity. Qed.

(** X8.  Right after a select request the seat map shows each named seat
    that was free (no lock row for the showtime) and not sold as locked, held
    by the caller until ten minutes after the request, for every reading of
    the clock before that instant. *)
Theorem select_then_seat_map (res : upsert_resolution) (userId : ident)
    (now t : instant) (st : ident) (seats : list ident) (db : Store.t)
    (s : Seat.t) (showtime : Showtime.t) (views : list seat_view) :
  In (Seat.id s) seats ->
  existsb (same_slot (SeatLock.mk (Seat.id s) st userId (now + 600000)))
          (seat_locks db) = false ->
  ~ sold db st (Seat.id s) ->
  t < now + 600000 ->
  In s (Store.seats db) -> Seat.theater_id s = Showtime.theater_id showtime ->
  showtime_seats t no_failure st
    (fst (select_seats res userId now (mk_select st seats select) db))
  = ok showtime views ->
  In (mk_view s locked (or_null userId) (Some (now + 600000))) views.
Proof.
  intros Hs Hfree Hsold Ht Hin Hth.
  set (db1 := fst (select_seats res userId now (mk_select st seats select) db)).
  unfold showtime_seats; simpl.
  destruct (find _ (showtimes db)) as [sh|]; [|discriminate].
  intros [= -> <-].
  assert (Row : In (SeatLock.mk (Seat.id s) st userId (now + 600000))
                   (seat_locks db1))
    by exact (acquire_free_slot res st userId (now + lock_ttl_ms) seats _ _ Hs Hfree).
  destruct (seat_status_spec db1 t st s) as (Es & _ & Hl & _ & Hh).
  cbv zeta in Es, Hl, Hh.
  assert (Held : exists l, held db1 t st (Seat.id s) l).
  { eexists; repeat split; [exact Row | | | ]; simpl; auto. }
  assert (Locked : status (seat_status (booked_seat_rows db1 st)
                                       (live_locks db1 st t) s) = locked).
  { apply Hl; split; [|exact Held].
    unfold db1; simpl; now rewrite sold_with_seat_locks. }
  destruct (Hh Held) as (l & (Inl & Eseat & Est & _) & By & _ & Until).
  assert (El : l = SeatLock.mk (Seat.id s) st userId (now + 600000)).
  { apply (acquire_rows res st userId (now + lock_ttl_ms)) in Inl.
    destruct Inl as [Old | [s' [_ ->]]].
    - exfalso.
      assert (T : existsb (same_slot (SeatLock.mk (Seat.id s) st userId
                                                  (now + 600000)))
                          (seat_locks db) = true).
      { apply existsb_exists; exists l; split; [exact Old|].
        unfold same_slot; simpl; now rewrite Eseat, Est, !String.eqb_refl. }
      congruence.
    - simpl in Eseat; now subst s'. }
  rewrite El in By, Until.
  cbn [SeatLock.user_id SeatLock.locked_until] in By, Until.
  apply in_map_iff; exists s; split.
  - change (seat_status (booked_seat_rows db1 st) (live_locks db1 st t) s
            = mk_view s locked (or_null userId) (Some (now + 600000))).
    destruct (seat_status (booked_seat_rows db1 st) (live_locks db1 st t) s)
      as [s0 stt lb lu].
    cbn [seat status lockedBy lockedUntil] in Es, Locked, By, Until.
    now subst.
  - unfold theater_seats.
    apply (Permutation_in _ (SeatSort.Permuted_sort _)), filter_In; split;
      [exact Hin | rewrite Hth; apply String.eqb_refl].
Qed.

End AfterSelect.

Section SelectThenBook.
Import Store Realtime Sockets Bookings Occupancy.

Variable is_uuid : string -> bool.

Lemma find_app_fresh {A} (f : A -> bool) (l l' : list A) :
  existsb f l = false -> find f (l ++ l') = find f l'.
Proof.
  induction l as [|x l IH]; simpl; [reflexivity|].
  intros H; apply orb_false_iff in H; destruct H as [Hx Hl].
  now rewrite Hx, IH.
Qed.

Lemma booked_among_none (db : Store.t) (b : body) :
  (forall s, In s (seatIds b) -> ~ sold db (showtimeId b) s) ->
  booked_among db b = [].
Proof.
  intros H; unfold booked_among.
  destruct (filter _ (booked_seat_rows db (showtimeId b))) as [|x rest] eqn:E;
    [reflexivity|].
  assert (Hx : In x (filter (fun s => elem s (seatIds b))
                            (booked_seat_rows db (showtimeId b))))
    by (rewrite E; now left).
  apply filter_In in Hx; destruct Hx as [Hx Ex].
  elim (H x); [now apply elem_In | now apply booked_seat_rows_In].
Qed.

Lemma held_after_select (res : upsert_resolution) (userId : ident)
    (now : instant) (b : body) (db : Store.t) :
  NoDup (seatIds b) ->
  (forall s, In s (seatIds b) ->
     existsb (same_slot (SeatLock.mk s (showtimeId b) userId (now + 600000)))
             (seat_locks db) = false) ->
  held_locks
    (fst (select_seats res userId now
            (mk_select (showtimeId b) (seatIds b) select) db))
    userId b
  = map (lock_row (showtimeId b) userId (now + 600000)) (seatIds b).
Proof.
  intros N Hfree; unfold held_locks; simpl.
  rewrite (acquire_fresh res (showtimeId b) userId (now + lock_ttl_ms)
             (seatIds b) (seat_locks db) N Hfree).
  rewrite filter_app.
  replace (filter _ (seat_locks db)) with (@nil SeatLock.t).
  - simpl; apply filter_all; intros l Hl.
    apply in_map_iff in Hl; destruct Hl as [s [<- Hs]]; simpl.
    now rewrite !String.eqb_refl, (proj2 (elem_In s (seatIds b)) Hs).
  - symmetry.
    induction (seat_locks db) as [|x tbl IH]; [reflexivity|].
    simpl.
    assert (Hx : forall s, In s (seatIds b) ->
               same_slot (SeatLock.mk s (showtimeId b) userId (now + 600000)) x
               = false)
      by (intros s Hs; specialize (Hfree s Hs); simpl in Hfree;
          now apply orb_false_iff in Hfree).
    destruct (String.eqb_spec (SeatLock.showtime_id x) (showtimeId b)) as [Est|];
      simpl; [|apply IH].
    + destruct (elem (SeatLock.seat_id x) (seatIds b)) eqn:Ex.
      * apply elem_In in Ex; specialize (Hx _ Ex).
        unfold same_slot in Hx; simpl in Hx.
        now rewrite Est, !String.eqb_refl in Hx.
      * rewrite andb_false_r; apply IH.
        intros s Hs; specialize (Hfree s Hs); simpl in Hfree.
        now apply orb_false_iff in Hfree.
    + intros s Hs; specialize (Hfree s Hs); simpl in Hfree.
      now apply orb_false_iff in Hfree.
Qed.

(** X9.  A user who has just selected distinct seats that were free and are
    not sold can book them: with the store answering and a fresh id for the
    row, the booking request for exactly those seats is answered 201 with a
    pending booking of that user and one booking-seat row per seat, and the
    store gains exactly those rows.  The locks stay in place. *)
Theorem select_then_create_booking (res : upsert_resolution) (userId : ident)
    (now at_ : instant) (newId : ident) (b : body) (db : Store.t)
    (showtime : Showtime.t) :
  createBookingSchema is_uuid b = true ->
  find (fun x => String.eqb (Showtime.id x) (showtimeId b)) (showtimes db)
  = Some showtime ->
  NoDup (seatIds b) ->
  (forall s, In s (seatIds b) ->
     existsb (same_slot (SeatLock.mk s (showtimeId b) userId (now + 600000)))
             (seat_locks db) = false) ->
  (forall s, In s (seatIds b) -> ~ sold db (showtimeId b) s) ->
  existsb (fun x => String.eqb (Booking.id x) newId) (bookings db) = false ->
  existsb (fun x => String.eqb (BookingSeat.booking_id x) newId)
          (booking_seats db) = false ->
  let db1 := fst (select_seats res userId now
                    (mk_select (showtimeId b) (seatIds b) select) db) in
  let booking := Booking.mk newId userId (showtimeId b) (totalAmount b) at_
                            Booking.pending in
  let rows := map (fun s => BookingSeat.mk newId s (showtimeId b)) (seatIds b) in
  create_booking is_uuid userId b
    (mk_env at_ newId false false false false false false false) db1
  = (with_booking_seats (booking_seats db ++ rows)
       (with_bookings (bookings db ++ [booking]) db1),
     status201 booking rows).
Proof.
  intros V F N Hfree Hsold Fresh NoRows; cbv zeta.
  unfold create_booking; rewrite V; cbn [negb showtimeError locksError bookedError
    bookingError bookingSeatsError fullBookingError generated_id Bookings.now].
  rewrite (held_after_select res userId now b db N Hfree), length_map, Nat.eqb_refl.
  replace (booked_among _ b) with (@nil ident)
    by (symmetry; apply booked_among_none; intros s Hs;
        simpl; rewrite sold_with_seat_locks; now apply Hsold).
  simpl; rewrite F, Fresh; simpl.
  rewrite find_app_fresh.
  - simpl; rewrite String.eqb_refl; simpl.
    repeat f_equal.
    rewrite filter_app.
    replace (filter _ (booking_seats db)) with (@nil BookingSeat.t).
    + simpl; apply filter_all; intros x Hx.
      apply in_map_iff in Hx; destruct Hx as [s [<- _]]; simpl.
      apply String.eqb_refl.
    + symmetry; clear - NoRows.
      induction (booking_seats db) as [|x l IH]; [reflexivity|].
      simpl in *; apply orb_false_iff in NoRows; destruct NoRows as [Hx Hl].
      rewrite Hx; now apply IH.
  - exact Fresh.
Qed.

End SelectThenBook.

(** ** Outcomes of a booking request *)

Section BookingOutcomes.
Import Store Bookings Occupancy Invariants.

Variable is_uuid : string -> bool.

(** The store a request leaves when both inserts went through. *)
Let booked_store (userId : ident) (b : body) (e : env) (db : Store.t) : Store.t :=
  with_booking_seats
    (booking_seats db
       ++ map (fun seatId => BookingSeat.mk (generated_id e) seatId (showtimeId b))
              (seatIds b))
    (with_bookings
       (bookings db
          ++ [Booking.mk (generated_id e) userId (showtimeId b) (totalAmount b)
                         (now e) Booking.pending])
       db).

(** Every execution either leaves the store alone and answers neither 201
    nor with the failure of the final read, or has passed all the checks,
    has written the booking and its seat rows, and answers 201 or with the
    failure of the final read, or has passed all the checks, has written the
    booking, failed on the seat rows and failed to delete the booking
    again. *)
Lemma create_booking_cases (userId : ident) (b : body) (e : env) (db : Store.t) :
  let r := create_booking is_uuid userId b e db in
  (fst r = db
   /\ (forall bk rows, snd r <> status201 bk rows)
   /\ snd r <> next_error full_booking_error
   /\ (createBookingSchema is_uuid b = true ->
       find (fun s => String.eqb (Showtime.id s) (showtimeId b)) (showtimes db)
       <> None ->
       showtimeError e = false -> locksError e = false -> bookedError e = false ->
       List.length (held_locks db userId b) = List.length (seatIds b) ->
       booked_among db b <> [] ->
       snd r = status400 seats_already_booked))
  \/ (createBookingSchema is_uuid b = true
      /\ List.length (held_locks db userId b) = List.length (seatIds b)
      /\ booked_among db b = []
      /\ existsb (fun x => String.eqb (Booking.id x) (generated_id e))
                 (bookings db) = false
      /\ fst r = booked_store userId b e db
      /\ (snd r = next_error full_booking_error
          \/ snd r
             = status201
                 (Booking.mk (generated_id e) userId (showtimeId b) (totalAmount b)
                             (now e) Booking.pending)
                 (filter (fun bs => String.eqb (BookingSeat.booking_id bs)
                                               (generated_id e))
                         (booking_seats (booked_store userId b e db)))))
  \/ (createBookingSchema is_uuid b = true
      /\ List.length (held_locks db userId b) = List.length (seatIds b)
      /\ booked_among db b = []
      /\ existsb (fun x => String.eqb (Booking.id x) (generated_id e))
                 (bookings db) = false
      /\ bookingSeatsError e = true /\ rollbackError e = true
      /\ fst r
         = with_bookings
             (bookings db
                ++ [Booking.mk (generated_id e) userId (showtimeId b)
                               (totalAmount b) (now e) Booking.pending])
             db
      /\ snd r = next_error booking_seats_error).
Proof.
  cbv zeta; unfold create_booking.
  destruct (createBookingSchema is_uuid b) eqn:V; simpl;
    [|left; repeat split; discriminate].
  destruct (showtimeError e) eqn:SE;
    [left; repeat split; discriminate|].
  destruct (find (fun s => String.eqb (Showtime.id s) (showtimeId b))
                 (showtimes db)) eqn:F;
    [|left; repeat split; try discriminate; intros; congruence].
  destruct (locksError e) eqn:LE; [left; repeat split; discriminate|].
  destruct (Nat.eqb_spec (List.length (held_locks db userId b))
                         (List.length (seatIds b))) as [L|L]; simpl;
    [|left; repeat split; try discriminate; intros; congruence].
  destruct (bookedError e) eqn:BE; [left; repeat split; discriminate|].
  destruct (booked_among db b) as [|x rest] eqn:BA; simpl;
    [|left; repeat split; try discriminate; intros; reflexivity].
  destruct (bookingError e); simpl;
    [left; repeat split; try discriminate; intros; congruence|].
  destruct (existsb (fun x => String.eqb (Booking.id x) (generated_id e))
                    (bookings db)) eqn:Fresh;
    [left; repeat split; try discriminate; intros; congruence|].
  destruct (bookingSeatsError e).
  - destruct (rollbackError e); simpl.
    + right; right; repeat split; assumption.
    + left.
      pose proof (delete_inserted (bookings db)
                    (Booking.mk (generated_id e) userId (showtimeId b)
                                (totalAmount b) (now e) Booking.pending) Fresh) as U.
      simpl in U; rewrite U, with_bookings_undo.
      repeat split; try discriminate; intros; congruence.
  - right; left; split; [reflexivity|]; split; [assumption|]; split; [reflexivity|].
    split; [reflexivity|].
    destruct (fullBookingError e); [split; [reflexivity | now left]|].
    rewrite (find_app_fresh _ _ _ Fresh); simpl.
    rewrite String.eqb_refl; split; [reflexivity | now right].
Qed.

(** X10.  What a 201 means: the request passed the schema (one to ten seats),
    as many lock rows of the user for the showtime were found as seats were
    requested, no requested seat was sold, the returned booking is pending,
    owned by the user, with the requested amount and the generated id, the
    store has gained that booking and one booking-seat row per requested
    seat in request order, and the locks are still all there. *)
Theorem create_booking_created (userId : ident) (b : body) (e : env)
    (db : Store.t) (booking : Booking.t) (rows : list BookingSeat.t) :
  snd (create_booking is_uuid userId b e db) = status201 booking rows ->
  let db' := fst (create_booking is_uuid userId b e db) in
  booking = Booking.mk (generated_id e) userId (showtimeId b) (totalAmount b)
                       (now e) Booking.pending
  /\ bookings db' = bookings db ++ [booking]
  /\ booking_seats db'
     = booking_seats db
       ++ map (fun s => BookingSeat.mk (generated_id e) s (showtimeId b)) (seatIds b)
  /\ seat_locks db' = seat_locks db
  /\ (1 <= List.length (seatIds b) <= 10)%nat
  /\ List.length (held_locks db userId b) = List.length (seatIds b)
  /\ (forall s, In s (seatIds b) -> ~ sold db (showtimeId b) s)
  /\ ~ In (generated_id e) (map Booking.id (bookings db)).
Proof.
  intros R; cbv zeta.
  destruct (create_booking_cases userId b e db)
    as [(_ & No & _) | [(V & L & BA & Fresh & -> & Resp)
                       | (_ & _ & _ & _ & _ & _ & _ & Resp)]];
    [elim (No booking rows R) | | rewrite R in Resp; discriminate].
  rewrite R in Resp; destruct Resp as [Resp | Resp]; [discriminate|].
  injection Resp as -> _.
  repeat split; try reflexivity; try assumption.
  - unfold createBookingSchema in V; rewrite !andb_true_iff in V.
    now apply Nat.leb_le.
  - unfold createBookingSchema in V; rewrite !andb_true_iff in V.
    now apply Nat.leb_le.
  - intros s Hs S.
    assert (H : In s (booked_among db b))
      by (apply filter_In; split;
          [now apply booked_seat_rows_In | now apply elem_In]).
    rewrite BA in H; destruct H.
  - rewrite in_map_iff; intros [x [E Hx]].
    assert (T : existsb (fun x => String.eqb (Booking.id x) (generated_id e))
                        (bookings db) = true)
      by (apply existsb_exists; exists x; split;
          [assumption | now apply String.eqb_eq]).
    congruence.
Qed.

(** X11.  A request naming a seat that is sold for the showtime (a
    booking-seat row under a confirmed or paid booking) creates nothing, and
    once it has passed the schema, the showtime lookup and the lock count with
    the store answering, it is answered 'Some seats are already booked'. *)
Theorem create_booking_sold_seat_refused (userId : ident) (b : body) (e : env)
    (db : Store.t) (s : ident) :
  In s (seatIds b) -> sold db (showtimeId b) s ->
  let r := create_booking is_uuid userId b e db in
  fst r = db
  /\ (forall bk rows, snd r <> status201 bk rows)
  /\ (createBookingSchema is_uuid b = true ->
      find (fun x => String.eqb (Showtime.id x) (showtimeId b)) (showtimes db)
      <> None ->
      showtimeError e = false -> locksError e = false -> bookedError e = false ->
      List.length (held_locks db userId b) = List.length (seatIds b) ->
      snd r = status400 seats_already_booked).
Proof.
  intros Hs S; cbv zeta.
  assert (BA : booked_among db b <> []).
  { intros E.
    assert (H : In s (booked_among db b))
      by (apply filter_In; split;
          [now apply booked_seat_rows_In | now apply elem_In]).
    rewrite E in H; destruct H. }
  destruct (create_booking_cases userId b e db)
    as [(St & No & _ & Why) | [(_ & _ & E & _) | (_ & _ & E & _)]];
    [|contradiction|contradiction].
  repeat split; auto.
Qed.

(** X12.  With at most one lock row per (seat, showtime), a request that
    names the same seat twice is never accepted and creates nothing. *)
Theorem create_booking_repeated_seat_refused (userId : ident) (b : body)
    (e : env) (db : Store.t) :
  one_row_per_slot (seat_locks db) ->
  ~ NoDup (seatIds b) ->
  let r := create_booking is_uuid userId b e db in
  fst r = db /\ forall bk rows, snd r <> status201 bk rows.
Proof.
  intros U D; cbv zeta.
  assert (L : fst (create_booking is_uuid userId b e db) = db
              /\ (forall bk rows,
                    snd (create_booking is_uuid userId b e db) <> status201 bk rows)
              \/ List.length (held_locks db userId b) = List.length (seatIds b))
    by (destruct (create_booking_cases userId b e db)
          as [(St & No & _) | [(_ & L & _) | (_ & L & _)]]; auto).
  destruct L as [L | L]; [exact L|].
  elim D.
  apply NoDup_incl_NoDup with (l := map SeatLock.seat_id (held_locks db userId b)).
  - now apply held_seats_distinct.
  - rewrite length_map, L; apply Nat.le_refl.
  - intros x Hx; apply in_map_iff in Hx; destruct Hx as [l [<- Hl]].
    apply filter_In in Hl; destruct Hl as [_ P].
    apply andb_true_iff in P; destruct P as [_ P]; now apply elem_In.
Qed.

(** X13.  No execution of the booking route touches seats, showtimes, locks
    or payments, and none removes or alters a booking or booking-seat row.
    The store changes in two cases only.  Either both inserts went through:
    then it holds the new booking with its seat rows, even if the final read
    fails and the caller is told of an error.  Or the seat insert failed and
    the compensating delete failed as well: then it holds the new pending
    booking without seat rows, and the caller is given the error of the seat
    insert. *)
Theorem create_booking_frame (userId : ident) (b : body) (e : env)
    (db : Store.t) :
  let r := create_booking is_uuid userId b e db in
  let inserted := Booking.mk (generated_id e) userId (showtimeId b)
                             (totalAmount b) (now e) Booking.pending in
  (seats (fst r) = seats db /\ showtimes (fst r) = showtimes db
   /\ seat_locks (fst r) = seat_locks db /\ payments (fst r) = payments db)
  /\ (exists bs rows,
        bookings (fst r) = bookings db ++ bs
        /\ booking_seats (fst r) = booking_seats db ++ rows
        /\ (bs = [] /\ rows = []
            \/ (bs = [inserted]
                /\ rows = map (fun s => BookingSeat.mk (generated_id e) s
                                                        (showtimeId b))
                              (seatIds b)
                /\ (snd r = next_error full_booking_error
                    \/ exists bk rows', snd r = status201 bk rows'))
            \/ (bs = [inserted] /\ rows = []
                /\ bookingSeatsError e = true /\ rollbackError e = true
                /\ snd r = next_error booking_seats_error)))
  /\ (fst r <> db ->
      snd r = next_error full_booking_error
      \/ (exists bk rows, snd r = status201 bk rows)
      \/ (snd r = next_error booking_seats_error /\ rollbackError e = true)).
Proof.
  cbv zeta.
  destruct (create_booking_cases userId b e db)
    as [(St & _) | [(_ & _ & _ & _ & St & Resp)
                   | (_ & _ & _ & _ & Fail & Rb & St & Resp)]]; rewrite St.
  - repeat split; [|intros N; now elim N].
    exists [], []; rewrite !app_nil_r; auto.
  - assert (R : snd (create_booking is_uuid userId b e db)
                = next_error full_booking_error
                \/ exists bk rows,
                     snd (create_booking is_uuid userId b e db)
                     = status201 bk rows)
      by (destruct Resp as [R | R]; [now left | right; eauto]).
    repeat split.
    + eexists; eexists; split; [reflexivity|]; split; [reflexivity|].
      right; left; split; [reflexivity|]; split; [reflexivity | exact R].
    + intros _; destruct R as [R | R]; [now left | right; now left].
  - repeat split.
    + eexists; exists []; split; [reflexivity|]; split;
        [simpl; now rewrite app_nil_r|].
      right; right; repeat split; assumption.
    + intros _; right; right; split; assumption.
Qed.

End BookingOutcomes.

(** ** More on the gateway webhook *)

Section WebhookMore.
Import Store Realtime Payments Occupancy.

Lemma mark_failed_again (intentId : ident) (tbl : list Payment.t) :
  update_payments intentId mark_failed (update_payments intentId mark_failed tbl)
  = update_payments intentId mark_failed tbl.
Proof.
  unfold update_payments; rewrite map_map; apply map_ext; intros p.
  destruct (String.eqb (Payment.stripe_payment_intent_id p) intentId) eqn:E;
    simpl; now rewrite E.
Qed.

Lemma In_mark_paid (bookingId : ident) (tbl : list Booking.t) (b : Booking.t) :
  In b tbl -> Booking.id b = bookingId ->
  In (Booking.set_status Booking.paid b) (mark_paid bookingId tbl).
Proof.
  intros Hb E; unfold mark_paid; apply in_map_iff; exists b.
  now rewrite E, String.eqb_refl.
Qed.

(** The store and the outputs of a succeeded event when the store answers. *)
Lemma webhook_succeeded_clean (now : instant) (paymentIntent : payment_intent)
    (db : Store.t) :
  let bookingId := metadata_bookingId paymentIntent in
  let rows := filter (fun bs => String.eqb (BookingSeat.booking_id bs) bookingId)
                     (booking_seats db) in
  let db2 :=
    with_bookings (mark_paid bookingId (bookings db))
      (with_payments
         (update_payments (id paymentIntent) (mark_completed now) (payments db))
         db) in
  webhook now Payments.no_failure (payment_intent_succeeded paymentIntent) db
  = match rows with
    | [] => (db2, [], received)
    | first :: _ =>
        (with_seat_locks
           (delete_locks_in (map BookingSeat.seat_id rows)
                            (metadata_userId paymentIntent) (seat_locks db))
           db2,
         [to_room (room_of (BookingSeat.showtime_id first))
            (seats_booked (map BookingSeat.seat_id rows) bookingId)],
         received)
    end.
Proof. reflexivity. Qed.

Lemma webhook_succeeded_tables (now : instant) (paymentIntent : payment_intent)
    (db : Store.t) :
  let bookingId := metadata_bookingId paymentIntent in
  let db' :=
    fst (fst (webhook now Payments.no_failure
                (payment_intent_succeeded paymentIntent) db)) in
  bookings db' = mark_paid bookingId (bookings db)
  /\ payments db'
     = update_payments (id paymentIntent) (mark_completed now) (payments db)
  /\ booking_seats db' = booking_seats db
  /\ seat_locks db'
     = delete_locks_in
         (map BookingSeat.seat_id
              (filter (fun bs => String.eqb (BookingSeat.booking_id bs) bookingId)
                      (booking_seats db)))
         (metadata_userId paymentIntent) (seat_locks db).
Proof.
  cbv zeta; rewrite webhook_succeeded_clean; cbv zeta.
  destruct (filter _ (booking_seats db)); simpl; repeat split.
  unfold delete_locks_in; simpl; symmetry; now apply filter_all.
Qed.

(** X14.  When a succeeded event is processed with the store answering, the
    booking named in the intent is paid, the payments of the intent are
    completed at the time of processing, every seat of the booking is sold
    from then on (so the seat map shows it as booked at any time), the
    locks of the paying user on the booking's seats are gone, and no other
    lock row is touched. *)
Theorem webhook_succeeded_sells_seats (now : instant)
    (paymentIntent : payment_intent) (db : Store.t) :
  let bookingId := metadata_bookingId paymentIntent in
  let db' :=
    fst (fst (webhook now Payments.no_failure
                (payment_intent_succeeded paymentIntent) db)) in
  (forall b, In b (bookings db') -> Booking.id b = bookingId ->
     Booking.status b = Booking.paid)
  /\ (forall p, In p (payments db') ->
        Payment.stripe_payment_intent_id p = id paymentIntent ->
        Payment.payment_status p = Payment.completed
        /\ Payment.payment_date p = Some now)
  /\ (forall bs b,
        In bs (booking_seats db) -> In b (bookings db) ->
        BookingSeat.booking_id bs = bookingId -> Booking.id b = bookingId ->
        sold db' (BookingSeat.showtime_id bs) (BookingSeat.seat_id bs)
        /\ forall t s, Seat.id s = BookingSeat.seat_id bs ->
             Movies.status
               (Movies.seat_status
                  (booked_seat_rows db' (BookingSeat.showtime_id bs))
                  (Movies.live_locks db' (BookingSeat.showtime_id bs) t) s)
             = Movies.booked)
  /\ (forall l, In l (seat_locks db')
        <-> In l (seat_locks db)
            /\ ~ (SeatLock.user_id l = metadata_userId paymentIntent
                  /\ exists bs, In bs (booking_seats db)
                                /\ BookingSeat.booking_id bs = bookingId
                                /\ BookingSeat.seat_id bs = SeatLock.seat_id l)).
Proof.
  cbv zeta.
  destruct (webhook_succeeded_tables now paymentIntent db) as (Eb & Ep & Es & El).
  cbv zeta in Eb, Ep, Es, El.
  set (db' := fst (fst (webhook now Payments.no_failure
                          (payment_intent_succeeded paymentIntent) db))) in *.
  assert (Sold : forall bs b,
            In bs (booking_seats db) -> In b (bookings db) ->
            BookingSeat.booking_id bs = metadata_bookingId paymentIntent ->
            Booking.id b = metadata_bookingId paymentIntent ->
            sold db' (BookingSeat.showtime_id bs) (BookingSeat.seat_id bs)).
  { intros bs b Hbs Hb Ebs Eid.
    exists bs, (Booking.set_status Booking.paid b).
    rewrite Es, Eb; repeat split; try assumption.
    - now apply In_mark_paid.
    - simpl; congruence.
    - now right. }
  split; [intros b Hb; rewrite Eb in Hb; exact (mark_paid_status _ _ _ Hb)|].
  split.
  { intros p Hp E; rewrite Ep in Hp; unfold update_payments in Hp.
    apply in_map_iff in Hp; destruct Hp as [x [Ex Hx]].
    destruct (String.eqb_spec (Payment.stripe_payment_intent_id x)
                              (id paymentIntent));
      subst; [split; reflexivity | contradiction]. }
  split.
  { intros bs b Hbs Hb Ebs Eid; split; [now apply (Sold bs b)|].
    intros t s Hid.
    destruct (seat_status_spec db' t (BookingSeat.showtime_id bs) s)
      as (_ & Hbooked & _).
    apply Hbooked; rewrite Hid; now apply (Sold bs b). }
  intros l; rewrite El, In_delete_locks_in; split.
  - intros [Hl N]; split; [assumption|].
    intros [Eu [bs (Hbs & Eb' & Es')]]; apply N; split; [|assumption].
    rewrite <- Es'; apply in_map.
    apply filter_In; split; [assumption | now apply String.eqb_eq].
  - intros [Hl N]; split; [assumption|].
    intros [Hin Eu]; apply N; split; [assumption|].
    apply in_map_iff in Hin; destruct Hin as [bs [Es' Hbs]].
    apply filter_In in Hbs; destruct Hbs as [Hbs Eb'].
    apply String.eqb_eq in Eb'; eauto.
Qed.

(** X15.  A redelivery absorbs what an earlier delivery of the same event
    did, whether that one went through or broke off at a failing store call:
    processing the event with the store answering after any earlier attempt
    gives exactly the store, the emissions and the response that processing
    it on the original store gives. *)
Theorem webhook_redelivery_absorbs (now1 now2 : instant) (f : Payments.failures)
    (ev : event) (db : Store.t) :
  webhook now2 Payments.no_failure ev (fst (fst (webhook now1 f ev db)))
  = webhook now2 Payments.no_failure ev db.
Proof.
  destruct ev as [pi | pi | ty]; [| |reflexivity].
  - rewrite !webhook_succeeded_clean; cbv zeta.
    assert (Clean :
      forall d,
        booking_seats d = booking_seats db ->
        seats d = seats db -> showtimes d = showtimes db ->
        (bookings d = bookings db
         \/ bookings d = mark_paid (metadata_bookingId pi) (bookings db)) ->
        (payments d = payments db
         \/ payments d
            = update_payments (id pi) (mark_completed now1) (payments db)) ->
        (seat_locks d = seat_locks db
         \/ seat_locks d
            = delete_locks_in
                (map BookingSeat.seat_id
                     (filter (fun bs => String.eqb (BookingSeat.booking_id bs)
                                                   (metadata_bookingId pi))
                             (booking_seats db)))
                (metadata_userId pi) (seat_locks db)) ->
        match
          filter (fun bs => String.eqb (BookingSeat.booking_id bs)
                                       (metadata_bookingId pi))
                 (booking_seats d)
        with
        | [] =>
            (with_bookings (mark_paid (metadata_bookingId pi) (bookings d))
               (with_payments
                  (update_payments (id pi) (mark_completed now2) (payments d)) d),
             @nil emission, received)
        | first :: _ =>
            (with_seat_locks
               (delete_locks_in
                  (map BookingSeat.seat_id
                       (filter (fun bs => String.eqb (BookingSeat.booking_id bs)
                                                     (metadata_bookingId pi))
                               (booking_seats d)))
                  (metadata_userId pi) (seat_locks d))
               (with_bookings (mark_paid (metadata_bookingId pi) (bookings d))
                  (with_payments
                     (update_payments (id pi) (mark_completed now2) (payments d))
                     d)),
             [to_room (room_of (BookingSeat.showtime_id first))
                (seats_booked
                   (map BookingSeat.seat_id
                        (filter (fun bs => String.eqb (BookingSeat.booking_id bs)
                                                      (metadata_bookingId pi))
                                (booking_seats d)))
                   (metadata_bookingId pi))],
             received)
        end
        = match
            filter (fun bs => String.eqb (BookingSeat.booking_id bs)
                                         (metadata_bookingId pi))
                   (booking_seats db)
          with
          | [] =>
              (with_bookings (mark_paid (metadata_bookingId pi) (bookings db))
                 (with_payments
                    (update_payments (id pi) (mark_completed now2) (payments db))
                    db),
               @nil emission, received)
          | first :: _ =>
              (with_seat_locks
                 (delete_locks_in
                    (map BookingSeat.seat_id
                         (filter (fun bs => String.eqb (BookingSeat.booking_id bs)
                                                       (metadata_bookingId pi))
                                 (booking_seats db)))
                    (metadata_userId pi) (seat_locks db))
                 (with_bookings (mark_paid (metadata_bookingId pi) (bookings db))
                    (with_payments
                       (update_payments (id pi) (mark_completed now2)
                                        (payments db)) db)),
               [to_room (room_of (BookingSeat.showtime_id first))
                  (seats_booked
                     (map BookingSeat.seat_id
                          (filter (fun bs => String.eqb (BookingSeat.booking_id bs)
                                                        (metadata_bookingId pi))
                                  (booking_seats db)))
                     (metadata_bookingId pi))],
               received)
          end).
    { intros d Ebs Ese Esh Eb Ep El; rewrite Ebs.
      assert (Eb' : mark_paid (metadata_bookingId pi) (bookings d)
                    = mark_paid (metadata_bookingId pi) (bookings db))
        by (destruct Eb as [-> | ->];
            [reflexivity | apply mark_paid_idempotent]).
      assert (Ep' : update_payments (id pi) (mark_completed now2) (payments d)
                    = update_payments (id pi) (mark_completed now2) (payments db))
        by (destruct Ep as [-> | ->];
            [reflexivity | apply update_payments_again]).
      assert (El' :
        delete_locks_in
          (map BookingSeat.seat_id
               (filter (fun bs => String.eqb (BookingSeat.booking_id bs)
                                             (metadata_bookingId pi))
                       (booking_seats db)))
          (metadata_userId pi) (seat_locks d)
        = delete_locks_in
            (map BookingSeat.seat_id
                 (filter (fun bs => String.eqb (BookingSeat.booking_id bs)
                                               (metadata_bookingId pi))
                         (booking_seats db)))
            (metadata_userId pi) (seat_locks db))
        by (destruct El as [-> | ->];
            [reflexivity | apply delete_locks_in_idempotent]).
      rewrite Eb', Ep', El'.
      unfold with_seat_locks, with_bookings, with_payments; simpl.
      rewrite Ebs, Ese, Esh.
      destruct (filter _ (booking_seats db)); [|reflexivity].
      destruct El as [-> | ->]; [reflexivity|].
      unfold delete_locks_in; simpl; now rewrite filter_all. }
    apply Clean; clear Clean; unfold webhook;
      destruct (paymentUpdateError f); simpl; auto;
      destruct (bookingUpdateError f); simpl; auto;
      destruct (seatsError f); simpl; auto;
      destruct (filter _ (booking_seats db)); simpl; auto.
  - simpl; unfold with_payments; simpl; now rewrite mark_failed_again.
Qed.

End WebhookMore.

Section FurtherSamples.
Import Store Realtime Sockets Bookings Movies Occupancy Invariants.
Local Open Scope string_scope.

(** At 10:05:00 V selects the free seat A4 of the sample theater; the seat map
    of that instant shows it held by V until 10:15:00. *)
Lemma select_then_seat_map_sample :
  In (mk_view (SeatMapSamples.seatA 4 "A4") locked (Some "V") (Some 900000))
     [mk_view (SeatMapSamples.seatA 1 "A1") booked None None;
      mk_view (SeatMapSamples.seatA 2 "A2") locked (Some "U") (Some 600000);
      mk_view (SeatMapSamples.seatA 3 "A3") available None None;
      mk_view (SeatMapSamples.seatA 4 "A4") locked (Some "V") (Some 900000)].
Proof.
  apply (select_then_seat_map MergeDuplicates "V" 300000 300000 "S" ["A4"]
           SeatMapSamples.store1 (SeatMapSamples.seatA 4 "A4")
           SeatMapSamples.showtimeS).
  - now left.
  - reflexivity.
  - rewrite <- booked_seat_rows_In; simpl; intros [E | []]; discriminate E.
  - lia.
  - simpl; auto.
  - reflexivity.
  - reflexivity.
Defined.

(** User 1 selects seat 1 on an empty lock table at 10:00:00 and books it two
    minutes later. *)
Lemma select_then_create_booking_sample :
  snd (create_booking canonical_uuid BookingSamples.user1 BookingSamples.request1
         (BookingSamples.calm 120000)
         (fst (select_seats RejectDuplicate BookingSamples.user1 0
                 (mk_select BookingSamples.showtime1 [BookingSamples.seat1] select)
                 (with_seat_locks [] BookingSamples.store1))))
  = status201
      (Booking.mk BookingSamples.booking1 BookingSamples.user1
                  BookingSamples.showtime1 (24 # 1) 120000 Booking.pending)
      [BookingSeat.mk BookingSamples.booking1 BookingSamples.seat1
                      BookingSamples.showtime1].
Proof.
  change (BookingSamples.calm 120000)
    with (mk_env 120000 BookingSamples.booking1 false false false false false false false).
  change BookingSamples.showtime1 with (showtimeId BookingSamples.request1) at 1.
  change [BookingSamples.seat1] with (seatIds BookingSamples.request1) at 1.
  rewrite (select_then_create_booking canonical_uuid RejectDuplicate
             BookingSamples.user1 0 120000 BookingSamples.booking1
             BookingSamples.request1 (with_seat_locks [] BookingSamples.store1)
             (Showtime.mk BookingSamples.showtime1 "M" "T")).
  - reflexivity.
  - reflexivity.
  - reflexivity.
  - repeat constructor; intros [].
  - intros s _; reflexivity.
  - intros s _ (bs & _ & [] & _).
  - reflexivity.
  - reflexivity.
Defined.

Lemma create_booking_created_sample :
  seat_locks (fst (create_booking canonical_uuid BookingSamples.user1
                     BookingSamples.request1 (BookingSamples.calm 630000)
                     BookingSamples.store1))
  = [BookingSamples.lock1].
Proof.
  destruct (create_booking_created canonical_uuid BookingSamples.user1
              BookingSamples.request1 (BookingSamples.calm 630000)
              BookingSamples.store1 _ _ eq_refl) as (_ & _ & _ & E & _).
  exact E.
Defined.

(** V asks for the sold seat A3 of the contended store. *)
Lemma create_booking_sold_seat_refused_sample :
  fst (create_booking (fun _ => true) "V" (mk_body "S" ["A3"] (24 # 1))
         (mk_env 5000 "B9" false false false false false false false)
         Samples.contended_store)
  = Samples.contended_store.
Proof.
  apply (create_booking_sold_seat_refused (fun _ => true) "V"
           (mk_body "S" ["A3"] (24 # 1))
           (mk_env 5000 "B9" false false false false false false false)
           Samples.contended_store "A3").
  - now left.
  - apply booked_seat_rows_In; simpl; auto.
Defined.

(** U asks for A1 twice in one request. *)
Lemma create_booking_repeated_seat_refused_sample :
  fst (create_booking (fun _ => true) "U" (mk_body "S" ["A1"; "A1"] (24 # 1))
         (mk_env 5000 "B9" false false false false false false false)
         Samples.contended_store)
  = Samples.contended_store.
Proof.
  apply (create_booking_repeated_seat_refused (fun _ => true) "U"
           (mk_body "S" ["A1"; "A1"] (24 # 1))
           (mk_env 5000 "B9" false false false false false false false)
           Samples.contended_store).
  - repeat constructor; intros [].
  - intros N; inversion N as [|? ? Hnotin _]; apply Hnotin; now left.
Defined.

End FurtherSamples.

(** * The read routes *)

Section SortedLists.

(** A list sorted for a boolean order is sorted for any relation the order
    implies. *)
Lemma StronglySorted_weaken {A} (R S : A -> A -> Prop) (l : list A) :
  (forall a b, R a b -> S a b) ->
  Sorted.StronglySorted R l -> Sorted.StronglySorted S l.
Proof.
  intros H St; induction St as [|a l _ IH Ha]; constructor; [exact IH|].
  apply Forall_forall; intros b Hb.
  apply H; exact (proj1 (Forall_forall _ _) Ha b Hb).
Qed.

Lemma single_spec {A} (rows : list A) (x : A) :
  Catalog.single rows = Some x <-> rows = [x].
Proof.
  destruct rows as [|y [|z rest]]; simpl; split; intros H;
    try discriminate; now inversion H.
Qed.

End SortedLists.

Section MovieReadsFacts.
Import Catalog MovieReads ReadOrders.

Lemma movie_leb_trans :
  RelationClasses.Transitive (fun a b => is_true (MovieOrder.leb a b)).
Proof.
  intros a b c; unfold is_true, MovieOrder.leb, movie_leb; rewrite !Z.leb_le; lia.
Qed.

Lemma showtime_leb_trans :
  RelationClasses.Transitive (fun a b => is_true (ShowtimeOrder.leb a b)).
Proof.
  intros a b c; unfold is_true, ShowtimeOrder.leb, showtime_leb.
  rewrite !orb_true_iff, !andb_true_iff, !Z.ltb_lt, !Z.eqb_eq, !Z.leb_le; lia.
Qed.

(** X16.  The movie list holds exactly the active movies of the catalog,
    each once, newest first; an inactive movie is never listed. *)
Theorem movies_index_active_newest_first (error : bool) (cat : Catalog.t)
    (listed : list Movie.t) :
  index error cat = movies_ok listed ->
  Permutation listed (filter Movie.is_active (movies cat))
  /\ (forall m, In m listed <-> In m (movies cat) /\ Movie.is_active m = true)
  /\ Sorted.StronglySorted newer_movie listed.
Proof.
  unfold index; destruct error; [discriminate|]; intros [= <-].
  assert (P : Permutation (MovieSort.sort (filter Movie.is_active (movies cat)))
                          (filter Movie.is_active (movies cat)))
    by (symmetry; apply MovieSort.Permuted_sort).
  split; [exact P|]; split.
  - intros m; rewrite <- filter_In; split; apply Permutation_in;
      [exact P | symmetry; exact P].
  - apply (StronglySorted_weaken (fun a b => is_true (MovieOrder.leb a b))).
    + intros a b H; unfold newer_movie; now apply Z.leb_le.
    + apply MovieSort.StronglySorted_sort, movie_leb_trans.
Qed.

(** X17.  The movie detail answers 404 unless exactly one active movie has
    the id.  Otherwise it lists that movie's showtimes dated on or after the
    UTC day of the request, all of them and no other, by date and then time
    of day, each with the theater its row points to.  A showtime dated today
    is listed whatever its time of day. *)
Theorem movie_detail_upcoming (now : instant) (movieError showtimesError : bool)
    (movieId : ident) (cat : Catalog.t) (movie : Movie.t)
    (listed : list showing) :
  detail now movieError showtimesError movieId cat = detail_ok movie listed ->
  (In movie (movies cat) /\ Movie.id movie = movieId
   /\ Movie.is_active movie = true
   /\ filter (fun m => String.eqb (Movie.id m) movieId && Movie.is_active m)
             (movies cat) = [movie])
  /\ (forall st, In st (map row listed)
        <-> In st (showtimes cat)
            /\ ShowtimeRow.movie_id st = movieId
            /\ now / 86400000 <= ShowtimeRow.show_date st)
  /\ Permutation
       (map row listed)
       (filter (fun st => String.eqb (ShowtimeRow.movie_id st) movieId
                          && (now / 86400000 <=? ShowtimeRow.show_date st))
               (showtimes cat))
  /\ Sorted.StronglySorted showtime_before (map row listed)
  /\ (forall sh th, In sh listed -> theater sh = Some th ->
        In th (theaters cat) /\ Theater.id th = ShowtimeRow.theater_id (row sh)).
Proof.
  unfold detail.
  destruct movieError; [discriminate|].
  destruct (single _) as [m|] eqn:S; [|discriminate].
  destruct showtimesError; [discriminate|]; intros [= -> <-].
  apply single_spec in S.
  assert (Hm : In movie (filter (fun m => String.eqb (Movie.id m) movieId
                                         && Movie.is_active m) (movies cat)))
    by (rewrite S; now left).
  apply filter_In in Hm; destruct Hm as [Hm Pm].
  apply andb_true_iff in Pm; destruct Pm as [Pid Pact]; apply String.eqb_eq in Pid.
  assert (Rows : map row (map (with_theater cat) (upcoming now movieId cat))
                 = upcoming now movieId cat)
    by (rewrite map_map; simpl; apply map_id).
  rewrite Rows.
  assert (P : Permutation
                (upcoming now movieId cat)
                (filter (fun st => String.eqb (ShowtimeRow.movie_id st) movieId
                                   && (utc_day now <=? ShowtimeRow.show_date st))
                        (showtimes cat)))
    by (symmetry; apply ShowtimeSort.Permuted_sort).
  split; [repeat split; assumption|]; split; [|split; [exact P|split]].
  - intros st; split.
    + intros H; apply (Permutation_in _ P), filter_In in H.
      destruct H as [H Q]; apply andb_true_iff in Q; destruct Q as [Q1 Q2].
      apply String.eqb_eq in Q1; apply Z.leb_le in Q2; auto.
    + intros (H & Q1 & Q2); apply (Permutation_in _ (Permutation_sym P)).
      apply filter_In; split; [exact H|].
      now rewrite Q1, String.eqb_refl; apply Z.leb_le.
  - apply (StronglySorted_weaken (fun a b => is_true (ShowtimeOrder.leb a b))).
    + intros a b H; unfold showtime_before.
      unfold is_true, ShowtimeOrder.leb, showtime_leb in H.
      rewrite orb_true_iff, andb_true_iff, Z.ltb_lt, Z.eqb_eq, Z.leb_le in H.
      exact H.
    + apply ShowtimeSort.StronglySorted_sort, showtime_leb_trans.
  - intros sh th Hsh Eth; apply in_map_iff in Hsh; destruct Hsh as [st [<- _]].
    simpl in Eth; apply find_some in Eth; destruct Eth as [Hth E].
    apply String.eqb_eq in E; auto.
Qed.

End MovieReadsFacts.

Section BookingReadsFacts.
Import Store Catalog BookingReads ReadOrders.

Lemma booking_leb_trans :
  RelationClasses.Transitive (fun a b => is_true (BookingOrder.leb a b)).
Proof.
  intros a b c; unfold is_true, BookingOrder.leb, booking_leb; rewrite !Z.leb_le; lia.
Qed.

(** X18.  The booking list of a user holds that user's bookings, all of them,
    each once, newest first, and never a booking of anyone else; each comes
    with one seat entry per booking-seat row of that booking. *)
Theorem my_bookings_only_mine (error : bool) (userId : ident) (db : Store.t)
    (cat : Catalog.t) (listed : list booking_view) :
  index error userId db cat = bookings_ok listed ->
  Permutation (map booking listed)
              (filter (fun b => String.eqb (Booking.user_id b) userId)
                      (bookings db))
  /\ (forall v, In v listed ->
        In (booking v) (bookings db) /\ Booking.user_id (booking v) = userId)
  /\ Sorted.StronglySorted newer_booking (map booking listed)
  /\ (forall v, In v listed ->
        List.length (BookingReads.booking_seats v)
        = List.length
            (filter (fun bs => String.eqb (BookingSeat.booking_id bs)
                                          (Booking.id (booking v)))
                    (Store.booking_seats db))).
Proof.
  unfold index; destruct error; [discriminate|]; intros [= <-].
  set (mine := filter (fun b => String.eqb (Booking.user_id b) userId)
                      (bookings db)).
  assert (Rows : map booking (map (BookingReads.listed db cat) (BookingSort.sort mine))
                 = BookingSort.sort mine)
    by (rewrite map_map; simpl; apply map_id).
  assert (P : Permutation (BookingSort.sort mine) mine)
    by (symmetry; apply BookingSort.Permuted_sort).
  rewrite Rows; split; [exact P|]; split; [|split].
  - intros v Hv; apply in_map_iff in Hv; destruct Hv as [b [<- Hb]]; simpl.
    apply (Permutation_in _ P), filter_In in Hb; destruct Hb as [Hb E].
    apply String.eqb_eq in E; auto.
  - apply (StronglySorted_weaken (fun a b => is_true (BookingOrder.leb a b))).
    + intros a b H; unfold newer_booking; now apply Z.leb_le.
    + apply BookingSort.StronglySorted_sort, booking_leb_trans.
  - intros v Hv; apply in_map_iff in Hv; destruct Hv as [b [<- _]]; simpl.
    unfold seats_of_booking; apply length_map.
Qed.

(** X19.  Reading a booking by id gives it only to its owner: the answer is
    a booking only when exactly one booking has that id and that user, and
    then it carries the payments of that booking and no other; when every
    booking with the id belongs to someone else the answer is 404, as for an
    id that does not exist. *)
Theorem booking_by_id_owner_only (error : bool) (userId bookingId : ident)
    (db : Store.t) (cat : Catalog.t) :
  (forall v, by_id error userId bookingId db cat = booking_ok v ->
     In (booking v) (bookings db)
     /\ Booking.id (booking v) = bookingId
     /\ Booking.user_id (booking v) = userId
     /\ forall p, In p (BookingReads.payments v)
                  <-> In p (Store.payments db) /\ Payment.booking_id p = bookingId)
  /\ ((forall b, In b (bookings db) -> Booking.id b = bookingId ->
         Booking.user_id b <> userId) ->
      by_id error userId bookingId db cat = status404).
Proof.
  unfold by_id; split.
  - intros v; destruct error; [discriminate|].
    destruct (single _) as [b|] eqn:S; [|discriminate]; intros [= <-].
    apply single_spec in S.
    assert (Hb : In b (filter (fun b => String.eqb (Booking.id b) bookingId
                                        && String.eqb (Booking.user_id b) userId)
                              (bookings db)))
      by (rewrite S; now left).
    apply filter_In in Hb; destruct Hb as [Hb P].
    apply andb_true_iff in P; destruct P as [P1 P2].
    apply String.eqb_eq in P1, P2; simpl.
    split; [assumption|]; split; [assumption|]; split; [assumption|].
    intros p; unfold payments_of_booking.
    rewrite filter_In, String.eqb_eq, P1; tauto.
  - intros Others; destruct error; [reflexivity|].
    replace (filter _ (bookings db)) with (@nil Booking.t); [reflexivity|].
    symmetry; induction (bookings db) as [|x l IH]; [reflexivity|]; simpl.
    destruct (String.eqb_spec (Booking.id x) bookingId) as [E|]; simpl.
    + destruct (String.eqb_spec (Booking.user_id x) userId) as [U|].
      * elim (Others x (or_introl eq_refl) E U).
      * apply IH; intros b Hb; apply Others; now right.
    + apply IH; intros b Hb; apply Others; now right.
Qed.

End BookingReadsFacts.

(** * Opening a payment *)

Section IntentFacts.
Import Store Catalog Intents.

Variable is_uuid : string -> bool.
Variable round_cents : Q -> Z.

(** The outcomes that end before the gateway is contacted. *)
Local Ltac early_exit :=
  split; [discriminate
         | split; [reflexivity | split; [discriminate | repeat split]]].

(** X20.  An intent is opened only for a booking of the caller that is
    pending: on the ok response exactly one booking has the id, the caller
    and the status pending, the gateway was asked once, in usd, with the
    booking id and the caller in the metadata, for the integer the handler's
    rounding gives on the booking's stored amount (the rounding is the
    parameter [round_cents]; nothing is said about its value), and the store
    gains one payment row for that booking, pending, with the stored amount
    unchanged, under the intent id the gateway answered.  Every other outcome
    leaves the store as it was; the gateway is contacted only once the
    booking has been found; and no outcome touches a table other than
    payments. *)
Theorem create_intent_outcomes (userId bookingId : ident) (e : env)
    (db : Store.t) (cat : Catalog.t) :
  let r := create_intent is_uuid round_cents userId bookingId e db cat in
  (forall secret intentId, snd r = ok secret intentId ->
     exists booking text,
       filter (fun b => String.eqb (Booking.id b) bookingId
                        && String.eqb (Booking.user_id b) userId
                        && is_pending (Booking.status b))
              (bookings db) = [booking]
       /\ Booking.id booking = bookingId
       /\ Booking.user_id booking = userId
       /\ Booking.status booking = Booking.pending
       /\ gateway e = Some (mk_reply intentId secret)
       /\ snd (fst r)
          = Some (mk_request (round_cents (Booking.total_amount booking)) "usd"
                             bookingId userId text)
       /\ fst (fst r)
          = with_payments
              (payments db
                 ++ [Payment.mk bookingId intentId (Booking.total_amount booking)
                                Payment.pending None])
              db)
  /\ ((forall secret intentId, snd r <> ok secret intentId) -> fst (fst r) = db)
  /\ (forall request, snd (fst r) = Some request ->
        metadata_bookingId request = bookingId
        /\ metadata_userId request = userId
        /\ currency request = "usd"%string
        /\ exists booking,
             In booking (bookings db) /\ Booking.id booking = bookingId
             /\ Booking.user_id booking = userId
             /\ Booking.status booking = Booking.pending
             /\ amount request = round_cents (Booking.total_amount booking))
  /\ (seats (fst (fst r)) = seats db
      /\ Store.showtimes (fst (fst r)) = Store.showtimes db
      /\ seat_locks (fst (fst r)) = seat_locks db
      /\ bookings (fst (fst r)) = bookings db
      /\ booking_seats (fst (fst r)) = booking_seats db).
Proof.
  cbv zeta; unfold create_intent.
  destruct (is_uuid bookingId); simpl; [|early_exit].
  destruct (bookingError e); [early_exit|].
  destruct (single _) as [booking|] eqn:S; [|early_exit].
  apply single_spec in S.
  assert (Hb : In booking
                  (filter (fun b => String.eqb (Booking.id b) bookingId
                                    && String.eqb (Booking.user_id b) userId
                                    && is_pending (Booking.status b))
                          (bookings db)))
    by (rewrite S; now left).
  apply filter_In in Hb; destruct Hb as [Hin P].
  rewrite !andb_true_iff in P; destruct P as [[P1 P2] P3].
  apply String.eqb_eq in P1, P2.
  assert (P4 : Booking.status booking = Booking.pending)
    by (destruct (Booking.status booking); try discriminate; reflexivity).
  destruct (describe cat booking) as [text|]; [|early_exit].
  assert (Req : forall request,
            Some (mk_request (round_cents (Booking.total_amount booking)) "usd"
                             (Booking.id booking) userId text) = Some request ->
            metadata_bookingId request = bookingId
            /\ metadata_userId request = userId
            /\ currency request = "usd"%string
            /\ exists booking0,
                 In booking0 (bookings db) /\ Booking.id booking0 = bookingId
                 /\ Booking.user_id booking0 = userId
                 /\ Booking.status booking0 = Booking.pending
                 /\ amount request = round_cents (Booking.total_amount booking0)).
  { intros request [= <-]; cbn [metadata_bookingId metadata_userId currency amount].
    repeat split; try assumption.
    exists booking; repeat split; assumption. }
  destruct (gateway e) as [[pid secret]|] eqn:G;
    [|split; [discriminate | split; [reflexivity | split; [exact Req | repeat split]]]].
  destruct (paymentError e);
    [split; [discriminate | split; [reflexivity | split; [exact Req | repeat split]]]|].
  cbn [fst snd]; split; [|split; [|split; [exact Req | repeat split]]].
  - intros secret' pid' [= <- <-].
    exists booking, text; rewrite P1.
    repeat split; assumption.
  - intros N; elim (N secret pid); reflexivity.
Qed.

Lemma no_pending_after_paid (bookingId userId : ident) (tbl : list Booking.t) :
  filter (fun b => String.eqb (Booking.id b) bookingId
                   && String.eqb (Booking.user_id b) userId
                   && is_pending (Booking.status b))
         (Payments.mark_paid bookingId tbl)
  = [].
Proof.
  unfold Payments.mark_paid.
  induction tbl as [|x l IH]; [reflexivity|]; simpl.
  destruct (String.eqb_spec (Booking.id x) bookingId) as [E|N]; simpl.
  - rewrite E, String.eqb_refl; simpl; rewrite andb_false_r; exact IH.
  - destruct (String.eqb_spec (Booking.id x) bookingId);
      [contradiction | exact IH].
Qed.

Lemma In_update_payments (intentId : ident) (f : Payment.t -> Payment.t)
    (tbl : list Payment.t) (p : Payment.t) :
  In p tbl ->
  In (if String.eqb (Payment.stripe_payment_intent_id p) intentId then f p else p)
     (Payments.update_payments intentId f tbl).
Proof.
  intros H; unfold Payments.update_payments.
  apply in_map_iff; exists p; split; [reflexivity | exact H].
Qed.

(** X21.  Once the gateway's succeeded event for a booking has been
    processed, a create-intent request for that booking, by anyone, is
    answered 400 or 404, the gateway is not asked and the store is left as it
    is.  That closes the route for new intents only.  A payment row opened
    earlier under another intent is still in the store as it was, and when
    the succeeded event of that intent arrives the webhook, which does not
    read the status of the booking, answers received and completes it. *)
Theorem paid_booking_gets_no_intent (now : instant)
    (paymentIntent : Payments.payment_intent) (userId : ident) (e : env)
    (db : Store.t) (cat : Catalog.t) :
  let db' :=
    fst (fst (Payments.webhook now Payments.no_failure
                (Payments.payment_intent_succeeded paymentIntent) db)) in
  let r := create_intent is_uuid round_cents userId
             (Payments.metadata_bookingId paymentIntent) e db' cat in
  (fst (fst r) = db' /\ snd (fst r) = None
   /\ (snd r = status400 \/ snd r = status404))
  /\ (forall (now2 : instant) (other : Payments.payment_intent) (p : Payment.t),
        In p (payments db) ->
        Payment.stripe_payment_intent_id p = Payments.id other ->
        Payments.id other <> Payments.id paymentIntent ->
        let again :=
          Payments.webhook now2 Payments.no_failure
            (Payments.payment_intent_succeeded other) db' in
        In p (payments db')
        /\ snd again = Payments.received
        /\ In (Payments.mark_completed now2 p) (payments (fst (fst again)))).
Proof.
  cbv zeta.
  destruct (webhook_succeeded_tables now paymentIntent db) as (Eb & Ep & _).
  cbv zeta in Eb, Ep.
  set (db' := fst (fst (Payments.webhook now Payments.no_failure
                          (Payments.payment_intent_succeeded paymentIntent) db)))
    in *.
  split.
  - unfold create_intent.
    destruct (is_uuid (Payments.metadata_bookingId paymentIntent)); simpl; [|auto].
    destruct (bookingError e); [auto|].
    rewrite Eb, no_pending_after_paid; simpl; auto.
  - intros now2 other p Hp Eid Other.
    assert (Kept : In p (payments db')).
    { rewrite Ep.
      pose proof (In_update_payments (Payments.id paymentIntent)
                    (Payments.mark_completed now) (payments db) p Hp) as K.
      destruct (String.eqb_spec (Payment.stripe_payment_intent_id p)
                                (Payments.id paymentIntent)) as [E|_];
        [elim Other; congruence | exact K]. }
    split; [exact Kept|]; split.
    + rewrite webhook_succeeded_clean; cbv zeta.
      destruct (filter _ (booking_seats db')); reflexivity.
    + destruct (webhook_succeeded_tables now2 other db') as (_ & Ep2 & _).
      cbv zeta in Ep2; rewrite Ep2.
      pose proof (In_update_payments (Payments.id other)
                    (Payments.mark_completed now2) (payments db') p Kept) as K.
      rewrite Eid, String.eqb_refl in K; exact K.
Qed.

End IntentFacts.

(** * The booking page *)

Section ClientFacts.
Import Client.

Lemma click_keeps_bound (user channel : option ident) (sel : list seat) (s : seat) :
  (List.length sel <= 10)%nat ->
  (List.length (selected (handleSeatSelect user channel sel s)) <= 10)%nat.
Proof.
  intros H; unfold handleSeatSelect.
  destruct (is_status Movies.booked s || _); cbn [selected]; [assumption|].
  destruct (existsb _ sel); cbn [selected].
  - eapply Nat.le_trans; [apply filter_length_le | assumption].
  - destruct (Nat.leb_spec 10 (List.length sel)); cbn [selected]; [assumption|].
    rewrite length_app; simpl; lia.
Qed.

Lemma click_keeps_distinct (user channel : option ident) (sel : list seat)
    (s : seat) :
  NoDup (map id sel) ->
  NoDup (map id (selected (handleSeatSelect user channel sel s))).
Proof.
  intros H; unfold handleSeatSelect.
  destruct (is_status Movies.booked s || _); cbn [selected]; [assumption|].
  destruct (existsb (fun x => String.eqb (id x) (id s)) sel) eqn:E; cbn [selected].
  - clear E; induction sel as [|x sel IH]; simpl; [constructor|].
    inversion H as [|? ? Hnotin Hrest]; subst.
    destruct (String.eqb (id x) (id s)); simpl; [now apply IH|].
    constructor; [|now apply IH].
    rewrite in_map_iff; intros [y [Ey Hy]]; apply filter_In in Hy.
    apply Hnotin, in_map_iff; exists y; tauto.
  - destruct (10 <=? List.length sel)%nat; cbn [selected]; [assumption|].
    rewrite map_app; simpl.
    apply NoDup_app_remove_l with (l := []); simpl.
    apply Permutation_NoDup with (l := id s :: map id sel);
      [apply Permutation_cons_append|].
    constructor; [|assumption].
    rewrite in_map_iff; intros [y [Ey Hy]].
    assert (T : existsb (fun x => String.eqb (id x) (id s)) sel = true)
      by (apply existsb_exists; exists y; split;
          [assumption | now apply String.eqb_eq]).
    congruence.
Qed.

Lemma total_not_a_number (sh : Showtime.t) (x : seat) (sel : list seat) :
  total sh (x :: sel) = NaN.
Proof.
  unfold total; cbn [fold_left]; unfold plus_price at 2.
  induction sel as [|y sel IH]; [reflexivity | exact IH].
Qed.

Lemma filter_drops (sel : list seat) (s : seat) :
  In (id s) (map id sel) ->
  filter (fun x => negb (String.eqb (id x) (id s))) sel <> sel.
Proof.
  intros H E; apply in_map_iff in H; destruct H as [x [Ex Hx]].
  rewrite <- E in Hx; apply filter_In in Hx; destruct Hx as [_ P].
  rewrite Ex, String.eqb_refl in P; discriminate.
Qed.

(** X22.  Whatever seats are clicked, in whatever states they are shown, the
    selection never holds more than ten seats nor the same seat twice; so a
    request the page builds names between one and ten distinct seats, in the
    order of selection, for the showtime of the page.  The total it carries
    is not a number: each step of the sum adds the [price] of the showtime
    object of the seat-map response, which has none. *)
Theorem clicks_keep_selection_bounded (user channel : option ident)
    (clicks : list seat) :
  let sel := after_clicks user channel clicks in
  (List.length sel <= 10)%nat
  /\ NoDup (map id sel)
  /\ (forall showtimeId, booking_request showtimeId None sel = None)
  /\ forall showtimeId sh body,
       booking_request showtimeId (Some sh) sel = Some body ->
       Client.showtimeId body = showtimeId
       /\ seatIds body = map id sel
       /\ (1 <= List.length (seatIds body) <= 10)%nat
       /\ NoDup (seatIds body)
       /\ totalAmount body = NaN.
Proof.
  cbv zeta; unfold after_clicks.
  assert (Inv : forall sel0,
            (List.length sel0 <= 10)%nat -> NoDup (map id sel0) ->
            (List.length
               (fold_left (fun sel s => selected (handleSeatSelect user channel sel s))
                          clicks sel0) <= 10)%nat
            /\ NoDup (map id
                 (fold_left (fun sel s => selected (handleSeatSelect user channel sel s))
                            clicks sel0))).
  { induction clicks as [|c rest IH]; intros sel0 B D; simpl; [auto|].
    apply IH; [now apply click_keeps_bound | now apply click_keeps_distinct]. }
  destruct (Inv [] (Nat.le_0_l 10) (NoDup_nil _)) as [B D]; clear Inv.
  split; [exact B|]; split; [exact D|]; split.
  - intros showtimeId; unfold booking_request.
    destruct (fold_left _ clicks []); reflexivity.
  - intros showtimeId sh body; unfold booking_request.
    destruct (fold_left _ clicks []) as [|x sel] eqn:E; [discriminate|].
    intros [= <-].
    cbn [Client.showtimeId seatIds totalAmount].
    change (id x :: map id sel) with (map id (x :: sel)).
    rewrite length_map; repeat split; try assumption.
    + simpl; lia.
    + apply total_not_a_number.
Qed.

(** X23.  What one click does, case by case.  A seat shown as booked, or as
    locked by someone else, is not selectable: the selection stays, nothing
    is shown and nothing is sent.  A selectable seat that is selected is
    removed from the selection and deselect is sent for that one seat.  A
    selectable seat that is not selected is refused with the alert when ten
    seats are selected, and otherwise appended, with select sent for that one
    seat.  So a message goes out exactly when the socket and the showtime id
    are there and the selection changed. *)
Theorem click_protocol (user channel : option ident) (sel : list seat) (s : seat) :
  let c := handleSeatSelect user channel sel s in
  let message action :=
    match channel with
    | Some showtimeId => Some (Sockets.mk_select showtimeId [id s] action)
    | None => None
    end in
  let blocked :=
    is_status Movies.booked s = true
    \/ (is_status Movies.locked s = true /\ not_mine s user = true) in
  (blocked -> c = mk_click sel None None)
  /\ (~ blocked -> In (id s) (map id sel) ->
      c = mk_click (filter (fun x => negb (String.eqb (id x) (id s))) sel)
                   None (message Sockets.deselect))
  /\ (~ blocked -> ~ In (id s) (map id sel) -> (10 <= List.length sel)%nat ->
      c = mk_click sel (Some "Maximum 10 seats can be selected"%string) None)
  /\ (~ blocked -> ~ In (id s) (map id sel) -> (List.length sel < 10)%nat ->
      c = mk_click (sel ++ [s]) None (message Sockets.select))
  /\ (sent c <> None <-> channel <> None /\ selected c <> sel).
Proof.
  cbv zeta; unfold handleSeatSelect.
  assert (Sel : existsb (fun x => String.eqb (id x) (id s)) sel = true
                <-> In (id s) (map id sel)).
  { rewrite existsb_exists, in_map_iff; split; intros [x [A B]]; exists x.
    - apply String.eqb_eq in B; auto.
    - split; [assumption | now apply String.eqb_eq]. }
  destruct (is_status Movies.booked s || is_status Movies.locked s && not_mine s user)
    eqn:Blocked.
  - assert (N : ~ ~ (is_status Movies.booked s = true
                     \/ is_status Movies.locked s = true /\ not_mine s user = true)).
    { intros N; apply N.
      apply orb_true_iff in Blocked; destruct Blocked as [B | B]; [now left|].
      apply andb_true_iff in B; now right. }
    repeat split; try (intros; reflexivity); try (intros F; now elim N).
  - assert (Free : ~ (is_status Movies.booked s = true
                      \/ is_status Movies.locked s = true /\ not_mine s user = true)).
    { intros [B | [L M]]; [now rewrite B in Blocked|].
      now rewrite L, M, orb_true_r in Blocked. }
    split; [intros B; now elim Free|].
    destruct (existsb (fun x => String.eqb (id x) (id s)) sel) eqn:E.
    + assert (H : In (id s) (map id sel)) by now apply Sel.
      split; [reflexivity|].
      split; [intros _ N; now elim N|]; split; [intros _ N; now elim N|].
      cbn [sent selected]; destruct channel as [showtimeId|]; split.
      * intros _; split; [discriminate | now apply filter_drops].
      * discriminate.
      * intros F; now elim F.
      * intros [F _]; now elim F.
    + assert (H : ~ In (id s) (map id sel))
        by (intros H; apply Sel in H; congruence).
      split; [intros _ F; now elim H|].
      destruct (Nat.leb_spec 10 (List.length sel)) as [Full | Room].
      * split; [reflexivity|]; split; [intros; lia|].
        cbn [sent selected]; split; [intros F; now elim F|].
        intros [_ F]; now elim F.
      * split; [intros; lia|]; split; [reflexivity|].
        assert (Grown : sel ++ [s] <> sel).
        { intros G; apply (f_equal (@List.length seat)) in G.
          rewrite length_app in G; simpl in G; lia. }
        cbn [sent selected]; destruct channel as [showtimeId|]; split.
        -- intros _; split; [discriminate | exact Grown].
        -- discriminate.
        -- intros F; now elim F.
        -- intros [F _]; now elim F.
Qed.

(** X24.  Clicking a selectable seat that is not selected, with fewer than
    ten seats selected, and clicking it again gives the selection back; the
    two clicks send select and then deselect for that seat. *)
Theorem click_twice_round_trip (user : option ident) (showtimeId : ident)
    (sel : list seat) (s : seat) :
  is_status Movies.booked s = false ->
  is_status Movies.locked s && not_mine s user = false ->
  ~ In (id s) (map id sel) ->
  (List.length sel < 10)%nat ->
  let c1 := handleSeatSelect user (Some showtimeId) sel s in
  let c2 := handleSeatSelect user (Some showtimeId) (selected c1) s in
  selected c2 = sel
  /\ sent c1 = Some (Sockets.mk_select showtimeId [id s] Sockets.select)
  /\ sent c2 = Some (Sockets.mk_select showtimeId [id s] Sockets.deselect).
Proof.
  intros B L N Len; cbv zeta.
  assert (E : existsb (fun x => String.eqb (id x) (id s)) sel = false).
  { destruct (existsb _ sel) eqn:E; [|reflexivity].
    apply existsb_exists in E; destruct E as [x [Hx E]].
    apply String.eqb_eq in E; elim N; rewrite <- E; now apply in_map. }
  assert (C1 : handleSeatSelect user (Some showtimeId) sel s
               = mk_click (sel ++ [s]) None
                          (Some (Sockets.mk_select showtimeId [id s] Sockets.select))).
  { unfold handleSeatSelect; rewrite B, L, E; cbn [orb].
    destruct (Nat.leb_spec 10 (List.length sel)); [lia | reflexivity]. }
  rewrite C1; cbn [selected sent].
  unfold handleSeatSelect; rewrite B, L, existsb_app, E; cbn [orb existsb].
  rewrite String.eqb_refl; cbn [orb selected sent].
  repeat split.
  rewrite filter_app; cbn [filter]; rewrite String.eqb_refl; cbn [negb].
  rewrite app_nil_r; apply filter_all; intros x Hx.
  destruct (String.eqb_spec (id x) (id s)) as [Ex|]; [|reflexivity].
  elim N; rewrite <- Ex; now apply in_map.
Qed.

(** X25.  Applying a seat event to the page's seats changes no seat the
    event does not name and cannot add, drop or reorder seats; a
    seats-locked event naming the viewer as holder is ignored; and applying
    the same event a second time changes nothing more. *)
Theorem on_event_idempotent (user : option ident) (p : Realtime.payload)
    (seats : list seat) :
  on_event user p (on_event user p seats) = on_event user p seats
  /\ map row (on_event user p seats) = map row seats
  /\ (forall s, In s seats ->
        ~ In (id s) (match p with
                     | Realtime.seats_locked ids _ _ => ids
                     | Realtime.seats_released ids => ids
                     | Realtime.seats_booked ids _ => ids
                     | _ => []
                     end) ->
        In s (on_event user p seats))
  /\ (forall ids until_ u, user = Some u ->
        p = Realtime.seats_locked ids u until_ -> on_event user p seats = seats).
Proof.
  assert (Twice : forall ids st by_ until_ l,
            updateSeatStatus ids st by_ until_ (updateSeatStatus ids st by_ until_ l)
            = updateSeatStatus ids st by_ until_ l).
  { intros ids st by_ until_ l; unfold updateSeatStatus.
    rewrite map_map; apply map_ext; intros s.
    destruct (elem (id s) ids) eqn:E; [|now rewrite E].
    unfold id in *; simpl; now rewrite E. }
  assert (Rows : forall ids st by_ until_ l,
            map row (updateSeatStatus ids st by_ until_ l) = map row l).
  { intros ids st by_ until_ l; unfold updateSeatStatus.
    rewrite map_map; apply map_ext; intros s.
    destruct (elem (id s) ids); reflexivity. }
  assert (Frame : forall ids st by_ until_ l s,
            In s l -> ~ In (id s) ids ->
            In s (updateSeatStatus ids st by_ until_ l)).
  { intros ids st by_ until_ l s Hs N; unfold updateSeatStatus.
    apply in_map_iff; exists s; split; [|assumption].
    destruct (elem (id s) ids) eqn:E; [|reflexivity].
    apply elem_In in E; contradiction. }
  repeat split.
  - destruct p as [ids by_ until_ | ids | ids bk | |]; simpl; try reflexivity;
      [destruct (differs by_ user); [apply Twice | reflexivity]
      | apply Twice | apply Twice].
  - destruct p as [ids by_ until_ | ids | ids bk | |]; simpl; try reflexivity;
      [destruct (differs by_ user); [apply Rows | reflexivity]
      | apply Rows | apply Rows].
  - intros s Hs N.
    destruct p as [ids by_ until_ | ids | ids bk | |]; simpl; try assumption;
      [destruct (differs by_ user); [now apply Frame | assumption]
      | now apply Frame | now apply Frame].
  - intros ids until_ u -> ->; simpl.
    now rewrite String.eqb_refl.
Qed.

End ClientFacts.

Section ReadSamples.
Import Store Catalog ReadOrders CatalogSamples.
Local Open Scope string_scope.

Lemma movies_index_active_newest_first_sample :
  Sorted.StronglySorted newer_movie [movie3; movie1].
Proof.
  apply (movies_index_active_newest_first false catalog1 [movie3; movie1]).
  reflexivity.
Defined.

(** A request at 01:00 UTC of day 100: the showtime of day 99 is left out,
    the one of 01:00 of day 100 and the later ones are listed. *)
Lemma movie_detail_upcoming_sample :
  Sorted.StronglySorted showtime_before
    [showing "S2" 100 3600; showing "S" 100 72000; showing "S3" 101 36000].
Proof.
  destruct (movie_detail_upcoming (100 * 86400000 + 7200000) false false "M1"
              catalog1 movie1
              [MovieReads.mk_showing (showing "S2" 100 3600) (Some theater1);
               MovieReads.mk_showing (showing "S" 100 72000) (Some theater1);
               MovieReads.mk_showing (showing "S3" 101 36000) (Some theater1)]
              eq_refl) as (_ & _ & _ & S & _).
  exact S.
Defined.

Lemma my_bookings_only_mine_sample :
  Sorted.StronglySorted newer_booking
    [Booking.mk "B" "U" "S" (24 # 1) 30000 Booking.pending].
Proof.
  destruct (my_bookings_only_mine false "U" PaymentSamples.store1 catalog1
              [BookingReads.mk_view
                 (Booking.mk "B" "U" "S" (24 # 1) 30000 Booking.pending)
                 (Some (BookingReads.mk_card (showing "S" 100 72000)
                                             (Some movie1) (Some theater1)))
                 [None; None] []]
              eq_refl) as (_ & _ & S & _).
  exact S.
Defined.

(** V asks for U's booking B. *)
Lemma booking_by_id_owner_only_sample :
  BookingReads.by_id false "V" "B" PaymentSamples.store1 catalog1
  = BookingReads.status404.
Proof.
  apply (booking_by_id_owner_only false "V" "B" PaymentSamples.store1 catalog1).
  intros b [<- | []] _; discriminate.
Defined.

End ReadSamples.

Section IntentSamples.
Import Store Catalog Intents CatalogSamples.
Local Open Scope string_scope.

(** U opens a payment for the pending booking B of the payment sample, whose
    amount is 24; the rounding is taken to give 2400 on it. *)
Lemma create_intent_outcomes_sample :
  exists booking text,
    Booking.status booking = Booking.pending
    /\ snd (fst (create_intent (fun _ => true) (fun _ => 2400) "U" "B"
                   (mk_env false (Some (mk_reply "pi_2" "secret")) false)
                   PaymentSamples.store1 catalog1))
       = Some (mk_request 2400 "usd" "B" "U" text)
    /\ fst (fst (create_intent (fun _ => true) (fun _ => 2400) "U" "B"
                   (mk_env false (Some (mk_reply "pi_2" "secret")) false)
                   PaymentSamples.store1 catalog1))
       = with_payments
           (payments PaymentSamples.store1
              ++ [Payment.mk "B" "pi_2" (Booking.total_amount booking)
                             Payment.pending None])
           PaymentSamples.store1.
Proof.
  destruct (create_intent_outcomes (fun _ => true) (fun _ => 2400) "U" "B"
              (mk_env false (Some (mk_reply "pi_2" "secret")) false)
              PaymentSamples.store1 catalog1) as [Ok _].
  destruct (Ok "secret" "pi_2" eq_refl)
    as (booking & text & F & _ & _ & P & _ & R & St).
  exists booking, text; split; [exact P|]; split; [|exact St].
  injection F as <-; exact R.
Defined.

(** Two payments were opened for B.  The succeeded event of pi_1 is processed
    at 10:02:00; a new intent for B is then refused, and yet the succeeded
    event of pi_0, arriving at 10:03:00, completes the other payment of the
    booking that is already paid. *)
Lemma paid_booking_gets_no_intent_sample :
  snd (create_intent (fun _ => true) (fun _ => 2400) "U" "B"
         (mk_env false (Some (mk_reply "pi_2" "secret")) false)
         (fst (fst (Payments.webhook 120000 Payments.no_failure
                      (Payments.payment_intent_succeeded PaymentSamples.intent1)
                      PaymentSamples.two_intents)))
         catalog1)
  = status404
  /\ In (Payment.mk "B" "pi_0" (24 # 1) Payment.completed (Some 180000))
        (payments
           (fst (fst (Payments.webhook 180000 Payments.no_failure
                        (Payments.payment_intent_succeeded PaymentSamples.intent0)
                        (fst (fst (Payments.webhook 120000 Payments.no_failure
                                     (Payments.payment_intent_succeeded
                                        PaymentSamples.intent1)
                                     PaymentSamples.two_intents))))))).
Proof.
  destruct (paid_booking_gets_no_intent (fun _ => true) (fun _ => 2400) 120000
              PaymentSamples.intent1 "U"
              (mk_env false (Some (mk_reply "pi_2" "secret")) false)
              PaymentSamples.two_intents catalog1) as [(_ & _ & Refused) Earlier].
  split.
  - destruct Refused as [R | R]; [discriminate R | exact R].
  - destruct (Earlier 180000 PaymentSamples.intent0
                (Payment.mk "B" "pi_0" (24 # 1) Payment.pending None))
      as (_ & _ & Done).
    + simpl; auto.
    + reflexivity.
    + discriminate.
    + exact Done.
Defined.

End IntentSamples.

Section ClientSamples.
Import Client CatalogSamples.
Local Open Scope string_scope.

Lemma click_twice_round_trip_sample :
  selected
    (handleSeatSelect (Some "U") (Some "S")
       (selected (handleSeatSelect (Some "U") (Some "S")
                    [free_seat "A1" 1] (free_seat "A2" 2)))
       (free_seat "A2" 2))
  = [free_seat "A1" 1].
Proof.
  apply (click_twice_round_trip (Some "U") "S" [free_seat "A1" 1]
           (free_seat "A2" 2)).
  - reflexivity.
  - reflexivity.
  - intros [E | []]; discriminate E.
  - simpl; lia.
Defined.

(** U clicks A1, shown as locked by V, and nothing happens; U clicks the
    free A2 with A1 selected, and A2 is appended and select is sent for it. *)
Lemma click_protocol_sample :
  handleSeatSelect (Some "U") (Some "S") []
    (mk_seat (Seat.mk "A1" "T" 1 1 Seat.regular true) (Some Movies.locked)
             (value "V") (value 600000))
  = mk_click [] None None
  /\ handleSeatSelect (Some "U") (Some "S") [free_seat "A1" 1] (free_seat "A2" 2)
     = mk_click [free_seat "A1" 1; free_seat "A2" 2] None
                (Some (Sockets.mk_select "S" ["A2"] Sockets.select)).
Proof.
  split.
  - destruct (click_protocol (Some "U") (Some "S") []
                (mk_seat (Seat.mk "A1" "T" 1 1 Seat.regular true)
                         (Some Movies.locked) (value "V") (value 600000)))
      as [Blocked _].
    apply Blocked; right; split; reflexivity.
  - destruct (click_protocol (Some "U") (Some "S") [free_seat "A1" 1]
                (free_seat "A2" 2)) as (_ & _ & _ & Append & _).
    apply Append.
    + intros [B | [L _]]; discriminate.
    + intros [E | []]; discriminate E.
    + simpl; lia.
Defined.

End ClientSamples.

(** * Across the components *)

Section NoDoubleBooking.
Import Store Bookings Occupancy.

(** After a succeeded event the seats of the booking it names are sold. *)
Lemma sold_after_webhook (now : instant) (paymentIntent : Payments.payment_intent)
    (db : Store.t) (bs : BookingSeat.t) (b : Booking.t) :
  In bs (booking_seats db) -> In b (bookings db) ->
  BookingSeat.booking_id bs = Payments.metadata_bookingId paymentIntent ->
  Booking.id b = Payments.metadata_bookingId paymentIntent ->
  sold (fst (fst (Payments.webhook now Payments.no_failure
                    (Payments.payment_intent_succeeded paymentIntent) db)))
       (BookingSeat.showtime_id bs) (BookingSeat.seat_id bs).
Proof.
  intros Hbs Hb Ebs Eid.
  destruct (webhook_succeeded_tables now paymentIntent db) as (Eb & _ & Es & _).
  cbv zeta in Eb, Es.
  exists bs, (Booking.set_status Booking.paid b).
  rewrite Es, Eb; repeat split; try assumption.
  - now apply In_mark_paid.
  - simpl; congruence.
  - now right.
Qed.

(** X26.  Once the succeeded event of a booking has been processed, a
    booking request that arrives afterwards, from any user, naming one of
    that booking's seats for its showtime creates nothing and is never
    answered 201, whatever the lock table holds by then (the requester may
    have locked the seat after the payment); once past the schema, the
    showtime lookup and the lock count it is answered 'Some seats are already
    booked'.  The check stops requests made after the payment only; it says
    nothing of a pending booking made on the same seat before it. *)
Theorem paid_seat_cannot_be_rebooked (is_uuid : string -> bool) (now : instant)
    (paymentIntent : Payments.payment_intent) (db later : Store.t)
    (bs : BookingSeat.t) (paid : Booking.t)
    (userId : ident) (b : body) (e : env) :
  In bs (booking_seats db) -> In paid (bookings db) ->
  BookingSeat.booking_id bs = Payments.metadata_bookingId paymentIntent ->
  Booking.id paid = Payments.metadata_bookingId paymentIntent ->
  showtimeId b = BookingSeat.showtime_id bs ->
  In (BookingSeat.seat_id bs) (seatIds b) ->
  let db' := fst (fst (Payments.webhook now Payments.no_failure
                         (Payments.payment_intent_succeeded paymentIntent) db)) in
  bookings later = bookings db' ->
  booking_seats later = booking_seats db' ->
  let r := create_booking is_uuid userId b e later in
  fst r = later
  /\ (forall bk rows, snd r <> status201 bk rows)
  /\ (createBookingSchema is_uuid b = true ->
      find (fun x => String.eqb (Showtime.id x) (showtimeId b)) (showtimes later)
      <> None ->
      showtimeError e = false -> locksError e = false -> bookedError e = false ->
      List.length (held_locks later userId b) = List.length (seatIds b) ->
      snd r = status400 seats_already_booked).
Proof.
  intros Hbs Hp Ebs Eid Est Hseat; cbv zeta; intros Eb Es.
  pose proof (sold_after_webhook now paymentIntent db bs paid Hbs Hp Ebs Eid) as S.
  rewrite <- Est in S.
  assert (S' : sold later (showtimeId b) (BookingSeat.seat_id bs)).
  { destruct S as (x & y & Hx & Hy & Rest).
    exists x, y; rewrite Eb, Es; auto. }
  assert (H : In (BookingSeat.seat_id bs) (booked_among later b))
    by (apply filter_In; split;
        [now apply booked_seat_rows_In | now apply elem_In]).
  destruct (create_booking_cases is_uuid userId b e later)
    as [(St & No & _ & Why) | [(_ & _ & BA & _) | (_ & _ & BA & _)]];
    [|rewrite BA in H; destruct H | rewrite BA in H; destruct H].
  split; [exact St|]; split; [exact No|].
  intros V F SE LE BE L; apply Why; try assumption.
  intros E0; rewrite E0 in H; destruct H.
Qed.

End NoDoubleBooking.

Section NoDoubleBookingSample.
Import Store Bookings PaymentSamples.
Local Open Scope string_scope.

(** U's payment for B is processed at 10:02:00.  V then selects A1 of
    showtime S, which the socket handler grants, and asks for a booking on
    it: the booking route refuses at the check for sold seats. *)
Lemma paid_seat_cannot_be_rebooked_sample :
  seat_locks relocked = [SeatLock.mk "A1" "S" "V" 725000]
  /\ create_booking (fun _ => true) "V" (mk_body "S" ["A1"] (12 # 1))
       (mk_env 130000 "B2" false false false false false false false) relocked
     = (relocked, status400 seats_already_booked).
Proof.
  split; [reflexivity|].
  destruct (paid_seat_cannot_be_rebooked (fun _ => true) 120000 intent1 store2
              relocked
              (BookingSeat.mk "B" "A1" "S")
              (Booking.mk "B" "U" "S" (24 # 1) 30000 Booking.pending)
              "V" (mk_body "S" ["A1"] (12 # 1))
              (mk_env 130000 "B2" false false false false false false false))
    as (St & _ & Why).
  - simpl; auto.
  - simpl; auto.
  - reflexivity.
  - reflexivity.
  - reflexivity.
  - simpl; auto.
  - reflexivity.
  - reflexivity.
  - apply injective_projections; [exact St|].
    apply Why; try reflexivity; discriminate.
Defined.

End NoDoubleBookingSample.

Section BroadcastAndRefetch.
Import Store Realtime Sockets Movies Occupancy.

Lemma find_app {A} (f : A -> bool) (l1 l2 : list A) :
  find f (l1 ++ l2)
  = match find f l1 with Some x => Some x | None => find f l2 end.
Proof.
  induction l1 as [|x l1 IH]; simpl; [reflexivity|].
  destruct (f x); [reflexivity | exact IH].
Qed.

Variable res : upsert_resolution.
Variables (userId st : ident) (now t : instant) (seats : list ident).
Variable db : Store.t.

Hypothesis free_slots :
  forall x, In x seats ->
    existsb (same_slot (SeatLock.mk x st userId (now + 600000))) (seat_locks db)
    = false.
Hypothesis in_time : t < now + 600000.

Let db1 := fst (select_seats res userId now (mk_select st seats select) db).
Let mine (x : ident) := SeatLock.mk x st userId (now + 600000).

(** The live locks of the showtime after the request: those of before, then
    rows of the request. *)
Lemma live_locks_after_select :
  exists extra,
    live_locks db1 st t = live_locks db st t ++ extra
    /\ (forall l, In l extra -> exists x, In x seats /\ l = mine x)
    /\ (forall x, In x seats -> In (mine x) extra).
Proof.
  destruct (acquire_appends res st userId (now + lock_ttl_ms) seats
              (seat_locks db) [] free_slots) as [extra [E P]]; [intros l []|].
  rewrite app_nil_r in E.
  assert (E1 : seat_locks db1 = seat_locks db ++ extra) by exact E.
  assert (P' : forall l, In l extra -> exists x, In x seats /\ l = mine x)
    by (intros l Hl; destruct (P l Hl) as [[] | H]; exact H).
  exists extra; split; [|split; [exact P'|]].
  - unfold live_locks; rewrite E1, filter_app; f_equal.
    apply filter_all; intros l Hl; destruct (P' l Hl) as [x [_ ->]]; simpl.
    rewrite String.eqb_refl; unfold live; simpl; now apply Z.ltb_lt.
  - intros x Hx.
    assert (H : In (mine x) (seat_locks db1))
      by exact (acquire_free_slot res st userId (now + lock_ttl_ms) seats
                  (seat_locks db) x Hx (free_slots x Hx)).
    rewrite E1 in H; apply in_app_iff in H; destruct H as [H | H]; [|exact H].
    exfalso.
    assert (T : existsb (same_slot (mine x)) (seat_locks db) = true).
    { apply existsb_exists; eexists; split; [exact H|].
      unfold same_slot; simpl; now rewrite !String.eqb_refl. }
    unfold mine in T; rewrite (free_slots x Hx) in T; discriminate.
Qed.

Lemma lock_found_after_select (x : ident) :
  find (fun ls => String.eqb (SeatLock.seat_id ls) x) (live_locks db1 st t)
  = if elem x seats then Some (mine x)
    else find (fun ls => String.eqb (SeatLock.seat_id ls) x) (live_locks db st t).
Proof.
  destruct live_locks_after_select as (extra & E & P & Q).
  rewrite E, find_app.
  destruct (elem x seats) eqn:Ex.
  - apply elem_In in Ex.
    destruct (find _ (live_locks db st t)) as [l|] eqn:F.
    + exfalso; apply find_some in F; destruct F as [Hl Es].
      apply String.eqb_eq in Es.
      apply filter_In in Hl; destruct Hl as [Hl Pl].
      apply andb_true_iff in Pl; destruct Pl as [Est _].
      apply String.eqb_eq in Est.
      assert (T : existsb (same_slot (mine x)) (seat_locks db) = true).
      { apply existsb_exists; exists l; split; [exact Hl|].
        unfold same_slot; simpl; now rewrite Es, Est, !String.eqb_refl. }
      unfold mine in T; rewrite (free_slots x Ex) in T; discriminate.
    + destruct (find _ extra) as [y|] eqn:G.
      * apply find_some in G; destruct G as [Hy Ey].
        apply String.eqb_eq in Ey.
        destruct (P y Hy) as [x' [_ ->]]; simpl in Ey; now subst x'.
      * pose proof (find_none _ _ G (mine x) (Q x Ex)) as N; simpl in N.
        now rewrite String.eqb_refl in N.
  - destruct (find _ (live_locks db st t)); [reflexivity|].
    destruct (find _ extra) as [y|] eqn:G; [|reflexivity].
    apply find_some in G; destruct G as [Hy Ey]; apply String.eqb_eq in Ey.
    destruct (P y Hy) as [x' [Hx' ->]]; simpl in Ey; subst x'.
    apply elem_In in Hx'; congruence.
Qed.

Lemma filter_map_agree {A B} (p : B -> bool) (g h : A -> B) (l : list A) :
  (forall x, In x l -> p (g x) = p (h x) /\ (p (g x) = true -> g x = h x)) ->
  filter p (map g l) = filter p (map h l).
Proof.
  induction l as [|x l IH]; intros H; [reflexivity|]; simpl.
  destruct (H x (or_introl eq_refl)) as [E G].
  rewrite <- E, IH by (intros y Hy; apply H; now right).
  destruct (p (g x)); [now rewrite G | reflexivity].
Qed.

(** X27.  How far the broadcast keeps another viewer's page in step with the
    store.  A user selects seats that were free and are not sold; a viewer
    other than that user holds the seats of a seat-map response fetched at
    some reading [t0] of the clock from the store as it was before the
    selection, and applies the seats-locked event.  Then the page has the
    seats of a fresh response, in the same order, and on the seats the event
    names it shows exactly what a fresh response shows at any reading [t]
    before the new locks expire.  On the other seats the page still shows
    what held at [t0]: the whole page equals the fresh response when no lock
    row of the showtime has changed between live and run out from [t0] to
    [t]. *)
Theorem broadcast_matches_refetch (viewer : option ident) (sh : Showtime.t)
    (t0 : instant) (before : list seat_view) :
  (forall x, In x seats -> ~ sold db st x) ->
  userId <> EmptyString ->
  viewer <> Some userId ->
  showtime_seats t0 no_failure st db = ok sh before ->
  let event := seats_locked seats userId (now + 600000) in
  let page := Client.on_event viewer event (map Client.of_view before) in
  let named (s : Client.seat) := elem (Client.id s) seats in
  exists after,
    showtime_seats t no_failure st db1 = ok sh after
    /\ snd (select_seats res userId now (mk_select st seats select) db)
       = [to_room_except_sender (room_of st) event]
    /\ map Client.row page = map seat after
    /\ filter named page = filter named (map Client.of_view after)
    /\ (forall s, In s page -> named s = true ->
          s = Client.mk_seat (Client.row s) (Some locked) (Client.value userId)
                             (Client.value (now + 600000)))
    /\ ((forall l, In l (seat_locks db) -> SeatLock.showtime_id l = st ->
            live t0 l = live t l) ->
        page = map Client.of_view after).
Proof.
  intros Unsold Named Other.
  unfold showtime_seats; cbn [showtimeError seatsError bookedError lockedError
                              no_failure].
  change (showtimes db1) with (showtimes db).
  destruct (find _ (showtimes db)) as [sh'|]; [|discriminate].
  intros [= -> <-]; cbv zeta.
  eexists; split; [reflexivity|]; split; [reflexivity|].
  change (theater_seats db1 (Showtime.theater_id sh))
    with (theater_seats db (Showtime.theater_id sh)).
  change (booked_seat_rows db1 st) with (booked_seat_rows db st).
  assert (D : Client.differs userId viewer = true).
  { unfold Client.differs; destruct viewer as [u|]; [|reflexivity].
    destruct (String.eqb_spec userId u) as [->|]; [now elim Other | reflexivity]. }
  cbn [Client.on_event]; rewrite D; unfold Client.updateSeatStatus.
  rewrite !map_map.
  assert (Fresh : forall s, elem (Seat.id s) seats = true ->
            Client.of_view
              (seat_status (booked_seat_rows db st) (live_locks db1 st t) s)
            = Client.mk_seat s (Some locked) (Client.value userId)
                             (Client.value (now + 600000))).
  { intros s Es; unfold seat_status; rewrite lock_found_after_select, Es.
    apply elem_In in Es.
    replace (existsb (fun bs => String.eqb bs (Seat.id s)) (booked_seat_rows db st))
      with false.
    - unfold Client.of_view, mine;
        cbn [seat status lockedBy lockedUntil SeatLock.user_id
             SeatLock.locked_until].
      unfold or_null; destruct userId; [now elim Named | reflexivity].
    - symmetry.
      destruct (existsb (fun bs => String.eqb bs (Seat.id s))
                        (booked_seat_rows db st)) eqn:B; [|reflexivity].
      apply existsb_exists in B; destruct B as [y [Hy Ey]].
      apply String.eqb_eq in Ey; subst y.
      elim (Unsold _ Es); now apply booked_seat_rows_In. }
  assert (Rest : forall s, elem (Seat.id s) seats = false ->
            seat_status (booked_seat_rows db st) (live_locks db1 st t) s
            = seat_status (booked_seat_rows db st) (live_locks db st t) s).
  { intros s Es; unfold seat_status; now rewrite lock_found_after_select, Es. }
  assert (Id : forall ls s,
            Client.id (Client.of_view (seat_status (booked_seat_rows db st) ls s))
            = Seat.id s) by reflexivity.
  assert (Row : forall ls s,
            Client.row (Client.of_view (seat_status (booked_seat_rows db st) ls s))
            = s) by reflexivity.
  split; [|split; [|split]].
  - apply map_ext; intros s; rewrite Id.
    destruct (elem (Seat.id s) seats); reflexivity.
  - apply filter_map_agree; intros s _; rewrite !Id.
    destruct (elem (Seat.id s) seats) eqn:Es.
    + rewrite !Row, (Fresh s Es); unfold Client.id; cbn [Client.row].
      rewrite Es; split; reflexivity.
    + rewrite Id, Es; split; [reflexivity | discriminate].
  - intros s Hs Ns; apply in_map_iff in Hs; destruct Hs as [x [<- _]].
    rewrite Id in *.
    destruct (elem (Seat.id x) seats) eqn:Es; [reflexivity|].
    rewrite Id, Es in Ns; discriminate.
  - intros Same.
    assert (L : live_locks db st t0 = live_locks db st t).
    { unfold live_locks; apply filter_ext_in; intros l Hl.
      destruct (String.eqb_spec (SeatLock.showtime_id l) st) as [E|];
        [simpl; now apply Same | reflexivity]. }
    apply map_ext; intros s; rewrite Id.
    destruct (elem (Seat.id s) seats) eqn:Es.
    + now rewrite (Fresh s Es).
    + now rewrite (Rest s Es), L.
Qed.

End BroadcastAndRefetch.

Section BroadcastSample.
Import Store Realtime Sockets Movies SeatMapSamples.
Local Open Scope string_scope.

(** W fetches the seat map at 10:04:10; V selects A4 at 10:05:00 and W applies
    the event.  No lock runs out before 10:05:30 (U's lock on A2 runs until
    10:10:00, V's old lock on A3 had run out at 10:04:00), so W's page is
    what a response fetched at 10:05:30 gives. *)
Lemma broadcast_matches_refetch_sample :
  exists after,
    showtime_seats 330000 no_failure "S"
      (fst (select_seats MergeDuplicates "V" 300000
              (mk_select "S" ["A4"] select) store1))
    = ok showtimeS after
    /\ Client.on_event (Some "W") (seats_locked ["A4"] "V" 900000)
         (map Client.of_view
            [mk_view (seatA 1 "A1") booked None None;
             mk_view (seatA 2 "A2") locked (Some "U") (Some 600000);
             mk_view (seatA 3 "A3") available None None;
             mk_view (seatA 4 "A4") available None None])
       = map Client.of_view after.
Proof.
  destruct (broadcast_matches_refetch MergeDuplicates "V" "S" 300000 330000
              ["A4"] store1) with (viewer := Some "W") (sh := showtimeS)
      (t0 := 250000)
      (before := [mk_view (seatA 1 "A1") booked None None;
                  mk_view (seatA 2 "A2") locked (Some "U") (Some 600000);
                  mk_view (seatA 3 "A3") available None None;
                  mk_view (seatA 4 "A4") available None None])
    as (after & E & _ & _ & _ & _ & All).
  - intros x [<- | []]; reflexivity.
  - lia.
  - intros x [<- | []]; rewrite <- booked_seat_rows_In; simpl.
    intros [E | []]; discriminate E.
  - discriminate.
  - discriminate.
  - reflexivity.
  - exists after; split; [exact E|].
    apply All; intros l [<- | [<- | []]] _; reflexivity.
Defined.

End BroadcastSample.
